(** * LakeShore.py: the buffered log writer, the instrument reader and the
    sampling loop

    A shallow embedding of [LakeShore.py].  Python objects are records,
    methods are computations in a small state-and-exception monad over a
    [machine] that holds the writer object, the call counters of the
    external clocks and of the instrument, and the chronological log of
    every effect the program performs.

    Conventions.
    - Strings are sequences of 8-bit characters (code points below 256).
    - [monotonic()] readings, the window and the deadline, doubles in the
      program, are integers, a number of clock ticks ([ticks_per_second]
      of them make one second), which keeps their order.  Their sum is
      [float_add], which stands for the sum of doubles and may round;
      [exact_sum] is the sum without rounding.
    - The monotonic clock and the instrument are oracles, indexed by the
      number of calls made so far; the wall clock is given turn by turn to
      the sampling loop.
    - Python's floats, [float(s)] and the float formats are parameters of
      the definitions that use them; [Float] is an instance that runs. *)

From Stdlib Require Import ZArith List String Ascii Bool Arith Lia.
From Stdlib Require Import DecimalString.
Import ListNotations.
Local Open Scope string_scope.
Local Open Scope list_scope.

(* ================================================================== *)
(** ** Python built-ins used by the program *)

Module Py.

(** [str.isspace] on one character (code points below 256). *)
Definition isspace (c : ascii) : bool :=
  let n := nat_of_ascii c in
  (((9 <=? n) && (n <=? 13)) || ((28 <=? n) && (n <=? 32))
   || (n =? 133) || (n =? 160))%nat.

(** [s.lstrip()] *)
Fixpoint lstrip (s : string) : string :=
  match s with
  | EmptyString => EmptyString
  | String c t => if isspace c then lstrip t else s
  end.

(** [s[n:]] for [n >= 0] *)
Fixpoint drop (n : nat) (s : string) : string :=
  match n, s with
  | O, _ => s
  | S _, EmptyString => EmptyString
  | S k, String _ t => drop k t
  end.

(** [s[:n]] for [n >= 0] *)
Fixpoint take (n : nat) (s : string) : string :=
  match n, s with
  | O, _ => EmptyString
  | S _, EmptyString => EmptyString
  | S k, String c t => String c (take k t)
  end.

(** [s[:-k]] for [k > 0]: all but the last [k] characters. *)
Definition drop_last (k : nat) (s : string) : string :=
  take (String.length s - k) s.

(** [s.split(sep)] for a one-character separator. *)
Fixpoint split (sep : ascii) (s : string) : list string :=
  match s with
  | EmptyString => [EmptyString]
  | String c t =>
      if Ascii.eqb c sep then EmptyString :: split sep t
      else match split sep t with
           | [] => [String c EmptyString]
           | h :: r => String c h :: r
           end
  end.

(** [l[1:-1]] *)
Definition slice_1_m1 {A : Type} (l : list A) : list A := removelast (tl l).

(** [s.rstrip('/')] *)
Fixpoint rstrip_slash (s : string) : string :=
  match s with
  | EmptyString => EmptyString
  | String c t =>
      match rstrip_slash t with
      | EmptyString => if Ascii.eqb c "/" then EmptyString
                       else String c EmptyString
      | t' => String c t'
      end
  end.

(** [s.upper()] on ASCII letters. *)
Definition upper_char (c : ascii) : ascii :=
  let n := nat_of_ascii c in
  if ((97 <=? n) && (n <=? 122))%nat then ascii_of_nat (n - 32) else c.

Fixpoint upper (s : string) : string :=
  match s with
  | EmptyString => EmptyString
  | String c t => String (upper_char c) (upper t)
  end.

(** [x in l] for a list of strings. *)
Definition mem (x : string) (l : list string) : bool :=
  existsb (String.eqb x) l.

(** Truth value of a string: non-empty. *)
Definition truthy (s : string) : bool :=
  match s with EmptyString => false | _ => true end.

(** Truth value of a list: non-empty. *)
Definition nonempty {A : Type} (l : list A) : bool :=
  match l with [] => false | _ => true end.

(** The characters that [int(s)] and [float(s)] skip at both ends. *)
Definition isblank (c : ascii) : bool :=
  let n := nat_of_ascii c in
  (((9 <=? n) && (n <=? 13)) || (n =? 32) || (n =? 133) || (n =? 160))%nat.

Fixpoint lskip (s : string) : string :=
  match s with
  | EmptyString => EmptyString
  | String c t => if isblank c then lskip t else s
  end.

Fixpoint rskip (s : string) : string :=
  match s with
  | EmptyString => EmptyString
  | String c t =>
      match rskip t with
      | EmptyString => if isblank c then EmptyString
                       else String c EmptyString
      | t' => String c t'
      end
  end.

(** The text of a number between the blanks around it. *)
Definition unblank (s : string) : string := rskip (lskip s).

Definition digit_value (c : ascii) : option Z :=
  let n := nat_of_ascii c in
  if ((48 <=? n) && (n <=? 57))%nat then Some (Z.of_nat (n - 48)) else None.

(** Digits with single underscores between them, read from the value
    [acc] of the digits before; [after_digit] tells that the character
    before was a digit. *)
Fixpoint digits_value (after_digit : bool) (acc : Z) (s : string)
  : option Z :=
  match s with
  | EmptyString => if after_digit then Some acc else None
  | String c t =>
      match digit_value c with
      | Some d => digits_value true (10 * acc + d) t
      | None =>
          if Ascii.eqb c "_" && after_digit
          then digits_value false acc t
          else None
      end
  end.

(** [int(s)] in base ten; [None] where Python raises [ValueError]. *)
Definition int (s : string) : option Z :=
  match unblank s with
  | String "-" t => option_map Z.opp (digits_value false 0 t)
  | String "+" t => digits_value false 0 t
  | t => digits_value false 0 t
  end.

(** [str(n)] for an integer. *)
Definition str_int (n : Z) : string :=
  NilZero.string_of_int (Z.to_int n).

(** The decimal digit [0 <= d < 10] as a character. *)
Definition digit (d : Z) : ascii := ascii_of_nat (48 + Z.to_nat d).

Definition is_digit (c : ascii) : bool :=
  let n := nat_of_ascii c in ((48 <=? n) && (n <=? 57))%nat.

(** A number [0 <= n < 100] on two digits. *)
Definition dec2 (n : Z) : string :=
  String (digit (n / 10)) (String (digit (n mod 10)) EmptyString).

(** A number [0 <= n < 1000000] on six digits. *)
Definition dec6 (n : Z) : string :=
  String (digit (n / 100000))
    (String (digit ((n / 10000) mod 10))
       (String (digit ((n / 1000) mod 10))
          (String (digit ((n / 100) mod 10))
             (String (digit ((n / 10) mod 10))
                (String (digit (n mod 10)) EmptyString))))).

(** [f"{i:02}"] for [i >= 0]. *)
Definition fmt_02 (i : nat) : string :=
  if (i <? 10)%nat then String "0" (NilZero.string_of_uint (Nat.to_uint i))
  else NilZero.string_of_uint (Nat.to_uint i).

Definition nl : string := String (ascii_of_nat 10) EmptyString.
Definition tab : string := String (ascii_of_nat 9) EmptyString.

End Py.

(* ================================================================== *)
(** ** Debug flags and configuration *)

(** The module-level list [_DEBUG] as the source sets it. *)
Definition _DEBUG : list string := ["TEMPFILE"; "LOG_GPIB"; "NOGPIB"].

(** [debug], applied to its variadic [flags], for a given flag list. *)
Definition debug (DEBUG : list string) (flags : list string) : bool :=
  if Py.mem "NONE" DEBUG then false
  else if Py.mem "ALL" DEBUG then true
  else if existsb (fun f => Py.mem (Py.upper f) DEBUG) flags then true
  else if Py.nonempty flags then false
  else true.

(** Ticks of the monotonic clock in one second. *)
Definition ticks_per_second : Z := 1000000000.

(** [setup["MESUREMENTINTERVAL"]], in seconds. *)
Definition MESUREMENTINTERVAL : Z := 2.

Definition VERSION : string := "0.00".

(** The entry of [configuration] selected by the host name; both entries of
    the source hold the same values.  The heater resistance is kept as the
    text that the header prints. *)
Record config := {
  DEVICENAME : string;
  LAKESHORE_Heater_Resistance : string;
  FILEPATH : string;
  LOCALFILEPATH : string;
  SAVINGINTERVALS : Z;
  TEMPFILEPATH : string;
  TEMPFILENAME : string
}.

Definition configuration : config := {|
  DEVICENAME := "GPIB2::24::INSTR";
  LAKESHORE_Heater_Resistance := "194.0";
  FILEPATH := "./";
  LOCALFILEPATH := ".";
  SAVINGINTERVALS := 10 * ticks_per_second;
  TEMPFILEPATH := ".";
  TEMPFILENAME := "d.dat"
|}.

(* ================================================================== *)
(** ** Effects: the log, the machine and the monad *)

Inductive mode := ModeW | ModeA.

(** Everything the program does to the outside, in the order it does it. *)
Inductive event :=
| Monotonic (t : Z)                  (* monotonic() returned t *)
| Open (path : string) (m : mode)    (* open(path, "w") / open(path, "a") *)
| WriteHeader (text : string)        (* fh.write(self.headertext), flushheader *)
| WriteLine (text : string)          (* fh.write(f"{d}\n"), savedata *)
| Close                              (* fh.close() *)
| Print (text : string)              (* print(text) *)
| Query (cmd : string)               (* self.query(cmd) was called *)
| Sleep (s : Z).                     (* sleep(s) *)

(** The exceptions that the modelled code raises. *)
Inductive exn := TypeError | ValueError | NameError.

Inductive result (A : Type) :=
| Ok (a : A)
| Raise (e : exn).
Arguments Ok {A} a.
Arguments Raise {A} e.

(** The object of class [monitor_file]; [headertext] is [None] once the
    header has been flushed. *)
Record monitor_file := {
  created : string;
  fp : string;
  headertext : option string;
  data : list string;
  time : Z
}.

Record machine := {
  fh : monitor_file;       (* the writer object *)
  monotonic_calls : nat;   (* calls of monotonic() so far *)
  queries : nat;           (* queries answered by the instrument so far *)
  log : list event         (* effects so far, oldest first *)
}.

Definition M (A : Type) : Type := machine -> result A * machine.

Definition ret {A : Type} (a : A) : M A := fun m => (Ok a, m).

Definition bind {A B : Type} (c : M A) (k : A -> M B) : M B :=
  fun m => match c m with
           | (Ok a, m') => k a m'
           | (Raise e, m') => (Raise e, m')
           end.

Definition raise {A : Type} (e : exn) : M A := fun m => (Raise e, m).

Declare Scope py_scope.
Delimit Scope py_scope with py.
Notation "x <- c ;; k" := (bind c (fun x => k))
  (at level 61, c at next level, right associativity) : py_scope.
Notation "c ;; k" := (bind c (fun _ => k))
  (at level 61, right associativity) : py_scope.
Local Open Scope py_scope.

Definition emit (e : event) : M unit :=
  fun m => (Ok tt, {| fh := fh m; monotonic_calls := monotonic_calls m;
                      queries := queries m; log := log m ++ [e] |}).

Definition get_fh : M monitor_file := fun m => (Ok (fh m), m).

Definition put_fh (o : monitor_file) : M unit :=
  fun m => (Ok tt, {| fh := o; monotonic_calls := monotonic_calls m;
                      queries := queries m; log := log m |}).

(** [for x in l: body(x)] *)
Fixpoint for_each {A : Type} (l : list A) (body : A -> M unit) : M unit :=
  match l with
  | [] => ret tt
  | x :: l' => body x ;; for_each l' body
  end.

(** Attribute assignments on [self]. *)
Definition set_headertext (h : option string) (o : monitor_file) :=
  {| created := created o; fp := fp o; headertext := h;
     data := data o; time := time o |}.
Definition set_data (d : list string) (o : monitor_file) :=
  {| created := created o; fp := fp o; headertext := headertext o;
     data := d; time := time o |}.
Definition set_time (t : Z) (o : monitor_file) :=
  {| created := created o; fp := fp o; headertext := headertext o;
     data := data o; time := t |}.

(* ================================================================== *)
(** ** The sum of a clock reading and the window *)

(** The readings of [monotonic()], the window and the deadline are doubles
    in the program.  The model keeps them as integers: this is exact for
    the comparisons, which is all that [savedata] does with the deadline.
    The sum [monotonic() + configuration['SAVINGINTERVALS']] is a sum of
    doubles, which rounds: [float_add] is that sum. *)
Class float_sum := float_add : Z -> Z -> Z.

(** The sum without rounding, for the runs in which it is exact. *)
#[global] Instance exact_sum : float_sum := Z.add.

(* ================================================================== *)
(** ** class monitor_file *)

Section Writer.

Context {sum : float_sum}.
Variable DEBUG : list string.
Variable cfg : config.
(** [clock n] is what the call number [n] of [monotonic()] returns. *)
Variable clock : nat -> Z.

Definition monotonic : M Z :=
  fun m =>
    let t := clock (monotonic_calls m) in
    (Ok t, {| fh := fh m; monotonic_calls := S (monotonic_calls m);
              queries := queries m; log := log m ++ [Monotonic t] |}).

(** [monitor_file.__init__(self, fp, fn)]; [stamp] is what
    [strftime(r'%Y%m%dT%H%M%S', localtime())] returns. *)
Definition init (stamp fp0 fn : string) : M unit :=
  let fp1 := Py.rstrip_slash fp0 in
  let path := (fp1 ++ "/" ++ fn ++ stamp ++ ".dat")%string in
  path <- (if debug DEBUG ["TEMPFILE"] then
             let path := (TEMPFILEPATH cfg ++ "/" ++ TEMPFILENAME cfg)%string in
             emit (Open path ModeW) ;; emit Close ;; ret path
           else ret path) ;;
  now <- monotonic ;;
  put_fh {| created := stamp; fp := path; headertext := Some EmptyString;
            data := []; time := float_add now (SAVINGINTERVALS cfg) |}.

(** [flushheader(self, fh)] *)
Definition flushheader : M unit :=
  self <- get_fh ;;
  match headertext self with
  | Some h => emit (WriteHeader h) ;; put_fh (set_headertext None self)
  | None => raise TypeError
  end.

(** One turn of the loop of [writeheaderblock]:
    [self.headertext += f"# {l[n:]}\n"]. *)
Definition add_header_line (n : nat) (l : string) : M unit :=
  self <- get_fh ;;
  match headertext self with
  | Some h =>
      put_fh (set_headertext
                (Some (h ++ "# " ++ Py.drop n l ++ Py.nl)%string) self)
  | None => raise TypeError
  end.

(** The lines the loop of [writeheaderblock] runs over. *)
Definition block_lines (b : string) : list string :=
  Py.slice_1_m1 (Py.split (ascii_of_nat 10) b).

(** [n], set in the first turn of the loop. *)
Definition block_indent (b : string) : nat :=
  match block_lines b with
  | [] => 0
  | l :: _ => String.length l - String.length (Py.lstrip l)
  end.

(** [writeheaderblock(self, b)] *)
Definition writeheaderblock (b : string) : M unit :=
  for_each (block_lines b) (add_header_line (block_indent b)).

(** [if self.headertext: self.flushheader(fh)] *)
Definition header_pending (o : monitor_file) : bool :=
  match headertext o with
  | Some h => Py.truthy h
  | None => false
  end.

(** [savedata(self)] *)
Definition savedata : M unit :=
  self <- get_fh ;;
  if negb (Py.nonempty (data self)) then ret tt else
  now <- monotonic ;;
  if (now <? time self)%Z then ret tt else
  emit (Open (fp self) ModeA) ;;
  (if header_pending self then flushheader else ret tt) ;;
  for_each (data self) (fun d => emit (WriteLine (d ++ Py.nl)%string)) ;;
  emit Close ;;
  self <- get_fh ;;
  put_fh (set_data [] self) ;;
  now <- monotonic ;;
  self <- get_fh ;;
  put_fh (set_time (float_add now (SAVINGINTERVALS cfg)) self).

(** [writedata(self, datastr)] *)
Definition writedata (datastr : string) : M unit :=
  self <- get_fh ;;
  put_fh (set_data (data self ++ [datastr]) self) ;;
  savedata.

(** [flushdata(self)] *)
Definition flushdata : M unit :=
  now <- monotonic ;;
  self <- get_fh ;;
  put_fh (set_time now self) ;;
  savedata.

End Writer.

(* ================================================================== *)
(** ** A runtime for floats

    The sections below take Python's floats, [float(s)] and the two
    format specifications as parameters.  This module is one instance, for
    running the model: binary64 values, the conversion from text rounds to
    the nearest value (ties to even), and the formats print the exact value
    rounded to the digits asked for (ties to even). *)

Module Float.

Inductive t :=
| Finite (neg : bool) (m : Z) (e : Z)   (* (-1)^neg * m * 2^e, 0 <= m < 2^53 *)
| Infinity (neg : bool)
| NaN.

(** The integer nearest to [p / q], ties to even ([0 <= p], [0 < q]). *)
Definition nearest (p q : Z) : Z :=
  let d := (p / q)%Z in
  let r := (2 * (p mod q))%Z in
  if (r <? q)%Z then d
  else if (q <? r)%Z then (d + 1)%Z
  else if Z.even d then d else (d + 1)%Z.

(** [p / q * 2^(-e)] as a fraction. *)
Definition scale2 (p q e : Z) : Z * Z :=
  if (0 <=? e)%Z then (p, (q * 2 ^ e)%Z) else ((p * 2 ^ (- e))%Z, q).

(** The binary64 value nearest to [p / q] ([0 <= p], [0 < q]). *)
Definition of_ratio (neg : bool) (p q : Z) : t :=
  if (p =? 0)%Z then Finite neg 0 0 else
  let e0 := (Z.log2 p - Z.log2 q - 52)%Z in
  let '(a, b) := scale2 p q e0 in
  let e1 := if (a <? b * 2 ^ 52)%Z then (e0 - 1)%Z else e0 in
  let e := Z.max e1 (-1074) in
  let '(a, b) := scale2 p q e in
  let m := nearest a b in
  let '(m, e) := if (m =? 2 ^ 53)%Z then (2 ^ 52, e + 1)%Z else (m, e) in
  if (971 <? e)%Z then Infinity neg else Finite neg m e.

(** A run of digits with single underscores between them: its value
    from [acc], the number of digits, and the text after it; the run may
    be empty. *)
Fixpoint digitpart (after_digit : bool) (acc : Z) (n : Z) (s : string)
  : option (Z * Z * string) :=
  match s with
  | EmptyString => Some (acc, n, s)
  | String c t =>
      match Py.digit_value c with
      | Some d => digitpart true (10 * acc + d) (n + 1) t
      | None =>
          if Ascii.eqb c "_" && after_digit then
            match t with
            | String c' _ =>
                match Py.digit_value c' with
                | Some _ => digitpart false acc n t
                | None => None
                end
            | EmptyString => None
            end
          else Some (acc, n, s)
      end
  end.

Definition lower_char (c : ascii) : ascii :=
  let k := nat_of_ascii c in
  if ((65 <=? k) && (k <=? 90))%nat then ascii_of_nat (k + 32) else c.

Fixpoint lower (s : string) : string :=
  match s with
  | EmptyString => EmptyString
  | String c t => String (lower_char c) (lower t)
  end.

(** The exponent part, [0] when absent. *)
Definition exponent (s : string) : option Z :=
  match s with
  | EmptyString => Some 0%Z
  | String c t =>
      if Ascii.eqb (lower_char c) "e" then
        let '(neg, t) := match t with
                         | String "-" u => (true, u)
                         | String "+" u => (false, u)
                         | _ => (false, t)
                         end in
        match digitpart false 0 0 t with
        | Some (v, n, EmptyString) =>
            if (0 <? n)%Z then Some (if neg then (- v)%Z else v) else None
        | _ => None
        end
      else None
  end.

(** An unsigned number: [digitpart ["."] [digitpart]] or
    ["." digitpart], then the exponent. *)
Definition number (neg : bool) (s : string) : option t :=
  match digitpart false 0 0 s with
  | Some (i, ni, rest) =>
      let frac := match rest with
                  | String "." u =>
                      match digitpart false i 0 u with
                      | Some (v, nf, rest') => Some (v, nf, rest')
                      | None => None
                      end
                  | _ => Some (i, 0%Z, rest)
                  end in
      match frac with
      | Some (v, nf, rest') =>
          if (0 <? ni + nf)%Z then
            match exponent rest' with
            | Some x =>
                let k := (x - nf)%Z in
                Some (if (0 <=? k)%Z then of_ratio neg (v * 10 ^ k) 1
                      else of_ratio neg v (10 ^ (- k)))
            | None => None
            end
          else None
      | None => None
      end
  | None => None
  end.

Definition unsigned (neg : bool) (s : string) : option t :=
  let l := lower s in
  if String.eqb l "inf" || String.eqb l "infinity" then Some (Infinity neg)
  else if String.eqb l "nan" then Some NaN
  else number neg s.

(** [float(s)]; [None] where Python raises [ValueError]. *)
Definition float (s : string) : option t :=
  match Py.unblank s with
  | String "-" u => unsigned true u
  | String "+" u => unsigned false u
  | u => unsigned false u
  end.

Definition sign (neg : bool) : string :=
  if neg then "-"%string else EmptyString.

(** Spaces. *)
Fixpoint spaces (n : nat) : string :=
  match n with
  | O => EmptyString
  | S k => String " " (spaces k)
  end.

(** Right-aligned in a field of [width] characters. *)
Definition pad (width : nat) (s : string) : string :=
  (spaces (width - String.length s) ++ s)%string.

Definition dec (n : Z) : string := NilZero.string_of_int (Z.to_int n).

(** The value as a fraction. *)
Definition ratio (m e : Z) : Z * Z :=
  if (0 <=? e)%Z then ((m * 2 ^ e)%Z, 1%Z) else (m, (2 ^ (- e))%Z).

(** [p / q * 10^k] as a fraction. *)
Definition scale10 (p q k : Z) : Z * Z :=
  if (0 <=? k)%Z then ((p * 10 ^ k)%Z, q) else (p, (q * 10 ^ (- k))%Z).

(** ['%.1f' % x] *)
Definition fixed1 (x : t) : string :=
  match x with
  | Finite neg m e =>
      let '(p, q) := ratio m e in
      let n := nearest (10 * p) q in
      (sign neg ++ dec (n / 10) ++ "." ++ dec (n mod 10))%string
  | Infinity neg => (sign neg ++ "inf")%string
  | NaN => "nan"%string
  end.

(** The decimal exponent [k] of [p / q > 0]: [10^k <= p / q < 10^(k+1)]. *)
Definition exponent10 (p q : Z) : Z :=
  let k0 := (Z.of_nat (String.length (dec p))
             - Z.of_nat (String.length (dec q)))%Z in
  let '(a, b) := scale10 p q (- k0) in
  if (a <? b)%Z then (k0 - 1)%Z else k0.

(** ['%.3e' % x] *)
Definition sci3 (x : t) : string :=
  match x with
  | Finite neg m e =>
      if (m =? 0)%Z then (sign neg ++ "0.000e+00")%string else
      let '(p, q) := ratio m e in
      let k := exponent10 p q in
      let '(a, b) := scale10 p q (3 - k) in
      let n := nearest a b in
      let '(n, k) := if (n =? 10000)%Z then (1000, k + 1)%Z else (n, k) in
      let ex := dec (Z.abs k) in
      (sign neg ++ dec (n / 1000) ++ "."
       ++ Py.drop 1 (dec (1000 + n mod 1000))
       ++ "e" ++ (if (k <? 0)%Z then "-" else "+")
       ++ (if (Z.abs k <? 10)%Z then "0" else EmptyString) ++ ex)%string
  | Infinity neg => (sign neg ++ "inf")%string
  | NaN => "nan"%string
  end.

(** [f"{x:12.1f}"] and [f"{x:8.3e}"] *)
Definition fmt_12_1f (x : t) : string := pad 12 (fixed1 x).
Definition fmt_8_3e (x : t) : string := pad 8 (sci3 x).

End Float.

(* ================================================================== *)
(** ** class LAKESHORE *)

Module LAKESHORE.

(** The attributes of the object that the program reads: the address
    [lsn] and the heater resistance [hr], kept as the header prints it. *)
Record t := { lsn : string; hr : string }.

Section Methods.

Variable DEBUG : list string.
Variable self : t.
(** [instrument n w] is the answer of [self.lsh.query(w)] when [w] is
    the query number [n] that the instrument receives. *)
Variable instrument : nat -> string -> string.
(** Python's floats and [float(s)], [None] where it raises
    [ValueError]. *)
Variable pyfloat : Type.
Variable float : string -> option pyfloat.

(** [Open(self)]; the handle [self.lsh] that it stores is the
    [instrument] above. *)
Definition Open : M unit :=
  (if debug DEBUG ["LOG_GPIB"]
   then emit (Print ("open_resource('" ++ lsn self ++ "')")%string)
   else ret tt) ;;
  if debug DEBUG ["NOGPIB"] then emit (Print "skipped...")
  else ret tt.

Definition Close : M unit := ret tt.
Definition Configure : M unit := ret tt.
Definition Start : M unit := ret tt.
Definition Stop : M unit := ret tt.

(** [self.lsh.query(w)] *)
Definition lsh_query (w : string) : M string :=
  fun m => (Ok (instrument (queries m) w),
            {| fh := fh m; monotonic_calls := monotonic_calls m;
               queries := S (queries m); log := log m |}).

(** [query(self, w)]; the event [Query w] records the call. *)
Definition query (w : string) : M string :=
  emit (Query w) ;;
  (if debug DEBUG ["LOG_GPIB"]
   then emit (Print (lsn self ++ " query '" ++ w ++ "'")%string)
   else ret tt) ;;
  if debug DEBUG ["NOGPIB"] then
    emit (Print "skipped... return '1'") ;; ret "1"%string
  else lsh_query w.

(** A conversion that raises [ValueError] where it fails. *)
Definition convert {A : Type} (f : string -> option A) (s : string)
  : M A :=
  match f s with
  | Some a => ret a
  | None => raise ValueError
  end.

(** [read(self)] *)
Definition read : M (pyfloat * pyfloat * pyfloat * Z * pyfloat) :=
  r <- query "RDGR? 1" ;; T1R <- convert float r ;;
  r <- query "RDGK? 1" ;; T1T <- convert float r ;;
  r <- query "SETP?" ;; TSP <- convert float r ;;
  r <- query "HTRRNG?" ;; HTR <- convert Py.int r ;;
  r <- query "HTR?" ;; HTV <- convert float r ;;
  ret (T1R, T1T, TSP, HTR, HTV).

End Methods.

End LAKESHORE.

(* ================================================================== *)
(** ** The sampling loop *)

(** What [datetime.now()] returns, as far as the program reads it. *)
Record datetime := {
  hour : Z;
  minute : Z;
  second : Z;
  microsecond : Z
}.

(** [d.strftime('%H:%M:%S.%f')] *)
Definition strftime_HMSf (d : datetime) : string :=
  (Py.dec2 (hour d) ++ ":" ++ Py.dec2 (minute d) ++ ":"
   ++ Py.dec2 (second d) ++ "." ++ Py.dec6 (microsecond d))%string.

Section Loop.

Context {sum : float_sum}.
Variable DEBUG : list string.
Variable cfg : config.
Variable clock : nat -> Z.
Variable LS : LAKESHORE.t.
Variable instrument : nat -> string -> string.
Variable pyfloat : Type.
Variable float : string -> option pyfloat.
(** [f"{x:12.1f}"] and [f"{x:8.3e}"] *)
Variable fmt_12_1f : pyfloat -> string.
Variable fmt_8_3e : pyfloat -> string.

(** The string [w] that a turn of the loop builds. *)
Definition record (ts : string) (s T1R T1T TSP : pyfloat) (HTR : Z)
           (HTV : pyfloat) : string :=
  let w := (Py.drop_last 5 ts ++ Py.tab)%string in
  let w := (w ++ (fmt_12_1f s ++ Py.tab))%string in
  let w := (w ++ (fmt_8_3e T1R ++ Py.tab))%string in
  let w := (w ++ (fmt_8_3e T1T ++ Py.tab))%string in
  let w := (w ++ (fmt_8_3e TSP ++ Py.tab))%string in
  let w := (w ++ (Py.str_int HTR ++ Py.tab))%string in
  let w := (w ++ (fmt_8_3e HTV ++ Py.tab))%string in
  w.

(** One turn of [while Running:]; [now] and [s] are what
    [datetime.now()] and [time()] return in it, and [i] is the counter that
    the flag SHOWDATA adds.  With this flag the turn prints the global
    [data], which is not bound. *)
Definition turn (i : nat) (now : datetime) (s : pyfloat) : M unit :=
  (if debug DEBUG ["SHOWDATA"]
   then emit (Print ("count #" ++ Py.fmt_02 i ++ " ")%string)
   else ret tt) ;;
  emit (Sleep MESUREMENTINTERVAL) ;;
  let ts := strftime_HMSf now in
  sample <- LAKESHORE.read DEBUG LS instrument pyfloat float ;;
  let '(T1R, T1T, TSP, HTR, HTV) := sample in
  (if debug DEBUG ["SHOWDATA"] then raise NameError else ret tt) ;;
  let w := record ts s T1R T1T TSP HTR HTV in
  (if debug DEBUG ["SHOWDATA"] then emit (Print w) else ret tt) ;;
  writedata cfg clock w.

(** The turns of the loop, one entry of [turns] for each time the test
    of [Running] succeeds. *)
Fixpoint loop (i : nat) (turns : list (datetime * pyfloat)) : M unit :=
  match turns with
  | [] => ret tt
  | (now, s) :: rest => turn i now s ;; loop (S i) rest
  end.

(** [RunningThread()] *)
Definition RunningThread (turns : list (datetime * pyfloat)) : M unit :=
  loop 0 turns ;;
  flushdata cfg clock.

End Loop.

(* ================================================================== *)
(** ** The script at the top level of the module *)

Definition quote : string := String (ascii_of_nat 34) EmptyString.

(** The block that the script passes to [writeheaderblock]. *)
Definition header_block (o : monitor_file) (ls : LAKESHORE.t) : string :=
  (Py.nl
   ++ "file    : " ++ last (Py.split "/" (fp o)) EmptyString ++ Py.nl
   ++ "content : " ++ quote ++ "LakeShore370" ++ quote ++ " raw data" ++ Py.nl
   ++ "created : " ++ created o ++ Py.nl
   ++ "author  : Roch Schanen LakeShore.py V" ++ VERSION ++ Py.nl
   ++ "Heater Resistance : " ++ LAKESHORE.hr ls ++ " [Ohms]" ++ Py.nl
   ++ "column 01 : time stamp [HH:MM:SS.F]" ++ Py.nl
   ++ "column 02 : time in seconds [s]" ++ Py.nl
   ++ "column 03 : Thermometer 1 Resistance [Ohms]" ++ Py.nl
   ++ "column 04 : Thermometer 1 Temperature [K] " ++ Py.nl
   ++ "column 05 : Temperature Set-point [K]" ++ Py.nl
   ++ "column 06 : Heater Range [index] " ++ Py.nl
   ++ "column 07 : Heater Value [W]" ++ Py.nl)%string.

(** The statements of the script, from [LS = LAKESHORE()] on. *)
Inductive statement :=
| LS_new                  (* LS = LAKESHORE() *)
| fh_new                  (* fh = monitor_file(configuration['FILEPATH'], "LS370_") *)
| fh_writeheaderblock     (* fh.writeheaderblock(header block) *)
| LS_Open                 (* LS.Open() *)
| LS_Configure            (* LS.Configure() *)
| LS_Start                (* LS.Start() *)
| LOOP_new                (* LOOP = Thread(target=RunningThread) *)
| Running_set (b : bool)  (* Running = b *)
| LOOP_start              (* LOOP.start() *)
| print_ (s : string)     (* print(s) *)
| input_                  (* i = input() *)
| LOOP_join               (* LOOP.join() *)
| LS_Stop                 (* LS.Stop() *)
| LS_Close                (* LS.Close() *)
| fh_flushdata            (* fh.flushdata() *)
| exit_.                  (* exit() *)

Definition script : list statement :=
  [ LS_new;
    fh_new;
    fh_writeheaderblock;
    LS_Open;
    LS_Configure;
    LS_Start;
    LOOP_new;
    Running_set true;
    LOOP_start;
    print_ "--- PRESS ENTER TO QUIT ---";
    input_;
    print_ "--- INTERRUPTING ---";
    Running_set false;
    LOOP_join;
    LS_Stop;
    LS_Close;
    fh_flushdata;
    exit_ ].

Definition statement_eqb (a b : statement) : bool :=
  match a, b with
  | LS_new, LS_new | fh_new, fh_new
  | fh_writeheaderblock, fh_writeheaderblock
  | LS_Open, LS_Open | LS_Configure, LS_Configure | LS_Start, LS_Start
  | LOOP_new, LOOP_new | LOOP_start, LOOP_start | input_, input_
  | LOOP_join, LOOP_join | LS_Stop, LS_Stop | LS_Close, LS_Close
  | fh_flushdata, fh_flushdata | exit_, exit_ => true
  | Running_set x, Running_set y => Bool.eqb x y
  | print_ x, print_ y => String.eqb x y
  | _, _ => false
  end.

(** Place of the first occurrence of a statement in a script. *)
Fixpoint position (a : statement) (l : list statement) : option nat :=
  match l with
  | [] => None
  | b :: l' => if statement_eqb a b then Some 0
               else option_map S (position a l')
  end.

(** [a] occurs in [l], and [b] occurs in [l] after the first [a]. *)
Definition precedes (l : list statement) (a b : statement) : Prop :=
  exists i j, position a l = Some i /\ position b l = Some j /\ i < j.

(** Each statement of [steps] precedes the next one in [l]. *)
Fixpoint in_order (l : list statement) (steps : list statement) : Prop :=
  match steps with
  | [] => True
  | a :: rest => match rest with
                 | [] => True
                 | b :: _ => precedes l a b
                 end /\ in_order l rest
  end.

(** The thread object [LOOP]: not created, created, started (with the
    value that the global [Running] had then, [None] when unbound), or
    joined. *)
Inductive thread :=
| Absent
| Created
| Started (flag : option bool)
| Joined.

(** The globals of the script that the order of its statements bears on. *)
Record globals := {
  LS_bound : bool;
  fh_bound : bool;
  Running : option bool;
  LOOP : thread
}.

Definition no_globals : globals :=
  {| LS_bound := false; fh_bound := false; Running := None; LOOP := Absent |}.

(** Effect of a statement on the globals; [None] when it uses a name that
    is not bound yet, or starts or joins a thread that cannot be. *)
Definition exec (st : statement) (g : globals) : option globals :=
  match st with
  | LS_new =>
      Some {| LS_bound := true; fh_bound := fh_bound g;
              Running := Running g; LOOP := LOOP g |}
  | fh_new =>
      Some {| LS_bound := LS_bound g; fh_bound := true;
              Running := Running g; LOOP := LOOP g |}
  | fh_writeheaderblock =>
      (* the block reads fh.fp, fh.created and LS.hr *)
      if fh_bound g && LS_bound g then Some g else None
  | fh_flushdata => if fh_bound g then Some g else None
  | LS_Open | LS_Configure | LS_Start | LS_Stop | LS_Close =>
      if LS_bound g then Some g else None
  | LOOP_new =>
      Some {| LS_bound := LS_bound g; fh_bound := fh_bound g;
              Running := Running g; LOOP := Created |}
  | Running_set b =>
      Some {| LS_bound := LS_bound g; fh_bound := fh_bound g;
              Running := Some b; LOOP := LOOP g |}
  | LOOP_start =>
      match LOOP g with
      | Created =>
          Some {| LS_bound := LS_bound g; fh_bound := fh_bound g;
                  Running := Running g; LOOP := Started (Running g) |}
      | _ => None
      end
  | LOOP_join =>
      match LOOP g with
      | Started _ =>
          Some {| LS_bound := LS_bound g; fh_bound := fh_bound g;
                  Running := Running g; LOOP := Joined |}
      | _ => None
      end
  | print_ _ | input_ | exit_ => Some g
  end.

Fixpoint exec_all (l : list statement) (g : globals) : option globals :=
  match l with
  | [] => Some g
  | st :: l' => match exec st g with
                | Some g' => exec_all l' g'
                | None => None
                end
  end.

(* ================================================================== *)
(** ** Reading the log *)

(** Texts of the data-line writes, in order. *)
Fixpoint lines_written (l : list event) : list string :=
  match l with
  | [] => []
  | WriteLine s :: l' => s :: lines_written l'
  | _ :: l' => lines_written l'
  end.

(** Texts of the header writes, in order. *)
Fixpoint headers_written (l : list event) : list string :=
  match l with
  | [] => []
  | WriteHeader s :: l' => s :: headers_written l'
  | _ :: l' => headers_written l'
  end.

Definition is_file_io (e : event) : bool :=
  match e with
  | Open _ _ | WriteHeader _ | WriteLine _ | Close => true
  | _ => false
  end.

(** The file operations of a log. *)
Definition file_io (l : list event) : list event := filter is_file_io l.

(** Content of the log file after the events [l], when it held [c] before:
    the program uses one file, truncated by [open(.., "w")] and grown by
    every write. *)
Fixpoint file_content (c : string) (l : list event) : string :=
  match l with
  | [] => c
  | Open _ ModeW :: l' => file_content EmptyString l'
  | WriteHeader s :: l' => file_content (c ++ s) l'
  | WriteLine s :: l' => file_content (c ++ s) l'
  | _ :: l' => file_content c l'
  end.

(** The text that a list of file operations appends. *)
Fixpoint appended (l : list event) : string :=
  match l with
  | [] => EmptyString
  | WriteHeader s :: l' => (s ++ appended l')%string
  | WriteLine s :: l' => (s ++ appended l')%string
  | _ :: l' => appended l'
  end.

(** Instants of the flushes of a log: a flush opens the file for appending,
    and happens at the last reading of the monotonic clock before that
    ([last] when the log has none). *)
Fixpoint flush_times (last : Z) (l : list event) : list Z :=
  match l with
  | [] => []
  | Monotonic t :: l' => flush_times t l'
  | Open _ ModeA :: l' => last :: flush_times last l'
  | _ :: l' => flush_times last l'
  end.

(** The last clock reading of a log. *)
Fixpoint last_reading (last : Z) (l : list event) : Z :=
  match l with
  | [] => last
  | Monotonic t :: l' => last_reading t l'
  | _ :: l' => last_reading last l'
  end.

(** Each instant is not before the sum of the one before it and [W]. *)
Fixpoint spaced {sum : float_sum} (W : Z) (l : list Z) : Prop :=
  match l with
  | [] => True
  | t :: l' => match l' with
               | [] => True
               | t' :: _ => (float_add t W <= t')%Z
               end /\ spaced W l'
  end.

(** [concat] of strings. *)
Fixpoint joined (l : list string) : string :=
  match l with
  | [] => EmptyString
  | s :: l' => (s ++ joined l')%string
  end.

(** The line that [savedata] writes for the buffered string [d]. *)
Definition with_nl (d : string) : string := (d ++ Py.nl)%string.

(* ================================================================== *)
(** ** Operations on a writer, and runs of them *)

Inductive op :=
| OpHeader (b : string)   (* writeheaderblock(b) *)
| OpWrite (d : string)    (* writedata(d) *)
| OpSave                  (* savedata() *)
| OpFlush.                (* flushdata() *)

Definition is_header_op (o : op) : bool :=
  match o with OpHeader _ => true | _ => false end.

Definition is_flush_op (o : op) : bool :=
  match o with OpFlush => true | _ => false end.

(** The strings a list of operations passes to [writedata], in order. *)
Fixpoint passed (ops : list op) : list string :=
  match ops with
  | [] => []
  | OpWrite d :: ops' => d :: passed ops'
  | _ :: ops' => passed ops'
  end.

Section Runs.

Context {sum : float_sum}.
Variable cfg : config.
Variable clock : nat -> Z.

Definition do_op (o : op) : M unit :=
  match o with
  | OpHeader b => writeheaderblock b
  | OpWrite d => writedata cfg clock d
  | OpSave => savedata cfg clock
  | OpFlush => flushdata cfg clock
  end.

(** The operations in sequence; an exception ends the run. *)
Definition run (ops : list op) : M unit := for_each ops do_op.

(** The events that [savedata] adds when it flushes the writer [o]. *)
Definition header_events (o : monitor_file) : list event :=
  match headertext o with
  | Some h => if Py.truthy h then [WriteHeader h] else []
  | None => []
  end.

Definition flush_events (o : monitor_file) : list event :=
  Open (fp o) ModeA
    :: header_events o ++ map (fun d => WriteLine (with_nl d)) (data o)
    ++ [Close].

(** The writer after a flush whose second clock reading is [r]. *)
Definition flushed (r : Z) (o : monitor_file) : monitor_file :=
  {| created := created o; fp := fp o;
     headertext := if header_pending o then None else headertext o;
     data := []; time := float_add r (SAVINGINTERVALS cfg) |}.

(** The machine after [savedata], in closed form. *)
Definition after_savedata (m : machine) : machine :=
  match data (fh m) with
  | [] => m
  | _ :: _ =>
      let c := clock (monotonic_calls m) in
      if (c <? time (fh m))%Z then
        {| fh := fh m; monotonic_calls := S (monotonic_calls m);
           queries := queries m; log := log m ++ [Monotonic c] |}
      else
        let r := clock (S (monotonic_calls m)) in
        {| fh := flushed r (fh m);
           monotonic_calls := S (S (monotonic_calls m));
           queries := queries m;
           log := log m ++ Monotonic c :: flush_events (fh m)
                        ++ [Monotonic r] |}
  end.

Definition after_append (d : string) (m : machine) : machine :=
  {| fh := set_data (data (fh m) ++ [d]) (fh m);
     monotonic_calls := monotonic_calls m;
     queries := queries m; log := log m |}.

Definition after_deadline_now (m : machine) : machine :=
  let t := clock (monotonic_calls m) in
  {| fh := set_time t (fh m); monotonic_calls := S (monotonic_calls m);
     queries := queries m; log := log m ++ [Monotonic t] |}.

End Runs.

(** The events that [m'] has logged after those of [m]. *)
Definition since (m m' : machine) : list event :=
  skipn (List.length (log m)) (log m').

(** The header text that the next flush puts in the file. *)
Definition pending_text (o : monitor_file) : string :=
  match headertext o with
  | Some h => h
  | None => EmptyString
  end.

(** The text that [writeheaderblock(b)] adds to the header. *)
Definition block_text (b : string) : string :=
  joined (map (fun l => ("# " ++ Py.drop (block_indent b) l ++ Py.nl)%string)
              (block_lines b)).

Definition is_data_op (o : op) : bool :=
  match o with OpHeader _ => false | _ => true end.

Definition is_write_op (o : op) : bool :=
  match o with OpWrite _ | OpSave => true | _ => false end.

(** No event of the list truncates the file. *)
Definition appends_only (l : list event) : bool :=
  forallb (fun e => match e with Open _ ModeW => false | _ => true end) l.

(** The header writes that an operation can still cause. *)
Definition budget (o : monitor_file) : nat :=
  match headertext o with Some _ => 1 | None => 0 end.

(** What a run that took the writer from [m] to [m1] and was passed the
    strings [ps] has done with them: it logged [d], which truncates
    nothing, and either it has not touched the file and all the strings
    are in the buffer, or it has written the strings [written], after the
    header text that was pending, and the others are in the buffer. *)
Definition accounted (m m1 : machine) (ps : list string) : Prop :=
  exists d,
    log m1 = log m ++ d
    /\ appends_only d = true
    /\ ((file_io d = []
         /\ headertext (fh m1) = headertext (fh m)
         /\ data (fh m1) = data (fh m) ++ ps)
        \/ (exists written,
               data (fh m) ++ ps = written ++ data (fh m1)
               /\ written <> []
               /\ lines_written d = map with_nl written
               /\ appended d
                  = (pending_text (fh m) ++ joined (map with_nl written))%string
               /\ pending_text (fh m1) = EmptyString)).

(** The test of [savedata]: the buffer is not empty and the clock, read
    now, has reached the deadline. *)
Definition due (clock : nat -> Z) (m : machine) : bool :=
  Py.nonempty (data (fh m))
  && (time (fh m) <=? clock (monotonic_calls m))%Z.

(** [k] calls in a row. *)
Fixpoint times (k : nat) (c : M unit) : M unit :=
  match k with
  | O => ret tt
  | S k' => c ;; times k' c
  end.

(** The commands of the calls of [query], in order. *)
Fixpoint queries_made (l : list event) : list string :=
  match l with
  | [] => []
  | Query w :: l' => w :: queries_made l'
  | _ :: l' => queries_made l'
  end.

(** The five commands of [read]. *)
Definition five_queries : list string :=
  ["RDGR? 1"; "RDGK? 1"; "SETP?"; "HTRRNG?"; "HTR?"]%string.

Section Answers.

Variable DEBUG : list string.
Variable self : LAKESHORE.t.
Variable instrument : nat -> string -> string.

(** What [query(w)] returns when it is the call number [k] after the
    machine [m]: the text "1" under the flag NOGPIB, and the answer of
    the instrument otherwise. *)
Definition answer (m : machine) (k : nat) (w : string) : string :=
  if debug DEBUG ["NOGPIB"] then "1"%string
  else instrument (queries m + k) w.

(** What a call of [query(w)] logs. *)
Definition query_events (w : string) : list event :=
  Query w
    :: (if debug DEBUG ["LOG_GPIB"]
        then [Print (LAKESHORE.lsn self ++ " query '" ++ w ++ "'")%string]
        else [])
    ++ (if debug DEBUG ["NOGPIB"] then [Print "skipped... return '1'"]
        else []).

(** The machine after a call of [query(w)]. *)
Definition after_query (w : string) (m : machine) : machine :=
  {| fh := fh m; monotonic_calls := monotonic_calls m;
     queries := if debug DEBUG ["NOGPIB"] then queries m
                else S (queries m);
     log := log m ++ query_events w |}.

(** The machine after the calls [query(w)] for [w] in [ws]. *)
Definition after_queries (ws : list string) (m : machine) : machine :=
  fold_left (fun m' w => after_query w m') ws m.

End Answers.

(* ------------------------------------------------------------------ *)
(** Shapes of the data lines *)

(** The time of day with one digit after the point. *)
Definition tenths (now : datetime) : string :=
  (Py.dec2 (hour now) ++ ":" ++ Py.dec2 (minute now) ++ ":"
   ++ Py.dec2 (second now) ++ "."
   ++ String (Py.digit (microsecond now / 100000)) EmptyString)%string.

(** The ranges of the fields of a [datetime]. *)
Definition valid_time (now : datetime) : Prop :=
  (0 <= hour now < 24)%Z /\ (0 <= minute now < 60)%Z
  /\ (0 <= second now < 60)%Z /\ (0 <= microsecond now < 1000000)%Z.

(** Exactly [n] characters, all digits. *)
Fixpoint all_digits (n : nat) (s : string) : bool :=
  match n, s with
  | O, EmptyString => true
  | S k, String c t => Py.is_digit c && all_digits k t
  | _, _ => false
  end.

(** Two digits, a colon, two digits, a colon, two digits, a point and
    [frac] digits. *)
Definition is_stamp (frac : nat) (s : string) : bool :=
  match s with
  | String a (String b (String c1 (String c (String d (String c2
      (String e (String f (String p t)))))))) =>
      Py.is_digit a && Py.is_digit b && Ascii.eqb c1 ":"
      && Py.is_digit c && Py.is_digit d && Ascii.eqb c2 ":"
      && Py.is_digit e && Py.is_digit f && Ascii.eqb p "."
      && all_digits frac t
  | _ => false
  end.

(** The fields of a line of the file: the text before the final newline,
    cut at the tabs; [None] when the line does not end with a newline. *)
Definition fields (line : string) : option (list string) :=
  let n := String.length line in
  if String.eqb (Py.drop (n - 1) line) Py.nl
  then Some (Py.split (ascii_of_nat 9) (Py.take (n - 1) line))
  else None.

(** The shape that the format of the file is said to have: seven fields
    between tabs, the first a time of day with three digits after the
    point, and a final newline. *)
Definition seven_fields_millis (line : string) : bool :=
  match fields line with
  | Some fs => (List.length fs =? 7)%nat && is_stamp 3 (hd EmptyString fs)
  | None => false
  end.

(** The text of a line of data before its newline: seven fields, each
    followed by a tab. *)
Definition raw_line {pyfloat : Type} (fmt_12_1f fmt_8_3e : pyfloat -> string)
           (now : datetime) (s T1R T1T TSP : pyfloat) (HTR : Z)
           (HTV : pyfloat) : string :=
  (tenths now ++ Py.tab
   ++ fmt_12_1f s ++ Py.tab
   ++ fmt_8_3e T1R ++ Py.tab
   ++ fmt_8_3e T1T ++ Py.tab
   ++ fmt_8_3e TSP ++ Py.tab
   ++ Py.str_int HTR ++ Py.tab
   ++ fmt_8_3e HTV ++ Py.tab)%string.

(** [w] is the text of the line of the turn number [j] of [turns]: the
    time of that turn and the five values read in it, which are the
    answers to the queries number [5 * j] to [5 * j + 4] after the machine
    [m], each converted as [read] does. *)
Definition from_reading {pyfloat : Type} (DEBUG : list string)
           (instrument : nat -> string -> string)
           (float : string -> option pyfloat)
           (fmt_12_1f fmt_8_3e : pyfloat -> string)
           (turns : list (datetime * pyfloat)) (m : machine) (w : string)
  : Prop :=
  exists j now s T1R T1T TSP HTR HTV,
    nth_error turns j = Some (now, s)
    /\ float (answer DEBUG instrument m (5 * j) "RDGR? 1") = Some T1R
    /\ float (answer DEBUG instrument m (5 * j + 1) "RDGK? 1") = Some T1T
    /\ float (answer DEBUG instrument m (5 * j + 2) "SETP?") = Some TSP
    /\ Py.int (answer DEBUG instrument m (5 * j + 3) "HTRRNG?") = Some HTR
    /\ float (answer DEBUG instrument m (5 * j + 4) "HTR?") = Some HTV
    /\ w = raw_line fmt_12_1f fmt_8_3e now s T1R T1T TSP HTR HTV.

(** From [m] to [m1] the strings of the buffer and the lines written stay
    among those that satisfy [P]. *)
Definition keeps_lines (P : string -> Prop) (m m1 : machine) : Prop :=
  Forall P (data (fh m)) ->
  Forall P (data (fh m1))
  /\ exists d, log m1 = log m ++ d
               /\ Forall (fun t => exists w, P w /\ t = with_nl w)
                         (lines_written d).

(* ================================================================== *)
(** ** Sample inputs *)

(** The machine before the script has built anything. *)
Definition machine0 : machine :=
  {| fh := {| created := EmptyString; fp := EmptyString; headertext := None;
              data := []; time := 0 |};
     monotonic_calls := 0; queries := 0; log := [] |}.

Definition sample_LS : LAKESHORE.t :=
  {| LAKESHORE.lsn := DEVICENAME configuration;
     LAKESHORE.hr := LAKESHORE_Heater_Resistance configuration |}.

(** A clock that advances by a tenth of a second between two readings. *)
Definition brisk_clock (n : nat) : Z := Z.of_nat n * (ticks_per_second / 10).

(** A clock that advances by eleven seconds between two readings. *)
Definition slow_clock (n : nat) : Z := Z.of_nat n * (11 * ticks_per_second).

(** The script up to the header: [fh = monitor_file(...)] and
    [fh.writeheaderblock(...)]. *)
Definition new_writer (DEBUG : list string) (cfg : config) (clock : nat -> Z)
  : M unit :=
  init DEBUG cfg clock "20251128T120000" (FILEPATH cfg) "LS370_" ;;
  self <- get_fh ;;
  writeheaderblock (header_block self sample_LS).

(** A writer whose header has been flushed with one line. *)
Definition flushed_machine : machine :=
  snd ((new_writer _DEBUG configuration brisk_clock ;;
        writedata configuration brisk_clock "x" ;;
        flushdata configuration brisk_clock) machine0).

Definition second_block : string :=
  (Py.nl ++ "  comment : late" ++ Py.nl)%string.

(** A writer just built, its header not yet flushed. *)
Definition fresh_machine (clock : nat -> Z) : machine :=
  snd (new_writer _DEBUG configuration clock machine0).

(** A clock read at 0 s when the writer is built, and then every tenth of
    a second from 10.1 s on. *)
Definition jump_clock (n : nat) : Z :=
  match n with
  | O => 0
  | S _ => 10 * ticks_per_second + Z.of_nat n * (ticks_per_second / 10)
  end.

(** A clock read at 0 s when the writer is built, at 0.3 s, 0.6 s and
    0.9 s next, and from 15 s on every second after that. *)
Definition scenario_clock (n : nat) : Z :=
  if (n <=? 3)%nat then Z.of_nat n * (3 * (ticks_per_second / 10))
  else (11 + Z.of_nat n) * ticks_per_second.

(** Two writes and a forced flush. *)
Definition hasty_ops : list op := [OpWrite "a"; OpWrite "b"; OpFlush].

(** Writes only. *)
Definition patient_ops : list op :=
  [OpWrite "a"; OpWrite "b"; OpSave; OpWrite "c"].

(** The writer of the scenario after three lines, written at 0.3 s, 0.6 s
    and 0.9 s. *)
Definition three_lines_machine : machine :=
  snd (run configuration scenario_clock
           [OpWrite "a"; OpWrite "b"; OpWrite "c"]
           (fresh_machine scenario_clock)).

(** An instrument that answers every query with the text "1". *)
Definition stub_instrument (n : nat) (w : string) : string := "1"%string.

(** 12:34:56.789012 *)
Definition sample_now : datetime :=
  {| hour := 12; minute := 34; second := 56; microsecond := 789012 |}.

(** What [time()] returns, 1764331200.123 *)
Definition sample_time : Float.t :=
  Float.of_ratio false 1764331200123 1000.

(** The sampling loop of the script, run for the given turns on a writer
    just built, with the floats of [Float]. *)
Definition sample_thread (turns : list (datetime * Float.t)) : machine :=
  snd (RunningThread _DEBUG configuration brisk_clock sample_LS
         stub_instrument Float.t Float.float Float.fmt_12_1f Float.fmt_8_3e
         turns (fresh_machine brisk_clock)).

Definition sample_line : string :=
  ("12:34:56.7" ++ Py.tab ++ "1764331200.1" ++ Py.tab
   ++ "1.000e+00" ++ Py.tab ++ "1.000e+00" ++ Py.tab ++ "1.000e+00" ++ Py.tab
   ++ "1" ++ Py.tab ++ "1.000e+00" ++ Py.tab ++ Py.nl)%string.

(* ================================================================== *)
(** ** checkpath *)

(** How a call of [checkpath] ends. *)
Inductive checkpath_end :=
| Returned (b : bool)          (* return b *)
| IndexError                   (* fp[-1] on an empty string *)
| UnboundName (name : string)  (* NameError: the name is not defined *)
| Exited (message : string).   (* exit(message) *)

(** [s[-1]], [None] when [s] is empty. *)
Fixpoint last_char (s : string) : option ascii :=
  match s with
  | EmptyString => None
  | String c EmptyString => Some c
  | String _ t => last_char t
  end.

(** [checkpath(fp)], with what it prints.  [exists] is the binding of the
    global name [exists] in the module, [None] when the module binds no
    such name. *)
Definition checkpath (DEBUG : list string)
           (exists_ : option (string -> bool)) (fp : string)
  : checkpath_end * list event :=
  match last_char fp with
  | None => (IndexError, [])
  | Some c =>
      let fp := if negb (Ascii.eqb c "/") then (fp ++ "/")%string else fp in
      match exists_ with
      | None => (UnboundName "exists", [])
      | Some found =>
          if negb (found fp)
          then (Exited ("path '" ++ fp ++ "' not found.")%string, [])
          else (Returned true,
                if debug DEBUG []
                then [Print ("path '" ++ fp ++ "' checked.")%string]
                else [])
      end
  end.

(** The module imports [exit], [time], [strftime], [localtime],
    [monotonic], [sleep], [perf_counter], [datetime], [gethostname],
    [Thread], [array] and [pyvisa], and defines no [exists]. *)
Definition module_exists : option (string -> bool) := None.

(* ================================================================== *)
(** ** Further readings of strings and logs *)

Definition is_lower (c : ascii) : bool :=
  let n := nat_of_ascii c in ((97 <=? n) && (n <=? 122))%nat.

(** Some character of [s] is a lowercase ASCII letter. *)
Fixpoint has_lower (s : string) : bool :=
  match s with
  | EmptyString => false
  | String c t => is_lower c || has_lower t
  end.

(** Occurrences of the character [c] in [s]. *)
Fixpoint count_char (c : ascii) (s : string) : nat :=
  match s with
  | EmptyString => 0
  | String x t => (if Ascii.eqb x c then 1 else 0) + count_char c t
  end.

(** The file operations of [l] come in sessions: the file is opened only
    when it is closed, written and closed only when it is open, and is
    closed at the end; [opened] tells whether it is open at the start. *)
Fixpoint sessions (opened : bool) (l : list event) : bool :=
  match l with
  | [] => negb opened
  | Open _ _ :: l' => negb opened && sessions true l'
  | WriteHeader _ :: l' => opened && sessions true l'
  | WriteLine _ :: l' => opened && sessions true l'
  | Close :: l' => opened && sessions false l'
  | _ :: l' => sessions opened l'
  end.

(** A computation that, from any machine, only adds to the log, and adds
    whole sessions. *)
Definition tidy {A : Type} (c : M A) : Prop :=
  forall m, exists d, log (snd (c m)) = log m ++ d /\ sessions false d = true.

(** A computation that leaves the writer, the clock and the file alone. *)
Definition bystander {A : Type} (c : M A) : Prop :=
  forall m, fh (snd (c m)) = fh m
            /\ monotonic_calls (snd (c m)) = monotonic_calls m
            /\ exists d, log (snd (c m)) = log m ++ d /\ file_io d = [].

(** A sample that [read] returns. *)
Definition sample (pyfloat : Type) : Type :=
  (pyfloat * pyfloat * pyfloat * Z * pyfloat)%type.

(** The string that a turn passes to [writedata], for the turn and the
    sample read in it. *)
Definition raw_of {pyfloat : Type} (fmt_12_1f fmt_8_3e : pyfloat -> string)
           (x : (datetime * pyfloat) * sample pyfloat) : string :=
  let '((now, s), (T1R, T1T, TSP, HTR, HTV)) := x in
  raw_line fmt_12_1f fmt_8_3e now s T1R T1T TSP HTR HTV.

(** The line of the file for a turn and the sample read in it. *)
Definition line_of {pyfloat : Type} (fmt_12_1f fmt_8_3e : pyfloat -> string)
           (x : (datetime * pyfloat) * sample pyfloat) : string :=
  with_nl (raw_of fmt_12_1f fmt_8_3e x).

(** The machine [m] with the events [l] added to its log. *)
Definition logged (l : list event) (m : machine) : machine :=
  {| fh := fh m; monotonic_calls := monotonic_calls m;
     queries := queries m; log := log m ++ l |}.

(** What a turn logs before it reads the instrument. *)
Definition prelude (DEBUG : list string) (i : nat) : list event :=
  (if debug DEBUG ["SHOWDATA"]
   then [Print ("count #" ++ Py.fmt_02 i ++ " ")%string] else [])
  ++ [Sleep MESUREMENTINTERVAL].

(* ================================================================== *)
(** ** More sample inputs *)

(** A flag list whose only entry is in lowercase. *)
Definition lowercase_DEBUG : list string := ["tempfile"]%string.

(** No debug flag at all. *)
Definition quiet_DEBUG : list string := [].

(** A block whose second line is indented less than the first. *)
Definition ragged_block : string :=
  (Py.nl ++ "    title" ++ Py.nl ++ "  ab" ++ Py.nl)%string.

(** An instrument whose third answer is not a number. *)
Definition faulty_instrument (n : nat) (w : string) : string :=
  match n with
  | 2 => "?"%string
  | _ => "2.5"%string
  end.

(** An instrument that answers every query with a number. *)
Definition steady_instrument (n : nat) (w : string) : string :=
  if String.eqb w "HTRRNG?" then "3"%string else "2.5"%string.

(** An instrument whose answer tells the query and its number: a digit
    for the command, then the number of the query. *)
Definition telling_instrument (n : nat) (w : string) : string :=
  ((if String.eqb w "RDGR? 1" then "1"
    else if String.eqb w "RDGK? 1" then "2"
    else if String.eqb w "SETP?" then "3"
    else if String.eqb w "HTRRNG?" then "4"
    else "5") ++ Py.str_int (Z.of_nat n))%string.

(** Two turns of the loop, at 12:34:56.789012 and at 23:59:59.999999. *)
Definition two_turns : list (datetime * Float.t) :=
  [(sample_now, sample_time);
   ({| hour := 23; minute := 59; second := 59; microsecond := 999999 |},
    sample_time)].

(** The lines of [two_turns] with the answers of [telling_instrument]. *)
Definition telling_lines : list string :=
  [("12:34:56.7" ++ Py.tab ++ "1764331200.1" ++ Py.tab
    ++ "1.000e+01" ++ Py.tab ++ "2.100e+01" ++ Py.tab ++ "3.200e+01"
    ++ Py.tab ++ "43" ++ Py.tab ++ "5.400e+01" ++ Py.tab ++ Py.nl)%string;
   ("23:59:59.9" ++ Py.tab ++ "1764331200.1" ++ Py.tab
    ++ "1.500e+01" ++ Py.tab ++ "2.600e+01" ++ Py.tab ++ "3.700e+01"
    ++ Py.tab ++ "48" ++ Py.tab ++ "5.900e+01" ++ Py.tab ++ Py.nl)%string].

(** The configuration with a window of zero. *)
Definition unbuffered : config := {|
  DEVICENAME := DEVICENAME configuration;
  LAKESHORE_Heater_Resistance := LAKESHORE_Heater_Resistance configuration;
  FILEPATH := FILEPATH configuration;
  LOCALFILEPATH := LOCALFILEPATH configuration;
  SAVINGINTERVALS := 0;
  TEMPFILEPATH := TEMPFILEPATH configuration;
  TEMPFILENAME := TEMPFILENAME configuration
|}.

(* ================================================================== *)
(** ** Equations of the methods *)

Lemma for_each_emit {A : Type} (f : A -> event) (l : list A) (m : machine) :
  for_each l (fun x => emit (f x)) m
  = (Ok tt, {| fh := fh m; monotonic_calls := monotonic_calls m;
               queries := queries m; log := log m ++ map f l |}).
Proof.
  revert m; induction l as [|x l IH]; intros m; simpl.
  - unfold ret. rewrite app_nil_r. destruct m; reflexivity.
  - unfold bind, emit at 1. rewrite IH. simpl.
    rewrite <- app_assoc. reflexivity.
Qed.

Lemma savedata_eq {sum : float_sum} cfg clock (m : machine) :
  savedata cfg clock m = (Ok tt, after_savedata cfg clock m).
Proof.
  destruct m as [[cr p h dt t] n q lg].
  unfold savedata, after_savedata, bind, get_fh; simpl.
  destruct dt as [|d ds]; simpl; [reflexivity|].
  destruct (clock n <? t)%Z; simpl; [reflexivity|].
  unfold flush_events, header_events, flushed, header_pending; simpl.
  destruct h as [h|]; [destruct (Py.truthy h)|]; simpl;
    unfold bind; unfold emit at 1; simpl;
    rewrite for_each_emit; simpl; unfold with_nl;
    repeat (rewrite <- app_assoc; simpl); reflexivity.
Qed.

Lemma writedata_eq {sum : float_sum} cfg clock d (m : machine) :
  writedata cfg clock d m
  = (Ok tt, after_savedata cfg clock (after_append d m)).
Proof.
  unfold writedata, bind, get_fh, put_fh; simpl.
  rewrite savedata_eq. reflexivity.
Qed.

Lemma flushdata_eq {sum : float_sum} cfg clock (m : machine) :
  flushdata cfg clock m
  = (Ok tt, after_savedata cfg clock (after_deadline_now clock m)).
Proof.
  unfold flushdata, bind, get_fh, put_fh, monotonic; simpl.
  rewrite savedata_eq. reflexivity.
Qed.


(* ================================================================== *)
(** ** Reading the log of a sequence *)

Lemma lines_written_app l1 l2 :
  lines_written (l1 ++ l2) = lines_written l1 ++ lines_written l2.
Proof.
  induction l1 as [|e l1 IH]; simpl; [reflexivity|].
  destruct e; simpl; rewrite ?IH; reflexivity.
Qed.

Lemma headers_written_app l1 l2 :
  headers_written (l1 ++ l2) = headers_written l1 ++ headers_written l2.
Proof.
  induction l1 as [|e l1 IH]; simpl; [reflexivity|].
  destruct e; simpl; rewrite ?IH; reflexivity.
Qed.

Lemma file_io_app l1 l2 : file_io (l1 ++ l2) = file_io l1 ++ file_io l2.
Proof. unfold file_io. apply filter_app. Qed.

Lemma append_assoc (a b c : string) :
  ((a ++ b) ++ c)%string = (a ++ (b ++ c))%string.
Proof. induction a as [|x a IH]; simpl; [reflexivity|]. now rewrite IH. Qed.

Lemma append_empty_r (a : string) : (a ++ EmptyString)%string = a.
Proof. induction a as [|x a IH]; simpl; [reflexivity|]. now rewrite IH. Qed.

Lemma appended_app l1 l2 :
  appended (l1 ++ l2) = (appended l1 ++ appended l2)%string.
Proof.
  induction l1 as [|e l1 IH]; simpl; [reflexivity|].
  destruct e; simpl; rewrite ?IH, ?append_assoc; reflexivity.
Qed.

Lemma joined_app l1 l2 :
  joined (l1 ++ l2) = (joined l1 ++ joined l2)%string.
Proof.
  induction l1 as [|e l1 IH]; simpl; [reflexivity|].
  now rewrite IH, append_assoc.
Qed.

Lemma file_content_app c l1 l2 :
  file_content c (l1 ++ l2) = file_content (file_content c l1) l2.
Proof.
  revert c; induction l1 as [|e l1 IH]; intros c; simpl; [reflexivity|].
  destruct e as [| ? [|] | | | | | |]; simpl; apply IH.
Qed.

Lemma file_content_appended c l :
  appends_only l = true -> file_content c l = (c ++ appended l)%string.
Proof.
  revert c; induction l as [|e l IH]; intros c H; simpl.
  - now rewrite append_empty_r.
  - simpl in H. apply andb_true_iff in H. destruct H as [He Hl].
    destruct e as [| ? [|] | | | | | |]; simpl; try discriminate;
      rewrite (IH _ Hl), ?append_assoc; reflexivity.
Qed.

Lemma appends_only_app l1 l2 :
  appends_only (l1 ++ l2) = appends_only l1 && appends_only l2.
Proof. unfold appends_only. apply forallb_app. Qed.

Lemma flush_times_app t l1 l2 :
  flush_times t (l1 ++ l2)
  = flush_times t l1 ++ flush_times (last_reading t l1) l2.
Proof.
  revert t; induction l1 as [|e l1 IH]; intros t; simpl; [reflexivity|].
  destruct e as [| ? [|] | | | | | |]; simpl; rewrite ?IH; reflexivity.
Qed.

Lemma since_app m m' d : log m' = log m ++ d -> since m m' = d.
Proof.
  intros H. unfold since. rewrite H.
  rewrite skipn_app, skipn_all, Nat.sub_diag. reflexivity.
Qed.

Lemma since_refl m : since m m = [].
Proof. apply since_app. now rewrite app_nil_r. Qed.

Lemma lines_written_map ds :
  lines_written (map (fun d => WriteLine (with_nl d)) ds) = map with_nl ds.
Proof. induction ds as [|d ds IH]; simpl; [reflexivity|]. now rewrite IH. Qed.

Lemma headers_written_map ds :
  headers_written (map (fun d => WriteLine (with_nl d)) ds) = [].
Proof. induction ds as [|d ds IH]; simpl; [reflexivity|]. exact IH. Qed.

Lemma appended_map ds :
  appended (map (fun d => WriteLine (with_nl d)) ds) = joined (map with_nl ds).
Proof. induction ds as [|d ds IH]; simpl; [reflexivity|]. now rewrite IH. Qed.

Lemma appends_only_map ds :
  appends_only (map (fun d => WriteLine (with_nl d)) ds) = true.
Proof. induction ds as [|d ds IH]; simpl; [reflexivity|]. exact IH. Qed.

Lemma flush_times_map t ds :
  flush_times t (map (fun d => WriteLine (with_nl d)) ds) = [].
Proof. induction ds as [|d ds IH]; simpl; [reflexivity|]. exact IH. Qed.

Lemma last_reading_map t ds :
  last_reading t (map (fun d => WriteLine (with_nl d)) ds) = t.
Proof. induction ds as [|d ds IH]; simpl; [reflexivity|]. exact IH. Qed.

(* ================================================================== *)
(** ** The header block *)

Lemma for_each_add_header_line n ls h (m : machine) :
  headertext (fh m) = Some h ->
  for_each ls (add_header_line n) m
  = (Ok tt,
     {| fh := set_headertext
                (Some (h ++ joined (map (fun l => ("# " ++ Py.drop n l
                                                    ++ Py.nl)%string) ls))%string)
                (fh m);
        monotonic_calls := monotonic_calls m;
        queries := queries m; log := log m |}).
Proof.
  revert h m; induction ls as [|l ls IH]; intros h m Hh.
  - simpl. unfold ret. rewrite append_empty_r.
    destruct m as [[cr p h' dt t] n' q lg]; simpl in *. now subst.
  - destruct m as [[cr p h' dt t] n' q lg]; simpl in Hh; subst h'.
    change (for_each (l :: ls) (add_header_line n))
      with (bind (add_header_line n l) (fun _ => for_each ls (add_header_line n))).
    unfold bind at 1. unfold add_header_line at 1, bind, get_fh, put_fh.
    cbn [fh headertext].
    rewrite (IH (h ++ "# " ++ Py.drop n l ++ Py.nl)%string) by reflexivity.
    unfold set_headertext. cbn [fh headertext created fp data time monotonic_calls queries log map joined].
    rewrite !append_assoc. reflexivity.
Qed.

Lemma writeheaderblock_pending b h (m : machine) :
  headertext (fh m) = Some h ->
  writeheaderblock b m
  = (Ok tt,
     {| fh := set_headertext (Some (h ++ block_text b)%string) (fh m);
        monotonic_calls := monotonic_calls m;
        queries := queries m; log := log m |}).
Proof.
  intros Hh. unfold writeheaderblock, block_text.
  now apply for_each_add_header_line.
Qed.

Lemma writeheaderblock_flushed b (m : machine) :
  headertext (fh m) = None ->
  writeheaderblock b m
  = (match block_lines b with [] => Ok tt | _ :: _ => Raise TypeError end, m).
Proof.
  intros Hh. unfold writeheaderblock.
  destruct (block_lines b) as [|l ls]; simpl; [reflexivity|].
  unfold bind, add_header_line, bind, get_fh. rewrite Hh. reflexivity.
Qed.

(* ================================================================== *)
(** ** The three ways of [savedata] *)

Lemma after_savedata_empty {sum : float_sum} cfg clock (m : machine) :
  data (fh m) = [] -> after_savedata cfg clock m = m.
Proof. intros H. unfold after_savedata. now rewrite H. Qed.

Lemma after_savedata_early {sum : float_sum} cfg clock (m : machine) :
  data (fh m) <> [] ->
  (clock (monotonic_calls m) < time (fh m))%Z ->
  after_savedata cfg clock m
  = {| fh := fh m; monotonic_calls := S (monotonic_calls m);
       queries := queries m;
       log := log m ++ [Monotonic (clock (monotonic_calls m))] |}.
Proof.
  intros Hd Ht. unfold after_savedata.
  destruct (data (fh m)); [congruence|].
  apply Z.ltb_lt in Ht. now rewrite Ht.
Qed.

Lemma after_savedata_due {sum : float_sum} cfg clock (m : machine) :
  data (fh m) <> [] ->
  (time (fh m) <= clock (monotonic_calls m))%Z ->
  after_savedata cfg clock m
  = {| fh := flushed cfg (clock (S (monotonic_calls m))) (fh m);
       monotonic_calls := S (S (monotonic_calls m));
       queries := queries m;
       log := log m ++ Monotonic (clock (monotonic_calls m))
                :: flush_events (fh m)
                ++ [Monotonic (clock (S (monotonic_calls m)))] |}.
Proof.
  intros Hd Ht. unfold after_savedata.
  destruct (data (fh m)); [congruence|].
  apply Z.ltb_ge in Ht. now rewrite Ht.
Qed.

Lemma header_events_budget {sum : float_sum} cfg r (o : monitor_file) :
  List.length (headers_written (header_events o)) + budget (flushed cfg r o)
  <= budget o.
Proof.
  unfold header_events, budget, flushed, header_pending; simpl.
  destruct (headertext o) as [h|]; simpl; [|lia].
  destruct (Py.truthy h); simpl; lia.
Qed.

Lemma headers_written_flush_events (o : monitor_file) :
  headers_written (flush_events o) = headers_written (header_events o).
Proof.
  unfold flush_events. simpl.
  rewrite headers_written_app, headers_written_app, headers_written_map.
  simpl. now rewrite app_nil_r.
Qed.

Lemma after_savedata_budget {sum : float_sum} cfg clock (m : machine) :
  exists d, log (after_savedata cfg clock m) = log m ++ d
            /\ List.length (headers_written d)
               + budget (fh (after_savedata cfg clock m)) <= budget (fh m).
Proof.
  destruct (data (fh m)) as [|x xs] eqn:Hd.
  - rewrite after_savedata_empty by assumption.
    exists []. rewrite app_nil_r. simpl. split; [reflexivity|lia].
  - destruct (Z.lt_ge_cases (clock (monotonic_calls m)) (time (fh m)))
      as [Ht|Ht].
    + rewrite after_savedata_early by (assumption || congruence).
      eexists. split; [reflexivity|]. simpl. lia.
    + rewrite after_savedata_due by (assumption || congruence).
      eexists. split; [reflexivity|]. cbn [fh headers_written].
      rewrite headers_written_app, headers_written_flush_events. simpl.
      rewrite app_nil_r. apply header_events_budget.
Qed.

Lemma do_op_budget {sum : float_sum} cfg clock (o : op) (m : machine) :
  exists d, log (snd (do_op cfg clock o m)) = log m ++ d
            /\ List.length (headers_written d)
               + budget (fh (snd (do_op cfg clock o m))) <= budget (fh m).
Proof.
  destruct o as [b|x| |]; simpl.
  - destruct (headertext (fh m)) as [h|] eqn:Hh.
    + rewrite (writeheaderblock_pending b h) by assumption. simpl.
      exists []. rewrite app_nil_r. unfold budget. simpl. rewrite Hh.
      split; [reflexivity|lia].
    + rewrite writeheaderblock_flushed by assumption. simpl.
      exists []. rewrite app_nil_r. simpl. split; [reflexivity|lia].
  - rewrite writedata_eq. simpl.
    destruct (after_savedata_budget cfg clock (after_append x m))
      as (d & Hl & Hb).
    exists d. split; [exact Hl|exact Hb].
  - rewrite savedata_eq. simpl. apply after_savedata_budget.
  - rewrite flushdata_eq. simpl.
    destruct (after_savedata_budget cfg clock (after_deadline_now clock m))
      as (d & Hl & Hb).
    exists (Monotonic (clock (monotonic_calls m)) :: d).
    split.
    + rewrite Hl. simpl. rewrite <- app_assoc. reflexivity.
    + simpl. exact Hb.
Qed.

Lemma run_cons {sum : float_sum} cfg clock (o : op) (ops : list op)
      (m : machine) :
  run cfg clock (o :: ops) m
  = match do_op cfg clock o m with
    | (Ok _, m1) => run cfg clock ops m1
    | (Raise e, m1) => (Raise e, m1)
    end.
Proof. reflexivity. Qed.

Lemma run_budget {sum : float_sum} cfg clock (ops : list op) (m : machine) :
  exists d, log (snd (run cfg clock ops m)) = log m ++ d
            /\ List.length (headers_written d)
               + budget (fh (snd (run cfg clock ops m))) <= budget (fh m).
Proof.
  revert m; induction ops as [|o ops IH]; intros m.
  - exists []. simpl. rewrite app_nil_r. split; [reflexivity|lia].
  - rewrite run_cons.
    destruct (do_op_budget cfg clock o m) as (d1 & Hl1 & Hb1).
    destruct (do_op cfg clock o m) as [[u|e] m1]; simpl in Hl1, Hb1.
    + destruct (IH m1) as (d2 & Hl2 & Hb2).
      exists (d1 ++ d2). split.
      * rewrite Hl2, Hl1, app_assoc. reflexivity.
      * rewrite headers_written_app, length_app. lia.
    + exists d1. simpl. split; [exact Hl1|exact Hb1].
Qed.

(* ================================================================== *)
(** ** The header *)

(** C3.  Whatever operations are applied to a writer, and whatever the
    clock, the header text is written to the file at most once; a writer
    whose header has been flushed never writes it again. *)
Theorem header_written_at_most_once cfg clock (ops : list op) (m : machine) :
  List.length (headers_written (since m (snd (run cfg clock ops m))))
  <= match headertext (fh m) with Some _ => 1 | None => 0 end.
Proof.
  destruct (run_budget cfg clock ops m) as (d & Hl & Hb).
  rewrite (since_app _ _ _ Hl). unfold budget in Hb at 2. lia.
Qed.

(** C8, as the code has it.  Once the header has been flushed,
    [writeheaderblock] leaves the writer and the log as they are; it
    returns normally only when the block has no line between its first and
    last newline, and raises [TypeError] otherwise. *)
Theorem writeheaderblock_after_flush (b : string) (m : machine) :
  headertext (fh m) = None ->
  snd (writeheaderblock b m) = m
  /\ fst (writeheaderblock b m)
     = match block_lines b with [] => Ok tt | _ :: _ => Raise TypeError end.
Proof.
  intros H. rewrite writeheaderblock_flushed by exact H. split; reflexivity.
Qed.

Lemma writeheaderblock_after_flush_witness :
  headertext (fh flushed_machine) = None
  /\ snd (writeheaderblock second_block flushed_machine) = flushed_machine
  /\ fst (writeheaderblock second_block flushed_machine) = Raise TypeError.
Proof.
  split; [reflexivity|].
  exact (writeheaderblock_after_flush second_block flushed_machine eq_refl).
Defined.

(** C8 as stated fails: after a flush, a header block of one line is not
    accepted silently. *)
Lemma writeheaderblock_after_flush_raises :
  headertext (fh flushed_machine) = None
  /\ writeheaderblock second_block flushed_machine
     <> (Ok tt, flushed_machine).
Proof.
  split; [reflexivity|].
  rewrite writeheaderblock_flushed by reflexivity.
  vm_compute. discriminate.
Qed.

(* ================================================================== *)
(** ** An empty buffer *)

(** C10.  With an empty buffer [savedata] changes nothing at all, and
    [flushdata] reads the clock once, makes that reading the deadline, and
    does nothing else: no file operation, header and buffer as before. *)
Theorem empty_buffer_no_file_io cfg clock (m : machine) :
  data (fh m) = [] ->
  savedata cfg clock m = (Ok tt, m)
  /\ flushdata cfg clock m = (Ok tt, after_deadline_now clock m)
  /\ file_io (since m (snd (flushdata cfg clock m))) = []
  /\ headertext (fh (snd (flushdata cfg clock m))) = headertext (fh m)
  /\ data (fh (snd (flushdata cfg clock m))) = []
  /\ time (fh (snd (flushdata cfg clock m))) = clock (monotonic_calls m).
Proof.
  intros Hd.
  assert (Hs : savedata cfg clock m = (Ok tt, m)).
  { rewrite savedata_eq, after_savedata_empty by exact Hd. reflexivity. }
  assert (Hf : flushdata cfg clock m = (Ok tt, after_deadline_now clock m)).
  { rewrite flushdata_eq, after_savedata_empty by exact Hd. reflexivity. }
  split; [exact Hs|]. split; [exact Hf|]. rewrite Hf. simpl.
  repeat split.
  - rewrite (since_app m _ [Monotonic (clock (monotonic_calls m))])
      by reflexivity.
    reflexivity.
  - exact Hd.
Qed.

(* ================================================================== *)
(** ** Every string passed to the writer is accounted for *)

Lemma file_io_nil_lines d : file_io d = [] -> lines_written d = [].
Proof.
  induction d as [|e d IH]; simpl; [reflexivity|].
  destruct e; simpl; intros H; try discriminate; apply IH; exact H.
Qed.

Lemma file_io_nil_appended d : file_io d = [] -> appended d = EmptyString.
Proof.
  induction d as [|e d IH]; simpl; [reflexivity|].
  destruct e; simpl; intros H; try discriminate; apply IH; exact H.
Qed.

Lemma accounted_refl (m : machine) : accounted m m [].
Proof.
  exists []. rewrite !app_nil_r. split; [reflexivity|]. split; [reflexivity|].
  left. repeat split; reflexivity.
Qed.

Lemma accounted_trans (m m1 m2 : machine) ps1 ps2 :
  accounted m m1 ps1 -> accounted m1 m2 ps2 -> accounted m m2 (ps1 ++ ps2).
Proof.
  intros (d1 & Hl1 & Ha1 & H1) (d2 & Hl2 & Ha2 & H2).
  exists (d1 ++ d2). split; [rewrite Hl2, Hl1, app_assoc; reflexivity|].
  split; [rewrite appends_only_app, Ha1, Ha2; reflexivity|].
  destruct H1 as [(Hio1 & Hh1 & Hd1)|(w1 & He1 & Hn1 & Hw1 & Hp1 & Ht1)];
    destruct H2 as [(Hio2 & Hh2 & Hd2)|(w2 & He2 & Hn2 & Hw2 & Hp2 & Ht2)].
  - left. rewrite file_io_app, Hio1, Hio2, Hh2, Hh1, Hd2, Hd1, app_assoc.
    repeat split; reflexivity.
  - right. exists w2. repeat split.
    + rewrite app_assoc, <- Hd1. exact He2.
    + exact Hn2.
    + rewrite lines_written_app, (file_io_nil_lines _ Hio1). exact Hw2.
    + rewrite appended_app, (file_io_nil_appended _ Hio1), Hp2.
      unfold pending_text. rewrite Hh1. reflexivity.
    + exact Ht2.
  - right. exists w1. repeat split.
    + rewrite app_assoc, He1, Hd2, app_assoc. reflexivity.
    + exact Hn1.
    + rewrite lines_written_app, (file_io_nil_lines _ Hio2), app_nil_r.
      exact Hw1.
    + rewrite appended_app, (file_io_nil_appended _ Hio2), append_empty_r.
      exact Hp1.
    + unfold pending_text. rewrite Hh2. exact Ht1.
  - right. exists (w1 ++ w2). repeat split.
    + rewrite app_assoc, He1, <- !app_assoc, He2. reflexivity.
    + intros H. apply app_eq_nil in H. destruct H. contradiction.
    + rewrite lines_written_app, Hw1, Hw2, map_app. reflexivity.
    + rewrite appended_app, Hp1, Hp2, Ht1, map_app, joined_app.
      simpl. rewrite append_assoc. reflexivity.
    + exact Ht2.
Qed.

Lemma appended_header_events (o : monitor_file) :
  appended (header_events o) = pending_text o.
Proof.
  unfold header_events, pending_text.
  destruct (headertext o) as [h|]; [|reflexivity].
  destruct h; simpl; [reflexivity|]. now rewrite append_empty_r.
Qed.

Lemma pending_text_flushed {sum : float_sum} cfg r (o : monitor_file) :
  pending_text (flushed cfg r o) = EmptyString.
Proof.
  unfold pending_text, flushed, header_pending; simpl.
  destruct (headertext o) as [h|]; [|reflexivity].
  destruct h; reflexivity.
Qed.

Lemma appends_only_header_events (o : monitor_file) :
  appends_only (header_events o) = true.
Proof.
  unfold header_events. destruct (headertext o) as [h|]; [|reflexivity].
  destruct (Py.truthy h); reflexivity.
Qed.

Lemma lines_written_header_events (o : monitor_file) :
  lines_written (header_events o) = [].
Proof.
  unfold header_events. destruct (headertext o) as [h|]; [|reflexivity].
  destruct (Py.truthy h); reflexivity.
Qed.

Lemma after_savedata_accounted {sum : float_sum} cfg clock (m : machine) :
  accounted m (after_savedata cfg clock m) [].
Proof.
  destruct (data (fh m)) as [|x xs] eqn:Hd.
  - rewrite after_savedata_empty by assumption. apply accounted_refl.
  - destruct (Z.lt_ge_cases (clock (monotonic_calls m)) (time (fh m)))
      as [Ht|Ht].
    + rewrite after_savedata_early by (assumption || congruence).
      eexists. split; [reflexivity|]. split; [reflexivity|].
      left. simpl. rewrite app_nil_r. repeat split; reflexivity.
    + rewrite after_savedata_due by (assumption || congruence).
      eexists. split; [reflexivity|]. cbn [fh log].
      split.
      { unfold flush_events. simpl.
        rewrite !appends_only_app, appends_only_header_events,
          appends_only_map. reflexivity. }
      right. exists (data (fh m)).
      split; [simpl; rewrite app_nil_r; reflexivity|].
      split; [congruence|].
      split; [|split].
      * unfold flush_events. simpl.
        rewrite !lines_written_app, lines_written_header_events,
          lines_written_map. simpl. rewrite ?app_nil_r. reflexivity.
      * unfold flush_events. simpl.
        rewrite !appended_app, appended_header_events, appended_map.
        simpl. rewrite ?append_empty_r. reflexivity.
      * apply pending_text_flushed.
Qed.

Lemma do_op_accounted {sum : float_sum} cfg clock (o : op) (m : machine) :
  is_data_op o = true ->
  fst (do_op cfg clock o m) = Ok tt
  /\ accounted m (snd (do_op cfg clock o m)) (passed [o]).
Proof.
  destruct o as [b|x| |]; simpl; intros H; try discriminate.
  - rewrite writedata_eq. split; [reflexivity|]. simpl.
    apply (accounted_trans m (after_append x m) _ [x] []).
    + exists []. simpl. rewrite app_nil_r.
      split; [reflexivity|]. split; [reflexivity|].
      left. repeat split; reflexivity.
    + apply after_savedata_accounted.
  - rewrite savedata_eq. split; [reflexivity|]. simpl.
    apply after_savedata_accounted.
  - rewrite flushdata_eq. split; [reflexivity|]. simpl.
    apply (accounted_trans m (after_deadline_now clock m) _ [] []).
    + eexists. split; [reflexivity|]. split; [reflexivity|].
      left. simpl. rewrite app_nil_r. repeat split; reflexivity.
    + apply after_savedata_accounted.
Qed.

Lemma passed_app ops1 ops2 : passed (ops1 ++ ops2) = passed ops1 ++ passed ops2.
Proof.
  induction ops1 as [|o ops1 IH]; simpl; [reflexivity|].
  destruct o; simpl; rewrite IH; reflexivity.
Qed.

Lemma run_accounted {sum : float_sum} cfg clock (ops : list op) (m : machine) :
  forallb is_data_op ops = true ->
  fst (run cfg clock ops m) = Ok tt
  /\ accounted m (snd (run cfg clock ops m)) (passed ops).
Proof.
  revert m; induction ops as [|o ops IH]; intros m H.
  - simpl. split; [reflexivity|]. apply accounted_refl.
  - simpl in H. apply andb_true_iff in H. destruct H as [Ho Hops].
    rewrite run_cons.
    destruct (do_op_accounted cfg clock o m Ho) as [Hr Ha].
    destruct (do_op cfg clock o m) as [[u|e] m1]; simpl in Hr, Ha;
      [|discriminate].
    destruct (IH m1 Hops) as [Hr' Ha'].
    split; [exact Hr'|].
    change (passed (o :: ops)) with (passed ([o] ++ ops)).
    rewrite passed_app.
    exact (accounted_trans _ _ _ _ _ Ha Ha').
Qed.

Lemma run_app {sum : float_sum} cfg clock (ops1 ops2 : list op) (m : machine) :
  run cfg clock (ops1 ++ ops2) m
  = match run cfg clock ops1 m with
    | (Ok _, m1) => run cfg clock ops2 m1
    | (Raise e, m1) => (Raise e, m1)
    end.
Proof.
  revert m; induction ops1 as [|o ops1 IH]; intros m.
  - reflexivity.
  - simpl app. rewrite !run_cons.
    destruct (do_op cfg clock o m) as [[u|e] m1]; [apply IH|reflexivity].
Qed.

(** Under a clock that never goes back, [flushdata] leaves the buffer
    empty. *)
Lemma flushdata_empties {sum : float_sum} cfg clock (m : machine) :
  (forall n, (clock n <= clock (S n))%Z) ->
  data (fh (snd (flushdata cfg clock m))) = [].
Proof.
  intros Hmono. rewrite flushdata_eq. simpl.
  destruct (data (fh m)) as [|x xs] eqn:Hd.
  - rewrite after_savedata_empty by exact Hd. exact Hd.
  - rewrite after_savedata_due.
    + reflexivity.
    + simpl. congruence.
    + simpl. apply Hmono.
Qed.

Lemma run_then_flush_empties {sum : float_sum} cfg clock (ops : list op)
      (m : machine) :
  (forall n, (clock n <= clock (S n))%Z) ->
  forallb is_data_op ops = true ->
  data (fh (snd (run cfg clock (ops ++ [OpFlush]) m))) = [].
Proof.
  intros Hmono Hops. rewrite run_app.
  destruct (run_accounted cfg clock ops m Hops) as [Hr _].
  destruct (run cfg clock ops m) as [[u|e] m1]; simpl in Hr; [|discriminate].
  rewrite run_cons.
  pose proof (flushdata_empties cfg clock m1 Hmono) as He.
  simpl do_op. destruct (flushdata cfg clock m1) as [[u'|e'] m2]; exact He.
Qed.

(** What a run that ends with an empty buffer has put in the file. *)
Lemma accounted_all_written (m m' : machine) (ps : list string) :
  accounted m m' ps ->
  data (fh m') = [] ->
  lines_written (since m m') = map with_nl (data (fh m) ++ ps)
  /\ appends_only (since m m') = true
  /\ appended (since m m')
     = ((if Py.nonempty (data (fh m) ++ ps) then pending_text (fh m)
         else EmptyString)
        ++ joined (map with_nl (data (fh m) ++ ps)))%string.
Proof.
  intros (d & Hl & Ha & H) He. rewrite (since_app _ _ _ Hl).
  destruct H as [(Hio & Hh & Hd)|(w & Hw & Hn & Hlw & Hap & Hp)].
  - rewrite He in Hd. rewrite <- Hd. simpl.
    rewrite (file_io_nil_lines _ Hio), (file_io_nil_appended _ Hio).
    repeat split; assumption || reflexivity.
  - rewrite He, app_nil_r in Hw. rewrite Hw.
    split; [exact Hlw|]. split; [exact Ha|].
    rewrite Hap. destruct w; [congruence|reflexivity].
Qed.

(** The file after a run that ends with an empty buffer. *)
Lemma accounted_file_content (m m' : machine) (ps : list string)
      (c : string) :
  accounted m m' ps ->
  data (fh m') = [] ->
  file_content c (log m')
  = (file_content c (log m)
     ++ (if Py.nonempty (data (fh m) ++ ps) then pending_text (fh m)
         else EmptyString)
     ++ joined (map with_nl (data (fh m) ++ ps)))%string.
Proof.
  intros Ha He.
  destruct (accounted_all_written _ _ _ Ha He) as (_ & Hao & Hap).
  destruct Ha as (d & Hl & _).
  rewrite (since_app _ _ _ Hl) in Hao, Hap.
  rewrite Hl, file_content_app, (file_content_appended _ _ Hao), Hap.
  reflexivity.
Qed.

(** C1.  Under a clock that never goes back, after any sequence of
    [writedata], [savedata] and [flushdata] calls that ends with
    [flushdata], the buffer is empty and the data lines written to the file
    are exactly the strings that were in the buffer at the start followed
    by the strings passed to [writedata], each once, in the order they were
    passed, each followed by a newline; the file has grown by the header
    text that was pending (when there was any line to write) and then by
    these lines. *)
Theorem no_sample_dropped cfg clock (ops : list op) (m : machine)
        (c : string) :
  (forall n, (clock n <= clock (S n))%Z) ->
  forallb is_data_op ops = true ->
  fst (run cfg clock (ops ++ [OpFlush]) m) = Ok tt
  /\ data (fh (snd (run cfg clock (ops ++ [OpFlush]) m))) = []
  /\ lines_written (since m (snd (run cfg clock (ops ++ [OpFlush]) m)))
     = map with_nl (data (fh m) ++ passed ops)
  /\ file_content c (log (snd (run cfg clock (ops ++ [OpFlush]) m)))
     = (file_content c (log m)
        ++ (if Py.nonempty (data (fh m) ++ passed ops)
            then pending_text (fh m) else EmptyString)
        ++ joined (map with_nl (data (fh m) ++ passed ops)))%string.
Proof.
  intros Hmono Hops.
  assert (Hall : forallb is_data_op (ops ++ [OpFlush]) = true).
  { rewrite forallb_app, Hops. reflexivity. }
  destruct (run_accounted cfg clock (ops ++ [OpFlush]) m Hall) as [Hr Ha].
  pose proof (run_then_flush_empties cfg clock ops m Hmono Hops) as He.
  rewrite passed_app in Ha. simpl in Ha. rewrite app_nil_r in Ha.
  destruct (accounted_all_written _ _ _ Ha He) as (Hlw & _ & _).
  split; [exact Hr|]. split; [exact He|]. split; [exact Hlw|].
  exact (accounted_file_content _ _ _ c Ha He).
Qed.

(* ================================================================== *)
(** ** The instants of the flushes *)

Lemma flush_times_flush_events t r (o : monitor_file) :
  flush_times t (flush_events o ++ [Monotonic r]) = [t].
Proof.
  unfold flush_events, header_events. simpl. f_equal.
  destruct (headertext o) as [h|]; [destruct (Py.truthy h)|]; simpl;
    rewrite !flush_times_app, flush_times_map; reflexivity.
Qed.

Lemma after_savedata_instants {sum : float_sum} cfg clock (m : machine) :
  (forall n, (clock n <= clock (S n))%Z) ->
  (forall a b w, (a <= b)%Z -> (float_add a w <= float_add b w)%Z) ->
  exists d,
    log (after_savedata cfg clock m) = log m ++ d
    /\ (((forall t, flush_times t d = [])
         /\ time (fh (after_savedata cfg clock m)) = time (fh m))
        \/ (exists c,
              (forall t, flush_times t d = [c])
              /\ (time (fh m) <= c)%Z
              /\ (float_add c (SAVINGINTERVALS cfg)
                  <= time (fh (after_savedata cfg clock m)))%Z)).
Proof.
  intros Hmono Hsum.
  destruct (data (fh m)) as [|x xs] eqn:Hd.
  - rewrite after_savedata_empty by assumption.
    exists []. rewrite app_nil_r. split; [reflexivity|].
    left. split; reflexivity.
  - destruct (Z.lt_ge_cases (clock (monotonic_calls m)) (time (fh m)))
      as [Ht|Ht].
    + rewrite after_savedata_early by (assumption || congruence).
      eexists. split; [reflexivity|]. left. split; reflexivity.
    + rewrite after_savedata_due by (assumption || congruence).
      eexists. split; [reflexivity|]. right.
      exists (clock (monotonic_calls m)). split; [|split].
      * intros t. simpl. apply flush_times_flush_events.
      * exact Ht.
      * cbn [fh flushed time]. apply Hsum, Hmono.
Qed.

Lemma do_op_instants {sum : float_sum} cfg clock (o : op) (m : machine) :
  (forall n, (clock n <= clock (S n))%Z) ->
  (forall a b w, (a <= b)%Z -> (float_add a w <= float_add b w)%Z) ->
  is_write_op o = true ->
  exists d,
    log (snd (do_op cfg clock o m)) = log m ++ d
    /\ fst (do_op cfg clock o m) = Ok tt
    /\ (((forall t, flush_times t d = [])
         /\ time (fh (snd (do_op cfg clock o m))) = time (fh m))
        \/ (exists c,
              (forall t, flush_times t d = [c])
              /\ (time (fh m) <= c)%Z
              /\ (float_add c (SAVINGINTERVALS cfg)
                  <= time (fh (snd (do_op cfg clock o m))))%Z)).
Proof.
  intros Hmono Hsum Ho.
  destruct o as [b|x| |]; simpl in Ho; try discriminate; simpl.
  - rewrite writedata_eq. simpl.
    destruct (after_savedata_instants cfg clock (after_append x m) Hmono
                Hsum) as (d & Hl & H).
    exists d. split; [exact Hl|]. split; [reflexivity|exact H].
  - rewrite savedata_eq. simpl.
    destruct (after_savedata_instants cfg clock m Hmono Hsum)
      as (d & Hl & H).
    exists d. split; [exact Hl|]. split; [reflexivity|exact H].
Qed.

Lemma spaced_cons {sum : float_sum} W (c : Z) (ts : list Z) :
  spaced W ts ->
  (forall t, hd_error ts = Some t -> (float_add c W <= t)%Z) ->
  spaced W (c :: ts).
Proof.
  intros Hs Hh. simpl. split; [|exact Hs].
  destruct ts as [|t ts]; [exact I|]. apply Hh. reflexivity.
Qed.

Lemma run_instants {sum : float_sum} cfg clock (ops : list op)
      (m : machine) (t : Z) :
  (forall n, (clock n <= clock (S n))%Z) ->
  (forall a b w, (a <= b)%Z -> (float_add a w <= float_add b w)%Z) ->
  forallb is_write_op ops = true ->
  spaced (SAVINGINTERVALS cfg)
         (flush_times t (since m (snd (run cfg clock ops m))))
  /\ (forall t1,
        hd_error (flush_times t (since m (snd (run cfg clock ops m))))
        = Some t1 -> (time (fh m) <= t1)%Z).
Proof.
  intros Hmono Hsum.
  revert m t; induction ops as [|o ops IH]; intros m t Hops.
  - simpl. rewrite since_refl. simpl. split; [exact I|discriminate].
  - simpl in Hops. apply andb_true_iff in Hops. destruct Hops as [Ho Hops].
    rewrite run_cons.
    destruct (do_op_instants cfg clock o m Hmono Hsum Ho)
      as (d1 & Hl1 & Hr1 & H1).
    destruct (do_op cfg clock o m) as [[u|e] m1]; simpl in Hl1, Hr1, H1;
      [|discriminate].
    assert (Hd : since m (snd (run cfg clock ops m1))
                 = d1 ++ since m1 (snd (run cfg clock ops m1))).
    { destruct (run_budget cfg clock ops m1) as (d2 & Hl2 & _).
      rewrite (since_app m1 _ d2 Hl2).
      apply since_app. rewrite Hl2, Hl1, app_assoc. reflexivity. }
    rewrite Hd, flush_times_app.
    destruct (IH m1 (last_reading t d1) Hops) as [Hs Hh].
    destruct H1 as [[Hn Ht]|(c & Hc & Hle & Hge)].
    + rewrite Hn. simpl. rewrite <- Ht. split; assumption.
    + rewrite Hc. simpl app. split.
      * apply spaced_cons; [exact Hs|].
        intros t1 E. specialize (Hh t1 E). lia.
      * intros t1 E. simpl in E. injection E as <-. exact Hle.
Qed.

(* ================================================================== *)
(** ** The flush policy *)

Lemma since_after_savedata_due {sum : float_sum} cfg clock (m : machine) :
  due clock m = true ->
  since m (after_savedata cfg clock m)
  = Monotonic (clock (monotonic_calls m))
      :: flush_events (fh m) ++ [Monotonic (clock (S (monotonic_calls m)))]
  /\ fh (after_savedata cfg clock m)
     = flushed cfg (clock (S (monotonic_calls m))) (fh m).
Proof.
  unfold due. intros H. apply andb_true_iff in H. destruct H as [Hd Ht].
  apply Z.leb_le in Ht.
  rewrite after_savedata_due; [|destruct (data (fh m)); [discriminate|congruence]|exact Ht].
  split; [|reflexivity]. apply since_app. reflexivity.
Qed.

Lemma since_after_savedata_not_due {sum : float_sum} cfg clock (m : machine) :
  due clock m = false ->
  file_io (since m (after_savedata cfg clock m)) = []
  /\ fh (after_savedata cfg clock m) = fh m.
Proof.
  unfold due. intros H. apply andb_false_iff in H.
  destruct (data (fh m)) as [|x xs] eqn:Hd.
  - rewrite after_savedata_empty by exact Hd. rewrite since_refl.
    split; reflexivity.
  - destruct H as [H|H]; [discriminate|]. apply Z.leb_gt in H.
    rewrite after_savedata_early by (congruence || exact H).
    split; [|reflexivity].
    rewrite (since_app m _ [Monotonic (clock (monotonic_calls m))])
      by reflexivity.
    reflexivity.
Qed.

(** C2, as the code has it.  [savedata] flushes exactly when the buffer is
    not empty and the clock has reached the deadline.  A flush opens the
    file for appending, writes the header when one is pending, writes every
    buffered line in the order of insertion, closes the file, empties the
    buffer and sets the deadline to the sum of a new reading of the clock
    and the window; otherwise the file and the writer are left alone.  The
    sum is the one the program computes, a sum of doubles, of which the
    theorem only uses that it does not decrease when the reading grows.
    Hence, under a clock that never goes back, in a sequence of
    [writedata] and [savedata] calls a flush never happens before the sum
    of the instant of the flush before it and the window. *)
Theorem flush_policy {sum : float_sum} cfg clock (m : machine)
        (ops : list op) (t : Z) :
  (forall n, (clock n <= clock (S n))%Z) ->
  (forall a b w, (a <= b)%Z -> (float_add a w <= float_add b w)%Z) ->
  forallb is_write_op ops = true ->
  fst (savedata cfg clock m) = Ok tt
  /\ (if due clock m then
        since m (snd (savedata cfg clock m))
        = Monotonic (clock (monotonic_calls m))
            :: Open (fp (fh m)) ModeA
            :: header_events (fh m)
            ++ map (fun d => WriteLine (with_nl d)) (data (fh m))
            ++ [Close]
            ++ [Monotonic (clock (S (monotonic_calls m)))]
        /\ headertext (fh (snd (savedata cfg clock m)))
           = (if header_pending (fh m) then None else headertext (fh m))
        /\ data (fh (snd (savedata cfg clock m))) = []
        /\ time (fh (snd (savedata cfg clock m)))
           = float_add (clock (S (monotonic_calls m))) (SAVINGINTERVALS cfg)
      else
        file_io (since m (snd (savedata cfg clock m))) = []
        /\ fh (snd (savedata cfg clock m)) = fh m)
  /\ spaced (SAVINGINTERVALS cfg)
            (flush_times t (since m (snd (run cfg clock ops m)))).
Proof.
  intros Hmono Hsum Hops. rewrite savedata_eq. simpl.
  split; [reflexivity|]. split.
  - destruct (due clock m) eqn:Hdue.
    + destruct (since_after_savedata_due cfg clock m Hdue) as [Hs Hf].
      rewrite Hs, Hf. unfold flush_events. simpl.
      rewrite <- !app_assoc. repeat split; reflexivity.
    + apply since_after_savedata_not_due. exact Hdue.
  - apply run_instants; assumption.
Qed.

Lemma jump_clock_mono n : (jump_clock n <= jump_clock (S n))%Z.
Proof.
  unfold jump_clock.
  change (ticks_per_second / 10)%Z with 100000000%Z.
  change ticks_per_second with 1000000000%Z.
  destruct n; lia.
Qed.

Lemma scenario_clock_mono n : (scenario_clock n <= scenario_clock (S n))%Z.
Proof.
  unfold scenario_clock.
  change (ticks_per_second / 10)%Z with 100000000%Z.
  change ticks_per_second with 1000000000%Z.
  destruct n as [|[|[|[|n]]]]; simpl Nat.leb; cbv iota; lia.
Qed.

Lemma slow_clock_mono n : (slow_clock n <= slow_clock (S n))%Z.
Proof.
  unfold slow_clock. change ticks_per_second with 1000000000%Z. lia.
Qed.

Lemma exact_sum_monotone (a b w : Z) :
  (a <= b)%Z -> (float_add a w <= float_add b w)%Z.
Proof. unfold float_add, exact_sum. lia. Qed.

Lemma flush_policy_witness :
  ((forall n, (scenario_clock n <= scenario_clock (S n))%Z)
   /\ (forall n, (slow_clock n <= slow_clock (S n))%Z)
   /\ (forall a b w, (a <= b)%Z -> (float_add a w <= float_add b w)%Z)
   /\ forallb is_write_op patient_ops = true)
  /\ (due scenario_clock three_lines_machine = true
      /\ since three_lines_machine
           (snd (savedata configuration scenario_clock three_lines_machine))
         = [Monotonic 15000000000%Z; Open "./d.dat" ModeA;
            WriteHeader (pending_text (fh three_lines_machine));
            WriteLine (with_nl "a"); WriteLine (with_nl "b");
            WriteLine (with_nl "c"); Close; Monotonic 16000000000%Z]
      /\ fh (snd (savedata configuration scenario_clock
                           three_lines_machine))
         = {| created := "20251128T120000"; fp := "./d.dat";
              headertext := None; data := []; time := 26000000000 |})
  /\ (due slow_clock (fresh_machine slow_clock) = false
      /\ since (fresh_machine slow_clock)
           (snd (savedata configuration slow_clock
                          (fresh_machine slow_clock))) = []
      /\ flush_times 0
           (since (fresh_machine slow_clock)
              (snd (run configuration slow_clock patient_ops
                        (fresh_machine slow_clock))))
         = [11000000000; 33000000000; 55000000000]%Z
      /\ spaced (SAVINGINTERVALS configuration)
                [11000000000; 33000000000; 55000000000]%Z).
Proof.
  pose proof (flush_policy configuration scenario_clock three_lines_machine
                patient_ops 0 scenario_clock_mono exact_sum_monotone eq_refl)
    as (_ & Hdue & _).
  pose proof (flush_policy configuration slow_clock
                (fresh_machine slow_clock) patient_ops 0 slow_clock_mono
                exact_sum_monotone eq_refl)
    as (_ & Hnot & Hspaced).
  split.
  { split; [exact scenario_clock_mono|]. split; [exact slow_clock_mono|].
    split; [exact exact_sum_monotone|reflexivity]. }
  split.
  - split; [reflexivity|].
    change (due scenario_clock three_lines_machine) with true in Hdue.
    destruct Hdue as (He & Hh & Hd & Ht).
    split; [rewrite He; vm_compute; reflexivity|].
    vm_compute. reflexivity.
  - split; [reflexivity|].
    change (due slow_clock (fresh_machine slow_clock)) with false in Hnot.
    split; [vm_compute; reflexivity|].
    assert (E : flush_times 0
                  (since (fresh_machine slow_clock)
                     (snd (run configuration slow_clock patient_ops
                               (fresh_machine slow_clock))))
                = [11000000000; 33000000000; 55000000000]%Z)
      by (vm_compute; reflexivity).
    split; [exact E|]. rewrite <- E. exact Hspaced.
Defined.

(** C2 as stated fails: [flushdata] flushes before the window has elapsed.
    The clock never goes back; the first [writedata] flushes at 10.1 s and
    [flushdata] flushes at 10.5 s, with a window of 10 s. *)
Lemma forced_flush_within_window :
  (forall n, (jump_clock n <= jump_clock (S n))%Z)
  /\ flush_times 0
       (since (fresh_machine jump_clock)
          (snd (run configuration jump_clock hasty_ops
                  (fresh_machine jump_clock))))
     = [10100000000; 10500000000]%Z
  /\ ~ spaced (SAVINGINTERVALS configuration)
         (flush_times 0
            (since (fresh_machine jump_clock)
               (snd (run configuration jump_clock hasty_ops
                       (fresh_machine jump_clock))))).
Proof.
  split; [exact jump_clock_mono|].
  assert (E : flush_times 0
                (since (fresh_machine jump_clock)
                   (snd (run configuration jump_clock hasty_ops
                           (fresh_machine jump_clock))))
              = [10100000000; 10500000000]%Z) by (vm_compute; reflexivity).
  split; [exact E|]. rewrite E.
  change (SAVINGINTERVALS configuration) with 10000000000%Z.
  simpl. intros [H _]. unfold float_add, exact_sum in H. lia.
Qed.

(* ================================================================== *)
(** ** The forced flush *)

Lemma flushdata_empty {sum : float_sum} cfg clock (m : machine) :
  data (fh m) = [] ->
  flushdata cfg clock m = (Ok tt, after_deadline_now clock m).
Proof.
  intros Hd. rewrite flushdata_eq, after_savedata_empty by exact Hd.
  reflexivity.
Qed.

Lemma file_io_flush_events (o : monitor_file) :
  file_io (flush_events o) = flush_events o.
Proof.
  unfold flush_events, header_events, file_io. simpl. f_equal.
  rewrite !filter_app. simpl. f_equal.
  - destruct (headertext o) as [h|]; [destruct (Py.truthy h)|]; reflexivity.
  - f_equal. induction (data o) as [|d ds IH]; simpl; [reflexivity|].
    now rewrite IH.
Qed.

(** Under a clock that never goes back, [flushdata] with lines in the
    buffer flushes them, whatever the deadline was. *)
Lemma flushdata_nonempty {sum : float_sum} cfg clock (m : machine) :
  (forall n, (clock n <= clock (S n))%Z) ->
  data (fh m) <> [] ->
  flushdata cfg clock m
  = (Ok tt,
     {| fh := flushed cfg (clock (S (S (monotonic_calls m)))) (fh m);
        monotonic_calls := S (S (S (monotonic_calls m)));
        queries := queries m;
        log := log m ++ Monotonic (clock (monotonic_calls m))
                 :: Monotonic (clock (S (monotonic_calls m)))
                 :: flush_events (fh m)
                 ++ [Monotonic (clock (S (S (monotonic_calls m))))] |}).
Proof.
  intros Hmono Hd. rewrite flushdata_eq.
  rewrite after_savedata_due; [|exact Hd|simpl; apply Hmono].
  simpl. rewrite <- app_assoc. reflexivity.
Qed.

Lemma file_io_monotonic t l : file_io (Monotonic t :: l) = file_io l.
Proof. reflexivity. Qed.

Lemma file_io_flushdata {sum : float_sum} cfg clock (m : machine) :
  (forall n, (clock n <= clock (S n))%Z) ->
  file_io (since m (snd (flushdata cfg clock m)))
  = if Py.nonempty (data (fh m)) then flush_events (fh m) else [].
Proof.
  intros Hmono. destruct (data (fh m)) as [|x xs] eqn:Hd.
  - rewrite flushdata_empty by exact Hd. simpl.
    rewrite (since_app m _ [Monotonic (clock (monotonic_calls m))])
      by reflexivity.
    reflexivity.
  - rewrite flushdata_nonempty by (exact Hmono || congruence).
    cbn [snd Py.nonempty]. erewrite since_app by (cbn [log]; reflexivity).
    rewrite !file_io_monotonic, file_io_app, file_io_flush_events.
    rewrite file_io_monotonic. apply app_nil_r.
Qed.

Lemma times_flushdata_empty {sum : float_sum} cfg clock (k : nat)
      (m : machine) :
  data (fh m) = [] ->
  exists d,
    log (snd (times k (flushdata cfg clock) m)) = log m ++ d
    /\ file_io d = []
    /\ headertext (fh (snd (times k (flushdata cfg clock) m)))
       = headertext (fh m)
    /\ data (fh (snd (times k (flushdata cfg clock) m))) = [].
Proof.
  revert m; induction k as [|k IH]; intros m Hd.
  - exists []. simpl. rewrite app_nil_r. repeat split; assumption || reflexivity.
  - simpl. unfold bind. rewrite flushdata_empty by exact Hd.
    destruct (IH (after_deadline_now clock m) Hd) as (d & Hl & Hio & Hh & Hd').
    exists (Monotonic (clock (monotonic_calls m)) :: d).
    split; [rewrite Hl; simpl; rewrite <- app_assoc; reflexivity|].
    split; [exact Hio|]. split; [exact Hh|exact Hd'].
Qed.

Lemma file_io_write_then_flush {sum : float_sum} cfg clock (x : string)
      (m : machine) :
  (forall n, (clock n <= clock (S n))%Z) ->
  data (fh m) = [] ->
  file_io (since m (snd (run cfg clock [OpWrite x; OpFlush] m)))
  = Open (fp (fh m)) ModeA
      :: header_events (fh m) ++ [WriteLine (with_nl x); Close].
Proof.
  intros Hmono Hd.
  assert (Hfe : flush_events (fh (after_append x m))
                = Open (fp (fh m)) ModeA
                    :: header_events (fh m) ++ [WriteLine (with_nl x); Close]).
  { unfold flush_events, header_events. simpl. rewrite Hd. reflexivity. }
  assert (Hne : data (fh (after_append x m)) <> []).
  { simpl. rewrite Hd. discriminate. }
  rewrite run_cons. cbn [do_op]. rewrite writedata_eq. rewrite run_cons.
  cbn [do_op].
  destruct (Z.lt_ge_cases (clock (monotonic_calls m)) (time (fh m)))
    as [Ht|Ht].
  - rewrite after_savedata_early by (exact Hne || exact Ht).
    rewrite flushdata_nonempty by (exact Hmono || exact Hne).
    cbn [run for_each ret snd].
    erewrite since_app by (cbn [log after_append]; rewrite <- app_assoc; reflexivity).
    cbn [app fh]. rewrite !file_io_monotonic, file_io_app.
    rewrite file_io_flush_events, Hfe, file_io_monotonic. apply app_nil_r.
  - rewrite after_savedata_due by (exact Hne || exact Ht).
    rewrite flushdata_empty by reflexivity.
    cbn [run for_each ret snd].
    erewrite since_app by (cbn [log after_append after_deadline_now]; rewrite <- app_assoc; reflexivity).
    cbn [app]. rewrite !file_io_monotonic, <- app_assoc, file_io_app.
    rewrite file_io_flush_events, Hfe. cbn [app]. rewrite !file_io_monotonic.
    change (file_io []) with (@nil event). now rewrite app_nil_r.
Qed.

(** C4.  Under a clock that never goes back, [flushdata] never fails,
    leaves the buffer empty and does exactly the file operations of a flush
    of everything buffered, whatever the deadline and the window; with an
    empty buffer any number of calls in a row do no file operation and
    leave header and buffer as they are; and on a writer with an empty
    buffer, [writedata(x)] followed by [flushdata] opens the file once,
    writes the pending header and the one line [x], and closes it, so that
    the file grows by the header text and that line. *)
Theorem flushdata_flushes_now cfg clock (m : machine) :
  (forall n, (clock n <= clock (S n))%Z) ->
  fst (flushdata cfg clock m) = Ok tt
  /\ data (fh (snd (flushdata cfg clock m))) = []
  /\ file_io (since m (snd (flushdata cfg clock m)))
     = (if Py.nonempty (data (fh m)) then flush_events (fh m) else [])
  /\ (data (fh m) = [] ->
      forall k,
        file_io (since m (snd (times k (flushdata cfg clock) m))) = []
        /\ headertext (fh (snd (times k (flushdata cfg clock) m)))
           = headertext (fh m)
        /\ data (fh (snd (times k (flushdata cfg clock) m))) = [])
  /\ (data (fh m) = [] ->
      forall x c,
        file_io (since m (snd (run cfg clock [OpWrite x; OpFlush] m)))
        = Open (fp (fh m)) ModeA
            :: header_events (fh m) ++ [WriteLine (with_nl x); Close]
        /\ file_content c (log (snd (run cfg clock [OpWrite x; OpFlush] m)))
           = (file_content c (log m) ++ pending_text (fh m)
              ++ with_nl x)%string).
Proof.
  intros Hmono.
  split; [rewrite flushdata_eq; reflexivity|].
  split; [apply flushdata_empties; exact Hmono|].
  split; [apply file_io_flushdata; exact Hmono|].
  split.
  - intros Hd k.
    destruct (times_flushdata_empty cfg clock k m Hd) as (d & Hl & Hio & Hh & He).
    rewrite (since_app _ _ _ Hl). repeat split; assumption.
  - intros Hd x c. split.
    + apply file_io_write_then_flush; assumption.
    + destruct (run_accounted cfg clock [OpWrite x; OpFlush] m eq_refl)
        as [_ Ha].
      pose proof (run_then_flush_empties cfg clock [OpWrite x] m Hmono eq_refl)
        as He.
      rewrite (accounted_file_content _ _ _ c Ha He), Hd. simpl.
      unfold with_nl. rewrite append_empty_r. reflexivity.
Qed.

(* ================================================================== *)
(** ** Scenarios *)

(** A writer just built has an empty header, an empty buffer, and its
    deadline one window after the reading of the clock. *)
Lemma init_fresh {sum : float_sum} DEBUG cfg clock (stamp fp0 fn : string)
      (m : machine) :
  fst (init DEBUG cfg clock stamp fp0 fn m) = Ok tt
  /\ headertext (fh (snd (init DEBUG cfg clock stamp fp0 fn m)))
     = Some EmptyString
  /\ data (fh (snd (init DEBUG cfg clock stamp fp0 fn m))) = []
  /\ time (fh (snd (init DEBUG cfg clock stamp fp0 fn m)))
     = float_add (clock (monotonic_calls m)) (SAVINGINTERVALS cfg)
  /\ monotonic_calls (snd (init DEBUG cfg clock stamp fp0 fn m))
     = S (monotonic_calls m).
Proof.
  unfold init, bind, monotonic, put_fh, emit, ret.
  destruct (debug DEBUG ["TEMPFILE"]); simpl; repeat split; reflexivity.
Qed.

(** Under the flag TEMPFILE the log file is empty once the writer is
    built. *)
Lemma init_truncates {sum : float_sum} cfg clock (stamp fp0 fn c : string)
      (m : machine) :
  file_content c (since m (snd (init ["TEMPFILE"] cfg clock stamp fp0 fn m)))
  = EmptyString.
Proof.
  unfold init, bind, monotonic, put_fh, emit, ret. simpl.
  erewrite since_app by (simpl; rewrite <- !app_assoc; reflexivity).
  reflexivity.
Qed.

Lemma writedata_early {sum : float_sum} cfg clock (x : string) (m : machine) :
  (clock (monotonic_calls m) < time (fh m))%Z ->
  writedata cfg clock x m
  = (Ok tt,
     {| fh := set_data (data (fh m) ++ [x]) (fh m);
        monotonic_calls := S (monotonic_calls m);
        queries := queries m;
        log := log m ++ [Monotonic (clock (monotonic_calls m))] |}).
Proof.
  intros Ht. rewrite writedata_eq, after_savedata_early.
  - reflexivity.
  - simpl. destruct (data (fh m)); discriminate.
  - exact Ht.
Qed.

Lemma writedata_due {sum : float_sum} cfg clock (x : string) (m : machine) :
  (time (fh m) <= clock (monotonic_calls m))%Z ->
  writedata cfg clock x m
  = (Ok tt,
     {| fh := flushed cfg (clock (S (monotonic_calls m)))
                (set_data (data (fh m) ++ [x]) (fh m));
        monotonic_calls := S (S (monotonic_calls m));
        queries := queries m;
        log := log m ++ Monotonic (clock (monotonic_calls m))
                 :: flush_events (set_data (data (fh m) ++ [x]) (fh m))
                 ++ [Monotonic (clock (S (monotonic_calls m)))] |}).
Proof.
  intros Ht. rewrite writedata_eq, after_savedata_due.
  - reflexivity.
  - simpl. destruct (data (fh m)); discriminate.
  - exact Ht.
Qed.

(** Three writes before the deadline only fill the buffer. *)
Lemma three_early_writes {sum : float_sum} cfg clock (a b c : string)
      (m : machine) :
  (forall n, (clock n <= clock (S n))%Z) ->
  data (fh m) = [] ->
  (clock (S (S (monotonic_calls m))) < time (fh m))%Z ->
  run cfg clock [OpWrite a; OpWrite b; OpWrite c] m
  = (Ok tt,
     {| fh := set_data [a; b; c] (fh m);
        monotonic_calls := S (S (S (monotonic_calls m)));
        queries := queries m;
        log := log m ++ [Monotonic (clock (monotonic_calls m));
                         Monotonic (clock (S (monotonic_calls m)));
                         Monotonic (clock (S (S (monotonic_calls m))))] |}).
Proof.
  intros Hmono Hd Ht.
  pose proof (Hmono (monotonic_calls m)) as H0.
  pose proof (Hmono (S (monotonic_calls m))) as H1.
  rewrite run_cons. cbn [do_op]. rewrite writedata_early by lia.
  rewrite run_cons. cbn [do_op]. rewrite writedata_early by (simpl; lia).
  rewrite run_cons. cbn [do_op]. rewrite writedata_early by (simpl; lia).
  cbn [run for_each ret]. unfold set_data. simpl. rewrite Hd.
  rewrite <- !app_assoc. reflexivity.
Qed.

(** C6, as the code has it.  With a window of ten seconds, on a writer
    built at [t0] with an empty buffer, three [writedata] calls that read
    the clock within a second of [t0] do no file operation.  Once the
    window has elapsed, a [flushdata] call opens the file, writes the
    header and the three lines, and closes it; a [writedata] call instead
    writes the header and four lines, the three buffered ones and its
    own. *)
Theorem three_writes_then_flush cfg clock (m : machine) (t0 : Z)
        (a b c d : string) :
  (forall n, (clock n <= clock (S n))%Z) ->
  SAVINGINTERVALS cfg = (10 * ticks_per_second)%Z ->
  data (fh m) = [] ->
  time (fh m) = (t0 + SAVINGINTERVALS cfg)%Z ->
  (clock (S (S (monotonic_calls m))) <= t0 + ticks_per_second)%Z ->
  (t0 + SAVINGINTERVALS cfg <= clock (S (S (S (monotonic_calls m)))))%Z ->
  file_io (since m (snd (run cfg clock [OpWrite a; OpWrite b; OpWrite c] m)))
  = []
  /\ data (fh (snd (run cfg clock [OpWrite a; OpWrite b; OpWrite c] m)))
     = [a; b; c]
  /\ file_io
       (since (snd (run cfg clock [OpWrite a; OpWrite b; OpWrite c] m))
          (snd (flushdata cfg clock
                  (snd (run cfg clock [OpWrite a; OpWrite b; OpWrite c] m)))))
     = Open (fp (fh m)) ModeA
         :: header_events (fh m)
         ++ [WriteLine (with_nl a); WriteLine (with_nl b);
             WriteLine (with_nl c); Close]
  /\ file_io
       (since (snd (run cfg clock [OpWrite a; OpWrite b; OpWrite c] m))
          (snd (writedata cfg clock d
                  (snd (run cfg clock [OpWrite a; OpWrite b; OpWrite c] m)))))
     = Open (fp (fh m)) ModeA
         :: header_events (fh m)
         ++ [WriteLine (with_nl a); WriteLine (with_nl b);
             WriteLine (with_nl c); WriteLine (with_nl d); Close].
Proof.
  intros Hmono HW Hd Ht Hearly Hlate.
  assert (Hlt : (clock (S (S (monotonic_calls m))) < time (fh m))%Z).
  { rewrite Ht, HW. unfold ticks_per_second in *. lia. }
  rewrite (three_early_writes cfg clock a b c m Hmono Hd Hlt). cbn [snd].
  split; [|split; [reflexivity|split]].
  - erewrite since_app by (cbn [log]; reflexivity). reflexivity.
  - rewrite file_io_flushdata by exact Hmono. reflexivity.
  - rewrite writedata_due by (cbn [fh monotonic_calls set_data time]; lia).
    cbn [snd]. erewrite since_app by (cbn [log]; reflexivity).
    rewrite file_io_monotonic, file_io_app, file_io_flush_events.
    rewrite file_io_monotonic.
    unfold flush_events, header_events. simpl. rewrite app_nil_r.
    reflexivity.
Qed.

Lemma brisk_clock_mono n : (brisk_clock n <= brisk_clock (S n))%Z.
Proof.
  unfold brisk_clock.
  change (ticks_per_second / 10)%Z with 100000000%Z. lia.
Qed.

Lemma three_writes_then_flush_witness :
  (forall n, (scenario_clock n <= scenario_clock (S n))%Z)
  /\ file_io (since (fresh_machine scenario_clock) three_lines_machine) = []
  /\ data (fh three_lines_machine) = ["a"; "b"; "c"]%string
  /\ file_io
       (since three_lines_machine
          (snd (flushdata configuration scenario_clock three_lines_machine)))
     = Open (fp (fh (fresh_machine scenario_clock))) ModeA
         :: header_events (fh (fresh_machine scenario_clock))
         ++ [WriteLine (with_nl "a"); WriteLine (with_nl "b");
             WriteLine (with_nl "c"); Close]
  /\ file_io
       (since three_lines_machine
          (snd (writedata configuration scenario_clock "d"
                  three_lines_machine)))
     = Open (fp (fh (fresh_machine scenario_clock))) ModeA
         :: header_events (fh (fresh_machine scenario_clock))
         ++ [WriteLine (with_nl "a"); WriteLine (with_nl "b");
             WriteLine (with_nl "c"); WriteLine (with_nl "d"); Close].
Proof.
  split; [exact scenario_clock_mono|].
  refine (three_writes_then_flush configuration scenario_clock
            (fresh_machine scenario_clock) 0 "a" "b" "c" "d"
            scenario_clock_mono eq_refl eq_refl eq_refl _ _);
    vm_compute; discriminate.
Defined.

(** C6 as stated fails for [writedata]: in the scenario, with the header
    and three lines buffered within 0.9 s, a [writedata] at 15 s writes four
    lines. *)
Lemma writedata_after_window_writes_four :
  file_io (since (fresh_machine scenario_clock) three_lines_machine) = []
  /\ lines_written
       (since three_lines_machine
          (snd (writedata configuration scenario_clock "d"
                  three_lines_machine)))
     = [with_nl "a"; with_nl "b"; with_nl "c"; with_nl "d"]
  /\ List.length
       (lines_written
          (since three_lines_machine
             (snd (writedata configuration scenario_clock "d"
                     three_lines_machine)))) <> 3.
Proof.
  split; [vm_compute; reflexivity|].
  assert (E : lines_written
                (since three_lines_machine
                   (snd (writedata configuration scenario_clock "d"
                           three_lines_machine)))
              = [with_nl "a"; with_nl "b"; with_nl "c"; with_nl "d"])
    by (vm_compute; reflexivity).
  split; [exact E|]. rewrite E. simpl. discriminate.
Qed.

Lemma no_sample_dropped_witness :
  (forall n, (jump_clock n <= jump_clock (S n))%Z)
  /\ forallb is_data_op hasty_ops = true
  /\ lines_written
       (since (fresh_machine jump_clock)
          (snd (run configuration jump_clock (hasty_ops ++ [OpFlush])
                  (fresh_machine jump_clock))))
     = map with_nl (data (fh (fresh_machine jump_clock)) ++ passed hasty_ops).
Proof.
  split; [exact jump_clock_mono|]. split; [reflexivity|].
  exact (proj1 (proj2 (proj2
           (no_sample_dropped configuration jump_clock hasty_ops
              (fresh_machine jump_clock) EmptyString
              jump_clock_mono eq_refl)))).
Defined.

Lemma flushdata_flushes_now_witness :
  (forall n, (brisk_clock n <= brisk_clock (S n))%Z)
  /\ data (fh (fresh_machine brisk_clock)) = []
  /\ file_io
       (since (fresh_machine brisk_clock)
          (snd (times 2 (flushdata configuration brisk_clock)
                  (fresh_machine brisk_clock)))) = []
  /\ file_content EmptyString
       (log (snd (run configuration brisk_clock [OpWrite "x"; OpFlush]
                    (fresh_machine brisk_clock))))
     = (file_content EmptyString (log (fresh_machine brisk_clock))
        ++ pending_text (fh (fresh_machine brisk_clock))
        ++ with_nl "x")%string.
Proof.
  split; [exact brisk_clock_mono|]. split; [reflexivity|].
  pose proof (flushdata_flushes_now configuration brisk_clock
                (fresh_machine brisk_clock) brisk_clock_mono)
    as (_ & _ & _ & Hidem & Hone).
  split.
  - exact (proj1 (Hidem eq_refl 2)).
  - exact (proj2 (Hone eq_refl "x"%string EmptyString)).
Defined.

Lemma empty_buffer_no_file_io_witness :
  data (fh (fresh_machine brisk_clock)) = []
  /\ savedata configuration brisk_clock (fresh_machine brisk_clock)
     = (Ok tt, fresh_machine brisk_clock)
  /\ file_io
       (since (fresh_machine brisk_clock)
          (snd (flushdata configuration brisk_clock
                  (fresh_machine brisk_clock)))) = []
  /\ headertext
       (fh (snd (flushdata configuration brisk_clock
                   (fresh_machine brisk_clock))))
     = headertext (fh (fresh_machine brisk_clock)).
Proof.
  split; [reflexivity|].
  pose proof (empty_buffer_no_file_io configuration brisk_clock
                (fresh_machine brisk_clock) eq_refl)
    as (Hs & _ & Hio & Hh & _).
  split; [exact Hs|]. split; [exact Hio|exact Hh].
Defined.

(* ================================================================== *)
(** ** The reading of the instrument *)

Section Reading.

Variable DEBUG : list string.
Variable self : LAKESHORE.t.
Variable instrument : nat -> string -> string.

Lemma query_eq (w : string) (m : machine) :
  LAKESHORE.query DEBUG self instrument w m
  = (Ok (answer DEBUG instrument m 0 w), after_query DEBUG self w m).
Proof.
  unfold LAKESHORE.query, answer, after_query, query_events, bind, emit,
    LAKESHORE.lsh_query, ret.
  destruct (debug DEBUG ["LOG_GPIB"]), (debug DEBUG ["NOGPIB"]); simpl;
    rewrite <- ?app_assoc, ?Nat.add_0_r; reflexivity.
Qed.

Lemma answer_after_query (w w' : string) (k : nat) (m : machine) :
  answer DEBUG instrument (after_query DEBUG self w m) k w'
  = answer DEBUG instrument m (S k) w'.
Proof.
  unfold answer, after_query.
  destruct (debug DEBUG ["NOGPIB"]); simpl; [reflexivity|].
  now rewrite Nat.add_succ_r.
Qed.

Lemma queries_made_app l1 l2 :
  queries_made (l1 ++ l2) = queries_made l1 ++ queries_made l2.
Proof.
  induction l1 as [|e l1 IH]; simpl; [reflexivity|].
  destruct e; simpl; rewrite ?IH; reflexivity.
Qed.

Lemma queries_made_query_events (w : string) :
  queries_made (query_events DEBUG self w) = [w].
Proof.
  unfold query_events.
  destruct (debug DEBUG ["LOG_GPIB"]), (debug DEBUG ["NOGPIB"]);
    reflexivity.
Qed.

Lemma after_queries_cons (w : string) (ws : list string) (m : machine) :
  after_queries DEBUG self (w :: ws) m
  = after_queries DEBUG self ws (after_query DEBUG self w m).
Proof. reflexivity. Qed.

Lemma after_queries_log (ws : list string) (m : machine) :
  exists d, log (after_queries DEBUG self ws m) = log m ++ d
            /\ queries_made d = ws.
Proof.
  revert m; induction ws as [|w ws IH]; intros m.
  - exists []. simpl. now rewrite app_nil_r.
  - destruct (IH (after_query DEBUG self w m)) as (d & Hl & Hq).
    exists (query_events DEBUG self w ++ d). split.
    + rewrite after_queries_cons, Hl. cbn [after_query log].
      now rewrite <- app_assoc.
    + rewrite queries_made_app, queries_made_query_events, Hq.
      reflexivity.
Qed.

Lemma queries_made_after_queries (ws : list string) (m : machine) :
  queries_made (since m (after_queries DEBUG self ws m)) = ws.
Proof.
  destruct (after_queries_log ws m) as (d & Hl & Hq).
  now rewrite (since_app _ _ _ Hl).
Qed.

End Reading.

Section ReadingResult.

Variable DEBUG : list string.
Variable self : LAKESHORE.t.
Variable instrument : nat -> string -> string.
Variable pyfloat : Type.
Variable float : string -> option pyfloat.

(** One query and its conversion. *)
Lemma query_convert {A B : Type} (f : string -> option A) (w : string)
      (k : A -> M B) (m : machine) :
  bind (LAKESHORE.query DEBUG self instrument w)
       (fun r => bind (LAKESHORE.convert f r) k) m
  = match f (answer DEBUG instrument m 0 w) with
    | Some a => k a (after_query DEBUG self w m)
    | None => (Raise ValueError, after_query DEBUG self w m)
    end.
Proof.
  unfold bind at 1. rewrite query_eq. unfold bind, LAKESHORE.convert.
  destruct (f (answer DEBUG instrument m 0 w)); reflexivity.
Qed.

(** [read] in closed form. *)
Lemma read_eq (m : machine) :
  LAKESHORE.read DEBUG self instrument pyfloat float m
  = match float (answer DEBUG instrument m 0 "RDGR? 1") with
    | None => (Raise ValueError,
               after_queries DEBUG self (firstn 1 five_queries) m)
    | Some T1R =>
    match float (answer DEBUG instrument m 1 "RDGK? 1") with
    | None => (Raise ValueError,
               after_queries DEBUG self (firstn 2 five_queries) m)
    | Some T1T =>
    match float (answer DEBUG instrument m 2 "SETP?") with
    | None => (Raise ValueError,
               after_queries DEBUG self (firstn 3 five_queries) m)
    | Some TSP =>
    match Py.int (answer DEBUG instrument m 3 "HTRRNG?") with
    | None => (Raise ValueError,
               after_queries DEBUG self (firstn 4 five_queries) m)
    | Some HTR =>
    match float (answer DEBUG instrument m 4 "HTR?") with
    | None => (Raise ValueError,
               after_queries DEBUG self five_queries m)
    | Some HTV => (Ok (T1R, T1T, TSP, HTR, HTV),
                   after_queries DEBUG self five_queries m)
    end end end end end.
Proof.
  unfold LAKESHORE.read.
  rewrite query_convert.
  destruct (float (answer DEBUG instrument m 0 "RDGR? 1")); [|reflexivity].
  rewrite query_convert, answer_after_query.
  destruct (float (answer DEBUG instrument m 1 "RDGK? 1")); [|reflexivity].
  rewrite query_convert, !answer_after_query.
  destruct (float (answer DEBUG instrument m 2 "SETP?")); [|reflexivity].
  rewrite query_convert, !answer_after_query.
  destruct (Py.int (answer DEBUG instrument m 3 "HTRRNG?")); [|reflexivity].
  rewrite query_convert, !answer_after_query.
  destruct (float (answer DEBUG instrument m 4 "HTR?")); reflexivity.
Qed.

(** C5.  [read] calls [query] with the commands [RDGR? 1], [RDGK? 1],
    [SETP?], [HTRRNG?] and [HTR?], in this order, converts the answer to
    the fourth with [int] and the others with [float], and returns the
    five values; it succeeds exactly when the five conversions succeed,
    and then it has made exactly these five calls; it fails, with
    [ValueError], exactly when one of the conversions fails, and then it
    has made the calls up to the answer that failed. *)
Theorem read_five_queries (m : machine) :
  (forall T1R T1T TSP HTR HTV,
      fst (LAKESHORE.read DEBUG self instrument pyfloat float m)
      = Ok (T1R, T1T, TSP, HTR, HTV)
      <-> float (answer DEBUG instrument m 0 "RDGR? 1") = Some T1R
          /\ float (answer DEBUG instrument m 1 "RDGK? 1") = Some T1T
          /\ float (answer DEBUG instrument m 2 "SETP?") = Some TSP
          /\ Py.int (answer DEBUG instrument m 3 "HTRRNG?") = Some HTR
          /\ float (answer DEBUG instrument m 4 "HTR?") = Some HTV)
  /\ (fst (LAKESHORE.read DEBUG self instrument pyfloat float m)
      = Raise ValueError
      <-> float (answer DEBUG instrument m 0 "RDGR? 1") = None
          \/ float (answer DEBUG instrument m 1 "RDGK? 1") = None
          \/ float (answer DEBUG instrument m 2 "SETP?") = None
          \/ Py.int (answer DEBUG instrument m 3 "HTRRNG?") = None
          \/ float (answer DEBUG instrument m 4 "HTR?") = None)
  /\ (forall e,
        fst (LAKESHORE.read DEBUG self instrument pyfloat float m) = Raise e
        -> e = ValueError)
  /\ (forall v,
        fst (LAKESHORE.read DEBUG self instrument pyfloat float m) = Ok v
        -> queries_made
             (since m
                (snd (LAKESHORE.read DEBUG self instrument pyfloat float m)))
           = five_queries)
  /\ (exists k,
        1 <= k <= 5
        /\ queries_made
             (since m
                (snd (LAKESHORE.read DEBUG self instrument pyfloat float m)))
           = firstn k five_queries).
Proof.
  rewrite read_eq.
  destruct (float (answer DEBUG instrument m 0 "RDGR? 1")) eqn:E0;
    [destruct (float (answer DEBUG instrument m 1 "RDGK? 1")) eqn:E1;
     [destruct (float (answer DEBUG instrument m 2 "SETP?")) eqn:E2;
      [destruct (Py.int (answer DEBUG instrument m 3 "HTRRNG?")) eqn:E3;
       [destruct (float (answer DEBUG instrument m 4 "HTR?")) eqn:E4|]|]|]|];
    cbn [fst snd]; rewrite ?queries_made_after_queries;
    (split; [intros; split; [intros H; inversion H; subst; auto 6
                            |intros (H0 & H1 & H2 & H3 & H4); congruence]|]);
    (split; [split; [intros H; try discriminate H; auto 6
                    |intros [H|[H|[H|[H|H]]]]; congruence]|]);
    (split; [intros e H; congruence|]);
    (split; [intros v H; congruence || reflexivity|]).
  - exists 5. split; [lia|reflexivity].
  - exists 5. split; [lia|reflexivity].
  - exists 4. split; [lia|reflexivity].
  - exists 3. split; [lia|reflexivity].
  - exists 2. split; [lia|reflexivity].
  - exists 1. split; [lia|reflexivity].
Qed.

End ReadingResult.

(* ================================================================== *)
(** ** The lines of the sampling loop *)

Lemma keeps_lines_refl P (m : machine) : keeps_lines P m m.
Proof.
  intros H. split; [exact H|]. exists []. rewrite app_nil_r.
  split; [reflexivity|constructor].
Qed.

Lemma keeps_lines_trans P (m m1 m2 : machine) :
  keeps_lines P m m1 -> keeps_lines P m1 m2 -> keeps_lines P m m2.
Proof.
  intros H1 H2 H. destruct (H1 H) as (Hd1 & d1 & Hl1 & Hw1).
  destruct (H2 Hd1) as (Hd2 & d2 & Hl2 & Hw2).
  split; [exact Hd2|]. exists (d1 ++ d2). split.
  - rewrite Hl2, Hl1, app_assoc. reflexivity.
  - rewrite lines_written_app. apply Forall_app. split; assumption.
Qed.

(** A step that leaves the writer alone and writes no line. *)
Lemma keeps_lines_quiet P (m m1 : machine) (d : list event) :
  fh m1 = fh m -> log m1 = log m ++ d -> lines_written d = [] ->
  keeps_lines P m m1.
Proof.
  intros Hf Hl Hw H. rewrite Hf. split; [exact H|].
  exists d. split; [exact Hl|]. rewrite Hw. constructor.
Qed.

Lemma keeps_lines_bind {A B : Type} P (c : M A) (k : A -> M B)
      (m : machine) :
  keeps_lines P m (snd (c m)) ->
  (forall a m1, keeps_lines P m1 (snd (k a m1))) ->
  keeps_lines P m (snd (bind c k m)).
Proof.
  intros Hc Hk. unfold bind. destruct (c m) as [[a|e] m1]; simpl in *.
  - eapply keeps_lines_trans; [exact Hc|apply Hk].
  - exact Hc.
Qed.

Lemma keeps_lines_emit P (e : event) (m : machine) :
  is_file_io e = false -> keeps_lines P m (snd (emit e m)).
Proof.
  intros He. apply (keeps_lines_quiet P m _ [e]); try reflexivity.
  destruct e; simpl in *; reflexivity || discriminate.
Qed.

Lemma keeps_lines_accounted P (m m1 : machine) (ps : list string) :
  accounted m m1 ps -> Forall P ps -> keeps_lines P m m1.
Proof.
  intros (d & Hl & _ & H) Hps Hd.
  assert (Hall : Forall P (data (fh m) ++ ps))
    by (apply Forall_app; split; assumption).
  destruct H as [(Hio & _ & He)|(w & He & _ & Hw & _)].
  - split; [rewrite He; exact Hall|].
    exists d. split; [exact Hl|]. rewrite (file_io_nil_lines _ Hio).
    constructor.
  - rewrite He in Hall. apply Forall_app in Hall. destruct Hall as [Hw1 Hw2].
    split; [exact Hw2|]. exists d. split; [exact Hl|]. rewrite Hw.
    clear - Hw1. induction Hw1 as [|x l Hx _ IH]; simpl; constructor.
    + exists x. split; [exact Hx|reflexivity].
    + exact IH.
Qed.

Lemma after_queries_quiet DEBUG self (ws : list string) (m : machine) :
  fh (after_queries DEBUG self ws m) = fh m
  /\ exists d, log (after_queries DEBUG self ws m) = log m ++ d
               /\ lines_written d = [].
Proof.
  revert m; induction ws as [|w ws IH]; intros m.
  - split; [reflexivity|]. exists []. simpl. now rewrite app_nil_r.
  - rewrite after_queries_cons.
    destruct (IH (after_query DEBUG self w m)) as (Hf & d & Hl & Hw).
    split; [rewrite Hf; reflexivity|].
    exists (query_events DEBUG self w ++ d). split.
    + rewrite Hl. cbn [after_query log]. now rewrite <- app_assoc.
    + rewrite lines_written_app, Hw, app_nil_r. unfold query_events.
      destruct (debug DEBUG ["LOG_GPIB"]), (debug DEBUG ["NOGPIB"]);
        reflexivity.
Qed.

Section LoopLines.

Variable DEBUG : list string.
Variable cfg : config.
Variable clock : nat -> Z.
Variable LS : LAKESHORE.t.
Variable instrument : nat -> string -> string.
Variable pyfloat : Type.
Variable float : string -> option pyfloat.
Variable fmt_12_1f : pyfloat -> string.
Variable fmt_8_3e : pyfloat -> string.

Lemma keeps_lines_read P (m : machine) :
  keeps_lines P m (snd (LAKESHORE.read DEBUG LS instrument pyfloat float m)).
Proof.
  assert (H : forall ws, keeps_lines P m (after_queries DEBUG LS ws m)).
  { intros ws. destruct (after_queries_quiet DEBUG LS ws m) as (Hf & d & Hl & Hw).
    exact (keeps_lines_quiet P _ _ d Hf Hl Hw). }
  rewrite read_eq.
  destruct (float (answer DEBUG instrument m 0 "RDGR? 1")); [|apply H].
  destruct (float (answer DEBUG instrument m 1 "RDGK? 1")); [|apply H].
  destruct (float (answer DEBUG instrument m 2 "SETP?")); [|apply H].
  destruct (Py.int (answer DEBUG instrument m 3 "HTRRNG?")); [|apply H].
  destruct (float (answer DEBUG instrument m 4 "HTR?")); apply H.
Qed.

(** The string built in a turn is the time of day to the tenth of a
    second and the six values, each followed by a tab. *)
Lemma record_eq (now : datetime) (s T1R T1T TSP : pyfloat) (HTR : Z)
      (HTV : pyfloat) :
  record pyfloat fmt_12_1f fmt_8_3e (strftime_HMSf now) s T1R T1T TSP HTR HTV
  = raw_line fmt_12_1f fmt_8_3e now s T1R T1T TSP HTR HTV.
Proof.
  unfold record, raw_line.
  change (Py.drop_last 5 (strftime_HMSf now)) with (tenths now).
  rewrite !append_assoc. reflexivity.
Qed.

Lemma keeps_lines_writedata {sum : float_sum} P (w : string) (m : machine) :
  P w -> keeps_lines P m (snd (writedata cfg clock w m)).
Proof.
  intros Hw.
  destruct (do_op_accounted cfg clock (OpWrite w) m eq_refl) as [_ Ha].
  apply (keeps_lines_accounted P _ _ _ Ha). repeat constructor. exact Hw.
Qed.

Lemma keeps_lines_flushdata {sum : float_sum} P (m : machine) :
  keeps_lines P m (snd (flushdata cfg clock m)).
Proof.
  destruct (do_op_accounted cfg clock OpFlush m eq_refl) as [_ Ha].
  apply (keeps_lines_accounted P _ _ _ Ha). constructor.
Qed.

End LoopLines.

Lemma is_digit_digit (k : Z) :
  (0 <= k < 10)%Z -> Py.is_digit (Py.digit k) = true.
Proof.
  intros H.
  assert (E : (k = 0 \/ k = 1 \/ k = 2 \/ k = 3 \/ k = 4 \/ k = 5 \/ k = 6
               \/ k = 7 \/ k = 8 \/ k = 9)%Z) by lia.
  repeat (destruct E as [E|E]; [subst k; reflexivity|]).
  subst k; reflexivity.
Qed.

Lemma dec2_digits (n : Z) :
  (0 <= n < 100)%Z ->
  Py.is_digit (Py.digit (n / 10)) = true
  /\ Py.is_digit (Py.digit (n mod 10)) = true.
Proof.
  intros H. split; apply is_digit_digit.
  - split; [apply Z.div_pos; lia|apply Z.div_lt_upper_bound; lia].
  - apply Z.mod_pos_bound. lia.
Qed.

(** The time of day of a valid [datetime], to the tenth of a second, is
    two digits, a colon, two digits, a colon, two digits, a point and one
    digit. *)
Lemma tenths_shape (now : datetime) :
  valid_time now -> is_stamp 1 (tenths now) = true.
Proof.
  intros (Hh & Hm & Hs & Hu).
  destruct (dec2_digits (hour now)) as [H1 H2]; [lia|].
  destruct (dec2_digits (minute now)) as [H3 H4]; [lia|].
  destruct (dec2_digits (second now)) as [H5 H6]; [lia|].
  assert (H7 : Py.is_digit (Py.digit (microsecond now / 100000)) = true).
  { apply is_digit_digit.
    split; [apply Z.div_pos; lia|apply Z.div_lt_upper_bound; lia]. }
  unfold tenths, Py.dec2. cbn [String.append is_stamp all_digits].
  rewrite H1, H2, H3, H4, H5, H6, H7. reflexivity.
Qed.

(** C7 as stated fails: the line that the loop writes at 12:34:56.789012
    has one digit after the point of the time of day, and a tab after the
    seventh field, so that cutting it at the tabs gives eight pieces. *)
Lemma data_line_not_seven_fields_millis :
  lines_written
    (since (fresh_machine brisk_clock)
       (sample_thread [(sample_now, sample_time)]))
  = [sample_line]
  /\ fields sample_line
     = Some ["12:34:56.7"; "1764331200.1"; "1.000e+00"; "1.000e+00";
             "1.000e+00"; "1"; "1.000e+00"; EmptyString]%string
  /\ is_stamp 3 "12:34:56.7" = false
  /\ seven_fields_millis sample_line = false.
Proof. repeat split; vm_compute; reflexivity. Qed.

(* ================================================================== *)
(** ** The order of the script *)

Lemma precedes_at (l : list statement) (a b : statement) (i j : nat) :
  position a l = Some i -> position b l = Some j -> i < j -> precedes l a b.
Proof. intros Hi Hj Hlt. exists i, j. auto. Qed.

(** C9, as the code has it.  The script builds the log file, writes the
    header text to it, then opens, configures and starts the instrument,
    then creates the thread of the sampling loop, sets [Running] to true,
    and only then starts the thread; run in this order no statement uses a
    name that is not bound, and the thread starts with [Running] true. *)
Theorem startup_order :
  in_order script
    [fh_new; fh_writeheaderblock; LS_Open; LS_Configure; LS_Start;
     LOOP_new; Running_set true; LOOP_start]
  /\ exec_all (firstn 9 script) no_globals
     = Some {| LS_bound := true; fh_bound := true; Running := Some true;
               LOOP := Started (Some true) |}.
Proof.
  split; [|reflexivity].
  cbn [in_order].
  repeat split;
    match goal with
    | |- precedes _ _ _ =>
        eapply precedes_at; [reflexivity|reflexivity|]; repeat constructor
    end.
Qed.

(** C9 as stated fails: the thread is started by the ninth statement,
    after [Running = True], the eighth. *)
Lemma thread_started_after_flag :
  position (Running_set true) script = Some 7
  /\ position LOOP_start script = Some 8
  /\ ~ precedes script LOOP_start (Running_set true)
  /\ ~ in_order script
         [fh_new; fh_writeheaderblock; LS_Open; LS_Configure; LS_Start;
          LOOP_start; Running_set true].
Proof.
  assert (H : ~ precedes script LOOP_start (Running_set true)).
  { intros (i & j & Hi & Hj & Hlt).
    vm_compute in Hi, Hj. injection Hi as <-. injection Hj as <-. lia. }
  split; [reflexivity|]. split; [reflexivity|]. split; [exact H|].
  cbn [in_order]. intros (_ & _ & _ & _ & _ & Hc & _). exact (H Hc).
Qed.

(* ================================================================== *)
(** ** The debug flags *)

Lemma upper_char_idem (c : ascii) :
  Py.upper_char (Py.upper_char c) = Py.upper_char c.
Proof.
  destruct c as [[|] [|] [|] [|] [|] [|] [|] [|]]; reflexivity.
Qed.

Lemma upper_idem (s : string) : Py.upper (Py.upper s) = Py.upper s.
Proof.
  induction s as [|c s IH]; simpl; [reflexivity|].
  now rewrite upper_char_idem, IH.
Qed.

Lemma upper_char_not_lower (c : ascii) : is_lower (Py.upper_char c) = false.
Proof.
  destruct c as [[|] [|] [|] [|] [|] [|] [|] [|]]; reflexivity.
Qed.

Lemma upper_no_lower (s : string) : has_lower (Py.upper s) = false.
Proof.
  induction s as [|c s IH]; simpl; [reflexivity|].
  now rewrite upper_char_not_lower, IH.
Qed.

Lemma existsb_map_upper (DEBUG flags : list string) :
  existsb (fun f => Py.mem (Py.upper f) DEBUG) (map Py.upper flags)
  = existsb (fun f => Py.mem (Py.upper f) DEBUG) flags.
Proof.
  induction flags as [|f flags IH]; simpl; [reflexivity|].
  now rewrite upper_idem, IH.
Qed.

(** X1.  [debug] does not tell the case of the ASCII letters of the flags
    it is asked about: the flags in uppercase give the same answer. *)
Theorem debug_flags_any_case (DEBUG flags : list string) :
  debug DEBUG (map Py.upper flags) = debug DEBUG flags.
Proof.
  unfold debug. rewrite existsb_map_upper.
  destruct flags; reflexivity.
Qed.

Lemma has_lower_differs (x e : string) :
  has_lower x = false -> has_lower e = true -> String.eqb x e = false.
Proof.
  intros Hx He. destruct (String.eqb x e) eqn:E; [|reflexivity].
  apply String.eqb_eq in E. subst. congruence.
Qed.

Lemma mem_lowercase_entry (x e : string) (DEBUG : list string) :
  has_lower x = false -> has_lower e = true ->
  Py.mem x (e :: DEBUG) = Py.mem x DEBUG.
Proof.
  intros Hx He. unfold Py.mem. simpl.
  now rewrite (has_lower_differs x e Hx He).
Qed.

(** X2.  The entries of the flag list are compared as they are written,
    the flags asked about in uppercase: an entry that holds a lowercase
    ASCII letter switches nothing on or off. *)
Theorem debug_lowercase_entry_ignored (e : string) (DEBUG flags : list string) :
  has_lower e = true ->
  debug (e :: DEBUG) flags = debug DEBUG flags.
Proof.
  intros He. unfold debug.
  rewrite (mem_lowercase_entry "NONE" e DEBUG eq_refl He).
  rewrite (mem_lowercase_entry "ALL" e DEBUG eq_refl He).
  assert (E : existsb (fun f => Py.mem (Py.upper f) (e :: DEBUG)) flags
              = existsb (fun f => Py.mem (Py.upper f) DEBUG) flags).
  { induction flags as [|f flags IH]; [reflexivity|].
    cbn [existsb]. rewrite IH.
    rewrite (mem_lowercase_entry _ e DEBUG (upper_no_lower f) He).
    reflexivity. }
  rewrite E. reflexivity.
Qed.

Lemma debug_lowercase_entry_ignored_witness :
  has_lower "tempfile" = true
  /\ debug lowercase_DEBUG ["TEMPFILE"; "tempfile"]%string
     = debug [] ["TEMPFILE"; "tempfile"]%string.
Proof.
  split; [reflexivity|].
  exact (debug_lowercase_entry_ignored "tempfile" []
           ["TEMPFILE"; "tempfile"]%string eq_refl).
Defined.

(* ================================================================== *)
(** ** checkpath *)

Lemma last_char_none (s : string) : last_char s = None -> s = EmptyString.
Proof.
  induction s as [|c s IH]; [reflexivity|].
  simpl. destruct s; [discriminate|]. intros H. specialize (IH H).
  discriminate.
Qed.

(** X3.  The module binds no name [exists], so [checkpath] never returns:
    it raises [IndexError] on the empty string and [NameError] on every
    other path, and prints nothing. *)
Theorem checkpath_never_returns (DEBUG : list string) (fp : string) :
  checkpath DEBUG module_exists fp
  = (if String.eqb fp EmptyString then IndexError else UnboundName "exists",
     []).
Proof.
  unfold checkpath, module_exists.
  destruct (last_char fp) as [c|] eqn:E.
  - destruct fp; [discriminate|]. reflexivity.
  - rewrite (last_char_none fp E). reflexivity.
Qed.

(* ================================================================== *)
(** ** The construction of the writer *)

Lemma rstrip_slash_slash (s : string) :
  Py.rstrip_slash (s ++ "/") = Py.rstrip_slash s.
Proof.
  induction s as [|c s IH]; [reflexivity|].
  cbn [String.append Py.rstrip_slash]. rewrite IH. reflexivity.
Qed.

(** X4.  The slashes at the end of the directory given to the constructor
    do not count: with one more slash the constructor does the same and
    builds the same writer.  In particular the empty directory and ["/"]
    both name the root. *)
Theorem init_trailing_slash DEBUG cfg clock (stamp fp0 fn : string)
        (m : machine) :
  init DEBUG cfg clock stamp (fp0 ++ "/") fn m
  = init DEBUG cfg clock stamp fp0 fn m.
Proof. unfold init. rewrite rstrip_slash_slash. reflexivity. Qed.

(** X5.  Under the flag TEMPFILE the constructor ignores the directory,
    the prefix and the time stamp for the path, which is the configured
    temporary path, and empties that file: it opens it for writing and
    closes it, whatever the file held. *)
Theorem init_tempfile DEBUG cfg clock (stamp fp0 fn c : string)
        (m : machine) :
  debug DEBUG ["TEMPFILE"] = true ->
  fp (fh (snd (init DEBUG cfg clock stamp fp0 fn m)))
  = (TEMPFILEPATH cfg ++ "/" ++ TEMPFILENAME cfg)%string
  /\ file_io (since m (snd (init DEBUG cfg clock stamp fp0 fn m)))
     = [Open (TEMPFILEPATH cfg ++ "/" ++ TEMPFILENAME cfg) ModeW; Close]
  /\ file_content c (since m (snd (init DEBUG cfg clock stamp fp0 fn m)))
     = EmptyString.
Proof.
  intros H. unfold init. rewrite H.
  unfold bind, monotonic, put_fh, emit, ret. cbn [snd fh fp log].
  erewrite since_app by (rewrite <- !app_assoc; reflexivity).
  repeat split; reflexivity.
Qed.

Lemma init_tempfile_witness :
  debug _DEBUG ["TEMPFILE"] = true
  /\ fp (fh (snd (init _DEBUG configuration brisk_clock "20251128T120000"
                       "/data/" "LS370_" machine0)))
     = "./d.dat"%string
  /\ file_content "old text"
       (since machine0
          (snd (init _DEBUG configuration brisk_clock "20251128T120000"
                     "/data/" "LS370_" machine0)))
     = EmptyString.
Proof.
  split; [reflexivity|].
  pose proof (init_tempfile _DEBUG configuration brisk_clock
                "20251128T120000" "/data/" "LS370_" "old text" machine0
                eq_refl) as (Hp & _ & Hc).
  split; [exact Hp|exact Hc].
Defined.

Lemma init_plain {sum : float_sum} DEBUG cfg clock (stamp fp0 fn : string)
      (m : machine) :
  debug DEBUG ["TEMPFILE"] = false ->
  init DEBUG cfg clock stamp fp0 fn m
  = (Ok tt,
     {| fh := {| created := stamp;
                 fp := (Py.rstrip_slash fp0 ++ "/" ++ fn ++ stamp
                        ++ ".dat")%string;
                 headertext := Some EmptyString; data := [];
                 time := float_add (clock (monotonic_calls m))
                                   (SAVINGINTERVALS cfg) |};
        monotonic_calls := S (monotonic_calls m);
        queries := queries m;
        log := log m ++ [Monotonic (clock (monotonic_calls m))] |}).
Proof.
  intros H. unfold init. rewrite H. reflexivity.
Qed.

(** X6.  Without the flag TEMPFILE the constructor does no file operation:
    it only names the file, the directory without its final slashes, a
    slash, the prefix, the time stamp and [.dat]; and a writer that is
    built and flushed without having been given a line still has done no
    file operation, so the file does not exist. *)
Theorem init_creates_no_file DEBUG cfg clock (stamp fp0 fn : string)
        (m : machine) :
  debug DEBUG ["TEMPFILE"] = false ->
  fp (fh (snd (init DEBUG cfg clock stamp fp0 fn m)))
  = (Py.rstrip_slash fp0 ++ "/" ++ fn ++ stamp ++ ".dat")%string
  /\ file_io (since m (snd (init DEBUG cfg clock stamp fp0 fn m))) = []
  /\ file_io
       (since m
          (snd ((init DEBUG cfg clock stamp fp0 fn ;; flushdata cfg clock) m)))
     = [].
Proof.
  intros H. unfold bind. rewrite (init_plain _ _ _ _ _ _ _ H).
  cbn [snd fh fp].
  split; [reflexivity|]. split.
  - erewrite since_app by reflexivity. reflexivity.
  - rewrite flushdata_empty by reflexivity.
    erewrite since_app by (simpl; rewrite <- app_assoc; reflexivity).
    reflexivity.
Qed.

Lemma init_creates_no_file_witness :
  debug quiet_DEBUG ["TEMPFILE"] = false
  /\ fp (fh (snd (init quiet_DEBUG configuration brisk_clock
                       "20251128T120000" "./" "LS370_" machine0)))
     = "./LS370_20251128T120000.dat"%string
  /\ file_io
       (since machine0
          (snd (init quiet_DEBUG configuration brisk_clock
                     "20251128T120000" "./" "LS370_" machine0))) = [].
Proof.
  split; [reflexivity|].
  pose proof (init_creates_no_file quiet_DEBUG configuration brisk_clock
                "20251128T120000" "./" "LS370_" machine0 eq_refl)
    as (Hp & Hio & _).
  split; [exact Hp|exact Hio].
Defined.

(* ================================================================== *)
(** ** The header block, line by line *)

Lemma run_header_blocks {sum : float_sum} cfg clock (bs : list string)
      (h : string)
      (m : machine) :
  headertext (fh m) = Some h ->
  run cfg clock (map OpHeader bs) m
  = (Ok tt,
     {| fh := set_headertext
                (Some (h ++ joined (map block_text bs))%string) (fh m);
        monotonic_calls := monotonic_calls m;
        queries := queries m; log := log m |}).
Proof.
  revert h m; induction bs as [|b bs IH]; intros h m Hh.
  - simpl. unfold ret. rewrite append_empty_r.
    destruct m as [[cr p h' dt t] n q lg]; simpl in *. now subst.
  - cbn [map]. rewrite run_cons. cbn [do_op].
    rewrite (writeheaderblock_pending b h m Hh).
    rewrite (IH (h ++ block_text b)%string) by reflexivity.
    cbn [fh monotonic_calls queries log joined map].
    unfold set_headertext. cbn [created fp data time headertext].
    rewrite append_assoc. reflexivity.
Qed.

(** X7.  While the header has not been flushed, header blocks add up: a
    sequence of [writeheaderblock] calls never fails, does nothing to the
    log, the buffer or the deadline, and leaves as header the text it had
    followed by the text of each block, in the order of the calls. *)
Theorem header_blocks_add_up cfg clock (bs : list string) (h : string)
        (m : machine) :
  headertext (fh m) = Some h ->
  fst (run cfg clock (map OpHeader bs) m) = Ok tt
  /\ headertext (fh (snd (run cfg clock (map OpHeader bs) m)))
     = Some (h ++ joined (map block_text bs))%string
  /\ data (fh (snd (run cfg clock (map OpHeader bs) m))) = data (fh m)
  /\ time (fh (snd (run cfg clock (map OpHeader bs) m))) = time (fh m)
  /\ log (snd (run cfg clock (map OpHeader bs) m)) = log m.
Proof.
  intros Hh. rewrite (run_header_blocks cfg clock bs h m Hh).
  repeat split; reflexivity.
Qed.

Lemma header_blocks_add_up_witness :
  headertext (fh (fresh_machine brisk_clock))
  = Some (pending_text (fh (fresh_machine brisk_clock)))
  /\ headertext
       (fh (snd (run configuration brisk_clock
                     (map OpHeader [second_block; ragged_block])
                     (fresh_machine brisk_clock))))
     = Some (pending_text (fh (fresh_machine brisk_clock))
             ++ joined (map block_text [second_block; ragged_block]))%string.
Proof.
  split; [reflexivity|].
  exact (proj1 (proj2
           (header_blocks_add_up configuration brisk_clock
              [second_block; ragged_block]
              (pending_text (fh (fresh_machine brisk_clock)))
              (fresh_machine brisk_clock) eq_refl))).
Defined.

Lemma split_length (c : ascii) (s : string) :
  List.length (Py.split c s) = S (count_char c s).
Proof.
  induction s as [|x s IH]; [reflexivity|].
  cbn [Py.split count_char]. destruct (Ascii.eqb x c).
  - cbn [List.length]. rewrite IH. reflexivity.
  - destruct (Py.split c s) as [|h r]; [discriminate|].
    cbn [List.length] in *. exact IH.
Qed.

Lemma split_pieces (c : ascii) (s : string) :
  Forall (fun p => count_char c p = 0) (Py.split c s).
Proof.
  induction s as [|x s IH]; [repeat constructor|].
  cbn [Py.split]. destruct (Ascii.eqb x c) eqn:E.
  - constructor; [reflexivity|exact IH].
  - destruct (Py.split c s) as [|h r].
    + constructor; [|constructor]. cbn [count_char]. rewrite E. reflexivity.
    + inversion IH as [|? ? Hh Hr]; subst. constructor; [|exact Hr].
      cbn [count_char]. rewrite E, Hh. reflexivity.
Qed.

Lemma slice_length {A : Type} (l : list A) :
  List.length (Py.slice_1_m1 l) = List.length l - 2.
Proof.
  unfold Py.slice_1_m1. destruct l as [|a l]; [reflexivity|].
  cbn [tl List.length]. rewrite removelast_firstn_len, length_firstn. lia.
Qed.

Lemma Forall_removelast {A : Type} (P : A -> Prop) (l : list A) :
  Forall P l -> Forall P (removelast l).
Proof.
  induction 1 as [|x l Hx Hl IH]; [constructor|].
  cbn [removelast]. destruct l; [constructor|]. constructor; assumption.
Qed.

Lemma slice_pieces {A : Type} (P : A -> Prop) (l : list A) :
  Forall P l -> Forall P (Py.slice_1_m1 l).
Proof.
  intros H. unfold Py.slice_1_m1. apply Forall_removelast.
  destruct H; [constructor|assumption].
Qed.

Lemma count_char_app (c : ascii) (a b : string) :
  count_char c (a ++ b) = count_char c a + count_char c b.
Proof.
  induction a as [|x a IH]; [reflexivity|].
  cbn [String.append count_char]. rewrite IH. lia.
Qed.

Lemma count_char_drop (c : ascii) (n : nat) (s : string) :
  count_char c s = 0 -> count_char c (Py.drop n s) = 0.
Proof.
  revert s; induction n as [|n IH]; intros s H; [exact H|].
  destruct s as [|x s]; [reflexivity|].
  cbn [Py.drop]. apply IH. cbn [count_char] in H. lia.
Qed.

Lemma block_lines_length (b : string) :
  List.length (block_lines b) = count_char (ascii_of_nat 10) b - 1.
Proof.
  unfold block_lines. rewrite slice_length, split_length. lia.
Qed.

(** X8.  The text that a block adds to the header has one line for each
    newline of the block but the first: what is before the first newline
    and after the last one is left out. *)
Theorem block_text_lines (b : string) :
  count_char (ascii_of_nat 10) (block_text b)
  = count_char (ascii_of_nat 10) b - 1.
Proof.
  rewrite <- block_lines_length. unfold block_text.
  assert (H : Forall (fun p => count_char (ascii_of_nat 10) p = 0)
                     (block_lines b)).
  { unfold block_lines. apply slice_pieces, split_pieces. }
  induction H as [|l ls Hl _ IH]; [reflexivity|].
  cbn [map joined List.length]. rewrite count_char_app, IH.
  rewrite !count_char_app, (count_char_drop _ _ _ Hl). reflexivity.
Qed.

(** X9.  A block with at most one newline holds no line for the header:
    [writeheaderblock] then returns and changes nothing, also on a writer
    whose header has been flushed. *)
Theorem writeheaderblock_short_block (b : string) (m : machine) :
  count_char (ascii_of_nat 10) b <= 1 ->
  writeheaderblock b m = (Ok tt, m).
Proof.
  intros H. unfold writeheaderblock.
  pose proof (block_lines_length b) as Hl.
  destruct (block_lines b); [reflexivity|]. simpl in Hl. lia.
Qed.

Lemma writeheaderblock_short_block_witness :
  count_char (ascii_of_nat 10) "file : d.dat" <= 1
  /\ writeheaderblock "file : d.dat" flushed_machine
     = (Ok tt, flushed_machine).
Proof.
  assert (H : count_char (ascii_of_nat 10) "file : d.dat" <= 1)
    by (vm_compute; repeat constructor).
  split; [exact H|].
  exact (writeheaderblock_short_block "file : d.dat" flushed_machine H).
Defined.

Lemma lstrip_length (s : string) :
  String.length (Py.lstrip s) <= String.length s.
Proof.
  induction s as [|c s IH]; [constructor|].
  cbn [Py.lstrip]. destruct (Py.isspace c); cbn [String.length]; lia.
Qed.

Lemma drop_indent (s : string) :
  Py.drop (String.length s - String.length (Py.lstrip s)) s = Py.lstrip s.
Proof.
  induction s as [|c s IH]; [reflexivity|].
  cbn [Py.lstrip]. destruct (Py.isspace c).
  - pose proof (lstrip_length s) as H. cbn [String.length].
    replace (S (String.length s) - String.length (Py.lstrip s))
      with (S (String.length s - String.length (Py.lstrip s))) by lia.
    cbn [Py.drop]. exact IH.
  - rewrite Nat.sub_diag. reflexivity.
Qed.

(** X10.  The first line of a block goes to the header without the blanks
    it starts with; the lines after it lose as many characters as the
    first line had blanks, whatever these characters are. *)
Theorem block_text_first_line (b : string) :
  block_text b
  = match block_lines b with
    | [] => EmptyString
    | l0 :: rest =>
        ("# " ++ Py.lstrip l0 ++ Py.nl
         ++ joined (map (fun l => "# "
                                  ++ Py.drop (String.length l0
                                              - String.length (Py.lstrip l0)) l
                                  ++ Py.nl) rest))%string
    end.
Proof.
  unfold block_text, block_indent.
  destruct (block_lines b) as [|l0 rest]; [reflexivity|].
  cbn [map joined]. rewrite drop_indent.
  cbn [String.append]. rewrite !append_assoc. reflexivity.
Qed.

(* ================================================================== *)
(** ** Nothing lost, nothing written twice *)

(** X11.  At every point of a run of [writedata], [savedata] and
    [flushdata] calls, whatever the clock, the lines written to the file
    followed by the lines of the buffer are the strings that were in the
    buffer at the start followed by the strings passed to [writedata]: no
    string is lost, written twice or reordered, flushed or not. *)
Theorem written_then_buffered cfg clock (ops : list op) (m : machine) :
  forallb is_data_op ops = true ->
  lines_written (since m (snd (run cfg clock ops m)))
  ++ map with_nl (data (fh (snd (run cfg clock ops m))))
  = map with_nl (data (fh m) ++ passed ops).
Proof.
  intros Hops.
  destruct (run_accounted cfg clock ops m Hops) as [_ (d & Hl & _ & H)].
  rewrite (since_app _ _ _ Hl).
  destruct H as [(Hio & _ & Hd)|(w & Hw & _ & Hlw & _)].
  - rewrite (file_io_nil_lines _ Hio), Hd. reflexivity.
  - rewrite Hlw, Hw, map_app. reflexivity.
Qed.

Lemma written_then_buffered_witness :
  forallb is_data_op hasty_ops = true
  /\ lines_written
       (since (fresh_machine brisk_clock)
          (snd (run configuration brisk_clock hasty_ops
                    (fresh_machine brisk_clock))))
     ++ map with_nl
          (data (fh (snd (run configuration brisk_clock hasty_ops
                              (fresh_machine brisk_clock)))))
     = map with_nl (data (fh (fresh_machine brisk_clock)) ++ passed hasty_ops).
Proof.
  split; [reflexivity|].
  exact (written_then_buffered configuration brisk_clock hasty_ops
           (fresh_machine brisk_clock) eq_refl).
Defined.

(* ================================================================== *)
(** ** The file is opened, written and closed in sessions *)

Lemma sessions_app (opened : bool) (l1 l2 : list event) :
  sessions opened l1 = true ->
  sessions opened (l1 ++ l2) = sessions false l2.
Proof.
  revert opened; induction l1 as [|e l1 IH]; intros opened H.
  - simpl in H. destruct opened; [discriminate|reflexivity].
  - destruct e; cbn [sessions app] in *;
      try (apply andb_true_iff in H; destruct H as [H1 H2]; rewrite H1;
           cbn [andb]); auto.
Qed.

Lemma tidy_ret {A : Type} (a : A) : tidy (ret a).
Proof. intros m. exists []. simpl. now rewrite app_nil_r. Qed.

Lemma tidy_raise {A : Type} (e : exn) : tidy (@raise A e).
Proof. intros m. exists []. simpl. now rewrite app_nil_r. Qed.

Lemma tidy_bind {A B : Type} (c : M A) (k : A -> M B) :
  tidy c -> (forall a, tidy (k a)) -> tidy (bind c k).
Proof.
  intros Hc Hk m. unfold bind. destruct (Hc m) as (d1 & Hl1 & Hs1).
  destruct (c m) as [[a|e] m1]; simpl in Hl1.
  - destruct (Hk a m1) as (d2 & Hl2 & Hs2). exists (d1 ++ d2). split.
    + rewrite Hl2, Hl1, app_assoc. reflexivity.
    + rewrite (sessions_app _ _ _ Hs1). exact Hs2.
  - exists d1. split; assumption.
Qed.

Lemma tidy_emit (e : event) : is_file_io e = false -> tidy (emit e).
Proof.
  intros He m. exists [e]. split; [reflexivity|].
  destruct e; simpl in *; reflexivity || discriminate.
Qed.

Lemma sessions_flush_events (o : monitor_file) :
  sessions false (flush_events o) = true.
Proof.
  unfold flush_events, header_events. cbn [sessions negb andb].
  assert (H : sessions true
                (map (fun d => WriteLine (with_nl d)) (data o) ++ [Close])
              = true).
  { induction (data o) as [|d ds IH]; [reflexivity|exact IH]. }
  destruct (headertext o) as [h|]; [destruct (Py.truthy h)|]; exact H.
Qed.

Lemma tidy_savedata {sum : float_sum} cfg clock : tidy (savedata cfg clock).
Proof.
  intros m. rewrite savedata_eq. cbn [snd].
  destruct (data (fh m)) as [|x xs] eqn:Hd.
  - rewrite after_savedata_empty by exact Hd.
    exists []. now rewrite app_nil_r.
  - destruct (Z.lt_ge_cases (clock (monotonic_calls m)) (time (fh m)))
      as [Ht|Ht].
    + rewrite after_savedata_early by (congruence || exact Ht).
      eexists. split; reflexivity.
    + rewrite after_savedata_due by (congruence || exact Ht).
      eexists. split; [reflexivity|]. cbn [sessions].
      rewrite (sessions_app _ _ _ (sessions_flush_events (fh m))).
      reflexivity.
Qed.

Lemma tidy_put_fh (o : monitor_file) : tidy (put_fh o).
Proof. intros m. exists []. simpl. now rewrite app_nil_r. Qed.

Lemma tidy_get_fh : tidy get_fh.
Proof. intros m. exists []. simpl. now rewrite app_nil_r. Qed.

Lemma tidy_monotonic clock : tidy (monotonic clock).
Proof. intros m. eexists. split; reflexivity. Qed.

Lemma tidy_writedata {sum : float_sum} cfg clock (x : string) : tidy
      (writedata cfg clock x).
Proof.
  unfold writedata. apply tidy_bind; [apply tidy_get_fh|]. intros o.
  apply tidy_bind; [apply tidy_put_fh|]. intros _. apply tidy_savedata.
Qed.

Lemma tidy_flushdata {sum : float_sum} cfg clock : tidy (flushdata cfg clock).
Proof.
  unfold flushdata. apply tidy_bind; [apply tidy_monotonic|]. intros t.
  apply tidy_bind; [apply tidy_get_fh|]. intros o.
  apply tidy_bind; [apply tidy_put_fh|]. intros _. apply tidy_savedata.
Qed.

Lemma tidy_for_each {A : Type} (l : list A) (body : A -> M unit) :
  (forall x, tidy (body x)) -> tidy (for_each l body).
Proof.
  intros H. induction l as [|x l IH]; [apply tidy_ret|].
  cbn [for_each]. apply tidy_bind; [apply H|]. intros _. exact IH.
Qed.

Lemma tidy_writeheaderblock (b : string) : tidy (writeheaderblock b).
Proof.
  unfold writeheaderblock. apply tidy_for_each. intros l.
  unfold add_header_line. apply tidy_bind; [apply tidy_get_fh|]. intros o.
  destruct (headertext o); [apply tidy_put_fh|apply tidy_raise].
Qed.

Lemma tidy_do_op {sum : float_sum} cfg clock (o : op) : tidy
      (do_op cfg clock o).
Proof.
  destruct o; cbn [do_op].
  - apply tidy_writeheaderblock.
  - apply tidy_writedata.
  - apply tidy_savedata.
  - apply tidy_flushdata.
Qed.

Lemma tidy_init {sum : float_sum} DEBUG cfg clock (stamp fp0 fn : string) :
  tidy (init DEBUG cfg clock stamp fp0 fn).
Proof.
  unfold init. apply tidy_bind.
  - destruct (debug DEBUG ["TEMPFILE"]); [|apply tidy_ret].
    intros m. eexists. split; [unfold bind, emit, ret; cbn [snd log];
                               rewrite <- app_assoc; reflexivity|reflexivity].
  - intros p. apply tidy_bind; [apply tidy_monotonic|]. intros t.
    apply tidy_put_fh.
Qed.

Lemma tidy_query DEBUG self instrument (w : string) :
  tidy (LAKESHORE.query DEBUG self instrument w).
Proof.
  intros m. rewrite query_eq. cbn [snd after_query log].
  eexists. split; [reflexivity|]. unfold query_events.
  destruct (debug DEBUG ["LOG_GPIB"]), (debug DEBUG ["NOGPIB"]); reflexivity.
Qed.

Lemma tidy_convert {A : Type} (f : string -> option A) (s : string) :
  tidy (LAKESHORE.convert f s).
Proof.
  unfold LAKESHORE.convert. destruct (f s); [apply tidy_ret|apply tidy_raise].
Qed.

Lemma tidy_read DEBUG self instrument pyfloat float :
  tidy (LAKESHORE.read DEBUG self instrument pyfloat float).
Proof.
  unfold LAKESHORE.read.
  repeat (apply tidy_bind;
          [first [apply tidy_query|apply tidy_convert]|intros ?]).
  apply tidy_ret.
Qed.

Lemma tidy_turn {sum : float_sum} DEBUG cfg clock LS instrument pyfloat float
      (fmt_12_1f fmt_8_3e : pyfloat -> string) (i : nat) (now : datetime)
      (s : pyfloat) :
  tidy (turn DEBUG cfg clock LS instrument pyfloat float fmt_12_1f fmt_8_3e
             i now s).
Proof.
  unfold turn.
  apply tidy_bind.
  { destruct (debug DEBUG ["SHOWDATA"]);
      [apply tidy_emit; reflexivity|apply tidy_ret]. }
  intros _. apply tidy_bind; [apply tidy_emit; reflexivity|].
  intros _. apply tidy_bind; [apply tidy_read|].
  intros [[[[T1R T1T] TSP] HTR] HTV]. apply tidy_bind.
  { destruct (debug DEBUG ["SHOWDATA"]); [apply tidy_raise|apply tidy_ret]. }
  intros _. apply tidy_bind.
  { destruct (debug DEBUG ["SHOWDATA"]);
      [apply tidy_emit; reflexivity|apply tidy_ret]. }
  intros _. apply tidy_writedata.
Qed.

Lemma tidy_loop {sum : float_sum} DEBUG cfg clock LS instrument pyfloat float
      (fmt_12_1f fmt_8_3e : pyfloat -> string)
      (turns : list (datetime * pyfloat)) (i : nat) :
  tidy (loop DEBUG cfg clock LS instrument pyfloat float fmt_12_1f fmt_8_3e
             i turns).
Proof.
  revert i; induction turns as [|[now s] turns IH]; intros i.
  - apply tidy_ret.
  - cbn [loop]. apply tidy_bind; [apply tidy_turn|]. intros _. apply IH.
Qed.

(** X12.  The file is never left open and never written while closed:
    the file operations of the constructor, of any sequence of
    [writeheaderblock], [writedata], [savedata] and [flushdata] calls, and
    of the sampling loop, whether they return or raise, come in whole
    sessions, an [open], writes, a [close]. *)
Theorem file_sessions DEBUG cfg clock LS instrument (pyfloat : Type)
        (float : string -> option pyfloat)
        (fmt_12_1f fmt_8_3e : pyfloat -> string)
        (stamp fp0 fn : string) (ops : list op)
        (turns : list (datetime * pyfloat)) (m : machine) :
  sessions false (since m (snd (init DEBUG cfg clock stamp fp0 fn m))) = true
  /\ sessions false (since m (snd (run cfg clock ops m))) = true
  /\ sessions false
       (since m
          (snd (RunningThread DEBUG cfg clock LS instrument pyfloat float
                              fmt_12_1f fmt_8_3e turns m))) = true.
Proof.
  split; [|split].
  - destruct (tidy_init DEBUG cfg clock stamp fp0 fn m) as (d & Hl & Hs).
    now rewrite (since_app _ _ _ Hl).
  - assert (H : tidy (run cfg clock ops)).
    { unfold run. apply tidy_for_each. apply tidy_do_op. }
    destruct (H m) as (d & Hl & Hs). now rewrite (since_app _ _ _ Hl).
  - assert (H : tidy (RunningThread DEBUG cfg clock LS instrument pyfloat
                                    float fmt_12_1f fmt_8_3e turns)).
    { unfold RunningThread. apply tidy_bind; [apply tidy_loop|].
      intros _. apply tidy_flushdata. }
    destruct (H m) as (d & Hl & Hs). now rewrite (since_app _ _ _ Hl).
Qed.

(* ================================================================== *)
(** ** The deadline *)

(** X13.  A forced flush re-arms the writer: after [flushdata] on an empty
    buffer the deadline is the present, so that, under a clock that never
    goes back, the next [writedata] writes its line at once, whatever the
    window, and leaves the buffer empty. *)
Theorem flushdata_then_writedata cfg clock (x : string) (m : machine) :
  (forall n, (clock n <= clock (S n))%Z) ->
  data (fh m) = [] ->
  file_io (since m (snd (run cfg clock [OpFlush; OpWrite x] m)))
  = Open (fp (fh m)) ModeA
      :: header_events (fh m) ++ [WriteLine (with_nl x); Close]
  /\ data (fh (snd (run cfg clock [OpFlush; OpWrite x] m))) = [].
Proof.
  intros Hmono Hd.
  rewrite run_cons. cbn [do_op]. rewrite flushdata_empty by exact Hd.
  rewrite run_cons. cbn [do_op].
  rewrite writedata_due by (cbn [fh time set_time monotonic_calls
                                   after_deadline_now]; apply Hmono).
  cbn [run for_each ret snd]. split; [|reflexivity].
  erewrite since_app
    by (cbn [log after_deadline_now]; rewrite <- app_assoc; reflexivity).
  cbn [app]. rewrite !file_io_monotonic, file_io_app, file_io_flush_events.
  rewrite file_io_monotonic. change (file_io []) with (@nil event).
  rewrite app_nil_r.
  unfold flush_events, header_events. cbn [fh after_deadline_now set_time
    set_data fp headertext data]. rewrite Hd. reflexivity.
Qed.

Lemma flushdata_then_writedata_witness :
  (forall n, (brisk_clock n <= brisk_clock (S n))%Z)
  /\ data (fh (fresh_machine brisk_clock)) = []
  /\ data (fh (snd (run configuration brisk_clock [OpFlush; OpWrite "x"]
                        (fresh_machine brisk_clock)))) = [].
Proof.
  split; [exact brisk_clock_mono|]. split; [reflexivity|].
  exact (proj2 (flushdata_then_writedata configuration brisk_clock "x"
                  (fresh_machine brisk_clock) brisk_clock_mono eq_refl)).
Defined.

Lemma run_writes_snoc {sum : float_sum} cfg clock (ds : list string)
      (x : string)
      (m : machine) :
  snd (run cfg clock (map OpWrite (ds ++ [x])) m)
  = snd (writedata cfg clock x (snd (run cfg clock (map OpWrite ds) m))).
Proof.
  rewrite map_app, run_app.
  destruct (run_accounted cfg clock (map OpWrite ds) m) as [Hr _].
  { clear. induction ds; [reflexivity|assumption]. }
  destruct (run cfg clock (map OpWrite ds) m) as [[u|e] m1]; simpl in Hr;
    [|discriminate].
  cbn [map]. rewrite run_cons. cbn [do_op snd].
  rewrite writedata_eq. reflexivity.
Qed.

Lemma lines_written_monotonic (t : Z) (l : list event) :
  lines_written (Monotonic t :: l) = lines_written l.
Proof. reflexivity. Qed.

Lemma lines_written_flush_events (o : monitor_file) :
  lines_written (flush_events o) = map with_nl (data o).
Proof.
  unfold flush_events. cbn [lines_written].
  rewrite !lines_written_app, lines_written_header_events, lines_written_map.
  cbn [lines_written app]. now rewrite app_nil_r.
Qed.

(** With a window that is not positive and a deadline already reached,
    one [writedata] on an empty buffer flushes its line and leaves the
    writer in the same condition. *)
Lemma writedata_unbuffered cfg clock (x : string) (m : machine) :
  (SAVINGINTERVALS cfg <= 0)%Z ->
  (forall n, (clock n <= clock (S n))%Z) ->
  data (fh m) = [] ->
  (time (fh m) <= clock (monotonic_calls m))%Z ->
  data (fh (snd (writedata cfg clock x m))) = []
  /\ (time (fh (snd (writedata cfg clock x m)))
      <= clock (monotonic_calls (snd (writedata cfg clock x m))))%Z
  /\ exists d,
       log (snd (writedata cfg clock x m)) = log m ++ d
       /\ lines_written d = [with_nl x]
       /\ forall t, List.length (flush_times t d) = 1.
Proof.
  intros HW Hmono Hd Ht. rewrite writedata_due by exact Ht.
  cbn [snd fh data time flushed monotonic_calls log].
  split; [reflexivity|]. split.
  { specialize (Hmono (S (monotonic_calls m))).
    unfold float_add, exact_sum. lia. }
  eexists. split; [reflexivity|]. split.
  - rewrite lines_written_monotonic, lines_written_app,
      lines_written_flush_events.
    cbn [set_data data lines_written]. rewrite Hd, app_nil_r. reflexivity.
  - intros t. cbn [flush_times]. rewrite flush_times_flush_events.
    reflexivity.
Qed.

(** X14.  A window of zero, or less, switches the buffering off: under a
    clock that never goes back, on a writer with an empty buffer whose
    deadline has been reached, as it is when the writer has just been
    built, every [writedata] flushes its own line, so that after any
    number of calls the buffer is empty, every line is in the file, and
    the file has been opened once for each line. *)
Theorem zero_window_writes_through cfg clock (ds : list string)
        (m : machine) (t : Z) :
  (SAVINGINTERVALS cfg <= 0)%Z ->
  (forall n, (clock n <= clock (S n))%Z) ->
  data (fh m) = [] ->
  (time (fh m) <= clock (monotonic_calls m))%Z ->
  data (fh (snd (run cfg clock (map OpWrite ds) m))) = []
  /\ lines_written (since m (snd (run cfg clock (map OpWrite ds) m)))
     = map with_nl ds
  /\ List.length
       (flush_times t (since m (snd (run cfg clock (map OpWrite ds) m))))
     = List.length ds.
Proof.
  intros HW Hmono Hd Ht.
  assert (H : data (fh (snd (run cfg clock (map OpWrite ds) m))) = []
              /\ (time (fh (snd (run cfg clock (map OpWrite ds) m)))
                  <= clock (monotonic_calls
                              (snd (run cfg clock (map OpWrite ds) m))))%Z
              /\ exists d,
                   log (snd (run cfg clock (map OpWrite ds) m)) = log m ++ d
                   /\ lines_written d = map with_nl ds
                   /\ forall t', List.length (flush_times t' d)
                                 = List.length ds).
  { induction ds as [|x ds IH] using rev_ind.
    - cbn [map run for_each ret snd]. split; [exact Hd|]. split; [exact Ht|].
      exists []. rewrite app_nil_r. repeat split; reflexivity.
    - destruct IH as (Hd1 & Ht1 & d1 & Hl1 & Hw1 & Hf1).
      rewrite run_writes_snoc.
      destruct (writedata_unbuffered cfg clock x _ HW Hmono Hd1 Ht1)
        as (Hd2 & Ht2 & d2 & Hl2 & Hw2 & Hf2).
      split; [exact Hd2|]. split; [exact Ht2|].
      exists (d1 ++ d2). split; [rewrite Hl2, Hl1, app_assoc; reflexivity|].
      split.
      + rewrite lines_written_app, Hw1, Hw2, map_app. reflexivity.
      + intros t'. rewrite flush_times_app, !length_app, Hf1, Hf2.
        reflexivity. }
  destruct H as (H1 & _ & d & Hl & Hw & Hf).
  rewrite (since_app _ _ _ Hl). repeat split; auto.
Qed.

Lemma zero_window_writes_through_witness :
  (SAVINGINTERVALS unbuffered <= 0)%Z
  /\ (forall n, (brisk_clock n <= brisk_clock (S n))%Z)
  /\ data (fh (snd (new_writer _DEBUG unbuffered brisk_clock machine0))) = []
  /\ lines_written
       (since (snd (new_writer _DEBUG unbuffered brisk_clock machine0))
          (snd (run unbuffered brisk_clock (map OpWrite ["a"; "b"]%string)
                    (snd (new_writer _DEBUG unbuffered brisk_clock
                                     machine0)))))
     = map with_nl ["a"; "b"]%string.
Proof.
  assert (HW : (SAVINGINTERVALS unbuffered <= 0)%Z) by (vm_compute; discriminate).
  split; [exact HW|]. split; [exact brisk_clock_mono|].
  split; [reflexivity|].
  refine (proj1 (proj2
            (zero_window_writes_through unbuffered brisk_clock
               ["a"; "b"]%string
               (snd (new_writer _DEBUG unbuffered brisk_clock machine0))
               0 HW brisk_clock_mono eq_refl _))).
  vm_compute. discriminate.
Defined.

(** X15.  With a window that is not negative and a clock that never goes
    back, [writedata] and [savedata] never move the deadline back. *)
Theorem deadline_never_moves_back cfg clock (ops : list op) (m : machine) :
  (0 <= SAVINGINTERVALS cfg)%Z ->
  (forall n, (clock n <= clock (S n))%Z) ->
  forallb is_write_op ops = true ->
  (time (fh m) <= time (fh (snd (run cfg clock ops m))))%Z.
Proof.
  intros HW Hmono. revert m; induction ops as [|o ops IH]; intros m Hops.
  - simpl. lia.
  - simpl in Hops. apply andb_true_iff in Hops. destruct Hops as [Ho Hops].
    rewrite run_cons.
    destruct (do_op_instants cfg clock o m Hmono exact_sum_monotone Ho)
      as (d & _ & Hr & H).
    destruct (do_op cfg clock o m) as [[u|e] m1]; simpl in Hr, H;
      [|discriminate].
    specialize (IH m1 Hops). unfold float_add, exact_sum in H.
    destruct H as [[_ Ht]|(c & _ & Hle & Hge)]; lia.
Qed.

Lemma deadline_never_moves_back_witness :
  (0 <= SAVINGINTERVALS configuration)%Z
  /\ (forall n, (jump_clock n <= jump_clock (S n))%Z)
  /\ forallb is_write_op patient_ops = true
  /\ (time (fh (fresh_machine jump_clock))
      <= time (fh (snd (run configuration jump_clock patient_ops
                            (fresh_machine jump_clock)))))%Z.
Proof.
  assert (HW : (0 <= SAVINGINTERVALS configuration)%Z)
    by (vm_compute; discriminate).
  split; [exact HW|]. split; [exact jump_clock_mono|].
  split; [reflexivity|].
  exact (deadline_never_moves_back configuration jump_clock patient_ops
           (fresh_machine jump_clock) HW jump_clock_mono eq_refl).
Defined.

(* ================================================================== *)
(** ** What [read] leaves alone *)

Lemma queries_made_length_query_events DEBUG self (w : string) :
  file_io (query_events DEBUG self w) = [].
Proof.
  unfold query_events.
  destruct (debug DEBUG ["LOG_GPIB"]), (debug DEBUG ["NOGPIB"]); reflexivity.
Qed.

Lemma after_queries_frame DEBUG self (ws : list string) (m : machine) :
  fh (after_queries DEBUG self ws m) = fh m
  /\ monotonic_calls (after_queries DEBUG self ws m) = monotonic_calls m
  /\ queries (after_queries DEBUG self ws m)
     = queries m
       + (if debug DEBUG ["NOGPIB"] then 0 else List.length ws)
  /\ exists d, log (after_queries DEBUG self ws m) = log m ++ d
               /\ file_io d = [] /\ queries_made d = ws.
Proof.
  revert m; induction ws as [|w ws IH]; intros m.
  - cbn. repeat split; try (destruct (debug DEBUG ["NOGPIB"]); lia).
    exists []. now rewrite app_nil_r.
  - rewrite after_queries_cons.
    destruct (IH (after_query DEBUG self w m)) as (Hf & Hc & Hq & d & Hl & Hio & Hqm).
    split; [rewrite Hf; reflexivity|].
    split; [rewrite Hc; reflexivity|].
    split.
    { rewrite Hq. cbn [after_query queries List.length].
      destruct (debug DEBUG ["NOGPIB"]); lia. }
    exists (query_events DEBUG self w ++ d). split; [|split].
    + rewrite Hl. cbn [after_query log]. now rewrite <- app_assoc.
    + rewrite file_io_app, Hio, queries_made_length_query_events.
      reflexivity.
    + rewrite queries_made_app, queries_made_query_events, Hqm. reflexivity.
Qed.

(** The machine after [read] is the machine after some of its queries. *)
Lemma read_after_queries DEBUG self instrument pyfloat
      (float : string -> option pyfloat) (m : machine) :
  exists ws,
    snd (LAKESHORE.read DEBUG self instrument pyfloat float m)
    = after_queries DEBUG self ws m.
Proof.
  rewrite read_eq.
  destruct (float (answer DEBUG instrument m 0 "RDGR? 1")); [|eexists; reflexivity].
  destruct (float (answer DEBUG instrument m 1 "RDGK? 1")); [|eexists; reflexivity].
  destruct (float (answer DEBUG instrument m 2 "SETP?")); [|eexists; reflexivity].
  destruct (Py.int (answer DEBUG instrument m 3 "HTRRNG?")); [|eexists; reflexivity].
  destruct (float (answer DEBUG instrument m 4 "HTR?")); eexists; reflexivity.
Qed.

(** X16.  [read] is a bystander of the log file: whether it returns or
    raises, it leaves the writer as it is, does not read the monotonic
    clock and does no file operation; and it asks the instrument once for
    each call of [query], or not at all under the flag NOGPIB. *)
Theorem read_leaves_writer_alone DEBUG self instrument (pyfloat : Type)
        (float : string -> option pyfloat) (m : machine) :
  fh (snd (LAKESHORE.read DEBUG self instrument pyfloat float m)) = fh m
  /\ monotonic_calls (snd (LAKESHORE.read DEBUG self instrument pyfloat float m))
     = monotonic_calls m
  /\ file_io
       (since m (snd (LAKESHORE.read DEBUG self instrument pyfloat float m)))
     = []
  /\ queries (snd (LAKESHORE.read DEBUG self instrument pyfloat float m))
     = queries m
       + (if debug DEBUG ["NOGPIB"] then 0
          else List.length
                 (queries_made
                    (since m
                       (snd (LAKESHORE.read DEBUG self instrument pyfloat
                                            float m))))).
Proof.
  destruct (read_after_queries DEBUG self instrument pyfloat float m)
    as (ws & ->).
  destruct (after_queries_frame DEBUG self ws m)
    as (Hf & Hc & Hq & d & Hl & Hio & Hqm).
  rewrite (since_app _ _ _ Hl), Hqm. repeat split; assumption.
Qed.

(** X17.  Under the flag NOGPIB [read] is a stub: it never asks the
    instrument, and returns the sample whose heater range is 1 and whose
    four other values are what [float] makes of the text "1". *)
Theorem read_stub DEBUG self instrument (pyfloat : Type)
        (float : string -> option pyfloat) (one : pyfloat) (m : machine) :
  debug DEBUG ["NOGPIB"] = true ->
  float "1"%string = Some one ->
  fst (LAKESHORE.read DEBUG self instrument pyfloat float m)
  = Ok (one, one, one, 1%Z, one)
  /\ queries (snd (LAKESHORE.read DEBUG self instrument pyfloat float m))
     = queries m.
Proof.
  intros HN H1. rewrite read_eq. unfold answer. rewrite HN, H1.
  change (Py.int "1") with (Some 1%Z). cbn [fst snd].
  split; [reflexivity|].
  destruct (after_queries_frame DEBUG self five_queries m) as (_ & _ & Hq & _).
  rewrite Hq, HN. lia.
Qed.

Lemma read_stub_witness :
  debug _DEBUG ["NOGPIB"] = true
  /\ Float.float "1" = Some (Float.Finite false 4503599627370496 (-52))
  /\ fst (LAKESHORE.read _DEBUG sample_LS faulty_instrument Float.t
                         Float.float machine0)
     = Ok (Float.Finite false 4503599627370496 (-52),
           Float.Finite false 4503599627370496 (-52),
           Float.Finite false 4503599627370496 (-52), 1%Z,
           Float.Finite false 4503599627370496 (-52)).
Proof.
  split; [reflexivity|]. split; [reflexivity|].
  exact (proj1 (read_stub _DEBUG sample_LS faulty_instrument Float.t
                  Float.float (Float.Finite false 4503599627370496 (-52))
                  machine0 eq_refl eq_refl)).
Defined.

(* ================================================================== *)
(** ** The turns of the sampling loop *)

Section Turns.

Variable DEBUG : list string.
Variable cfg : config.
Variable clock : nat -> Z.
Variable LS : LAKESHORE.t.
Variable instrument : nat -> string -> string.
Variable pyfloat : Type.
Variable float : string -> option pyfloat.
Variable fmt_12_1f : pyfloat -> string.
Variable fmt_8_3e : pyfloat -> string.

Lemma bind_emit {A : Type} (e : event) (k : unit -> M A) (m : machine) :
  bind (emit e) k m = k tt (logged [e] m).
Proof. reflexivity. Qed.

Lemma bind_ret {A B : Type} (a : A) (k : A -> M B) (m : machine) :
  bind (ret a) k m = k a m.
Proof. reflexivity. Qed.

Lemma logged_logged (l1 l2 : list event) (m : machine) :
  logged l2 (logged l1 m) = logged (l1 ++ l2) m.
Proof. unfold logged. cbn [fh monotonic_calls queries log]. now rewrite app_assoc. Qed.

(** A turn, from its reading of the instrument on. *)
Lemma turn_eq {sum : float_sum} (i : nat) (now : datetime) (s : pyfloat)
      (m : machine) :
  turn DEBUG cfg clock LS instrument pyfloat float fmt_12_1f fmt_8_3e
       i now s m
  = match LAKESHORE.read DEBUG LS instrument pyfloat float
            (logged (prelude DEBUG i) m) with
    | (Ok x, m3) =>
        if debug DEBUG ["SHOWDATA"] then (Raise NameError, m3)
        else writedata cfg clock (raw_of fmt_12_1f fmt_8_3e ((now, s), x)) m3
    | (Raise e, m3) => (Raise e, m3)
    end.
Proof.
  unfold turn, prelude.
  destruct (debug DEBUG ["SHOWDATA"]).
  - rewrite bind_emit, bind_emit, logged_logged. unfold bind at 1.
    destruct (LAKESHORE.read DEBUG LS instrument pyfloat float _)
      as [[[[[[T1R T1T] TSP] HTR] HTV]|e] m3]; reflexivity.
  - rewrite bind_ret, bind_emit. cbn [app]. unfold bind at 1.
    destruct (LAKESHORE.read DEBUG LS instrument pyfloat float _)
      as [[[[[[T1R T1T] TSP] HTR] HTV]|e] m3]; [|reflexivity].
    rewrite !bind_ret. cbn [raw_of]. rewrite record_eq. reflexivity.
Qed.

Lemma answer_logged (l : list event) (m : machine) (k : nat) (w : string) :
  answer DEBUG instrument (logged l m) k w = answer DEBUG instrument m k w.
Proof. reflexivity. Qed.

Lemma since_read_logged (l : list event) (m : machine) :
  fh (snd (LAKESHORE.read DEBUG LS instrument pyfloat float (logged l m)))
  = fh m
  /\ exists d,
       log (snd (LAKESHORE.read DEBUG LS instrument pyfloat float
                                (logged l m)))
       = log m ++ l ++ d
       /\ file_io d = [].
Proof.
  destruct (read_after_queries DEBUG LS instrument pyfloat float (logged l m))
    as (ws & ->).
  destruct (after_queries_frame DEBUG LS ws (logged l m))
    as (Hf & _ & _ & d & Hl & Hio & _).
  split; [exact Hf|]. exists d. split; [|exact Hio].
  rewrite Hl. cbn [logged log]. now rewrite <- app_assoc.
Qed.

Lemma file_io_prelude (i : nat) : file_io (prelude DEBUG i) = [].
Proof. unfold prelude. destruct (debug DEBUG ["SHOWDATA"]); reflexivity. Qed.

(** X18.  A turn never writes a sample it could not read whole: when one
    of the five conversions fails, the turn raises [ValueError] and leaves
    the writer, buffer included, and the file as they were. *)
Theorem turn_with_failed_read (i : nat) (now : datetime) (s : pyfloat)
        (m : machine) :
  float (answer DEBUG instrument m 0 "RDGR? 1") = None
  \/ float (answer DEBUG instrument m 1 "RDGK? 1") = None
  \/ float (answer DEBUG instrument m 2 "SETP?") = None
  \/ Py.int (answer DEBUG instrument m 3 "HTRRNG?") = None
  \/ float (answer DEBUG instrument m 4 "HTR?") = None ->
  fst (turn DEBUG cfg clock LS instrument pyfloat float fmt_12_1f fmt_8_3e
            i now s m) = Raise ValueError
  /\ fh (snd (turn DEBUG cfg clock LS instrument pyfloat float fmt_12_1f
                   fmt_8_3e i now s m)) = fh m
  /\ file_io
       (since m
          (snd (turn DEBUG cfg clock LS instrument pyfloat float fmt_12_1f
                     fmt_8_3e i now s m))) = [].
Proof.
  intros Hfail. rewrite turn_eq.
  destruct (since_read_logged (prelude DEBUG i) m) as (Hf & d & Hl & Hio).
  assert (Hr : fst (LAKESHORE.read DEBUG LS instrument pyfloat float
                                   (logged (prelude DEBUG i) m))
               = Raise ValueError).
  { rewrite read_eq, !answer_logged.
    destruct (float (answer DEBUG instrument m 0 "RDGR? 1")); [|reflexivity].
    destruct (float (answer DEBUG instrument m 1 "RDGK? 1")); [|reflexivity].
    destruct (float (answer DEBUG instrument m 2 "SETP?")); [|reflexivity].
    destruct (Py.int (answer DEBUG instrument m 3 "HTRRNG?")); [|reflexivity].
    destruct (float (answer DEBUG instrument m 4 "HTR?")); [|reflexivity].
    exfalso. destruct Hfail as [H|[H|[H|[H|H]]]]; discriminate. }
  destruct (LAKESHORE.read DEBUG LS instrument pyfloat float
                           (logged (prelude DEBUG i) m)) as [[x|e] m3];
    cbn [fst snd] in *; [discriminate|].
  injection Hr as ->. split; [reflexivity|]. split; [exact Hf|].
  rewrite (since_app _ _ _ Hl), file_io_app, file_io_prelude, Hio.
  reflexivity.
Qed.

(** X19.  Under the flag SHOWDATA the loop cannot work: every turn raises,
    [NameError] for the unbound [data] when the reading succeeded, and
    leaves the writer and the file as they were. *)
Theorem turn_under_SHOWDATA (i : nat) (now : datetime) (s : pyfloat)
        (m : machine) :
  debug DEBUG ["SHOWDATA"] = true ->
  (fst (turn DEBUG cfg clock LS instrument pyfloat float fmt_12_1f fmt_8_3e
             i now s m) = Raise NameError
   \/ fst (turn DEBUG cfg clock LS instrument pyfloat float fmt_12_1f
                fmt_8_3e i now s m) = Raise ValueError)
  /\ fh (snd (turn DEBUG cfg clock LS instrument pyfloat float fmt_12_1f
                   fmt_8_3e i now s m)) = fh m
  /\ file_io
       (since m
          (snd (turn DEBUG cfg clock LS instrument pyfloat float fmt_12_1f
                     fmt_8_3e i now s m))) = [].
Proof.
  intros HS. rewrite turn_eq, HS.
  destruct (since_read_logged (prelude DEBUG i) m) as (Hf & d & Hl & Hio).
  pose proof (read_eq DEBUG LS instrument pyfloat float
                (logged (prelude DEBUG i) m)) as Hr.
  assert (He : forall e,
             fst (LAKESHORE.read DEBUG LS instrument pyfloat float
                                 (logged (prelude DEBUG i) m)) = Raise e
             -> e = ValueError).
  { intros e. rewrite Hr.
    repeat match goal with
           | |- context [match ?x with Some _ => _ | None => _ end] =>
               destruct x
           end; cbn [fst]; congruence. }
  clear Hr.
  destruct (LAKESHORE.read DEBUG LS instrument pyfloat float
                           (logged (prelude DEBUG i) m)) as [[x|e] m3];
    cbn [fst snd] in *.
  - split; [left; reflexivity|]. split; [exact Hf|].
    rewrite (since_app _ _ _ Hl), file_io_app, file_io_prelude, Hio.
    reflexivity.
  - rewrite (He e eq_refl). split; [right; reflexivity|]. split; [exact Hf|].
    rewrite (since_app _ _ _ Hl), file_io_app, file_io_prelude, Hio.
    reflexivity.
Qed.

Lemma file_io_nil_appends_only (d : list event) :
  file_io d = [] -> appends_only d = true.
Proof.
  induction d as [|e d IH]; [reflexivity|].
  destruct e; cbn; intros H; try discriminate; apply IH; exact H.
Qed.

Lemma accounted_quiet (m m1 : machine) (d : list event) :
  fh m1 = fh m -> log m1 = log m ++ d -> file_io d = [] ->
  accounted m m1 [].
Proof.
  intros Hf Hl Hio. exists d. split; [exact Hl|].
  split; [apply file_io_nil_appends_only; exact Hio|].
  left. rewrite Hf, app_nil_r. repeat split. exact Hio.
Qed.

Hypothesis no_SHOWDATA : debug DEBUG ["SHOWDATA"] = false.
Hypothesis floats_convert :
  forall m k w, w <> "HTRRNG?"%string ->
                float (answer DEBUG instrument m k w) <> None.
Hypothesis ints_convert :
  forall m k, Py.int (answer DEBUG instrument m k "HTRRNG?") <> None.

Lemma read_ok (m : machine) :
  exists x,
    LAKESHORE.read DEBUG LS instrument pyfloat float m
    = (Ok x, after_queries DEBUG LS five_queries m).
Proof.
  rewrite read_eq.
  destruct (float (answer DEBUG instrument m 0 "RDGR? 1")) eqn:E0;
    [|exfalso; refine (floats_convert _ _ _ _ E0); discriminate].
  destruct (float (answer DEBUG instrument m 1 "RDGK? 1")) eqn:E1;
    [|exfalso; refine (floats_convert _ _ _ _ E1); discriminate].
  destruct (float (answer DEBUG instrument m 2 "SETP?")) eqn:E2;
    [|exfalso; refine (floats_convert _ _ _ _ E2); discriminate].
  destruct (Py.int (answer DEBUG instrument m 3 "HTRRNG?")) eqn:E3;
    [|exfalso; exact (ints_convert _ _ E3)].
  destruct (float (answer DEBUG instrument m 4 "HTR?")) eqn:E4;
    [|exfalso; refine (floats_convert _ _ _ _ E4); discriminate].
  eexists. reflexivity.
Qed.

Lemma turn_ok {sum : float_sum} (i : nat) (now : datetime) (s : pyfloat)
      (m : machine) :
  exists x,
    fst (turn DEBUG cfg clock LS instrument pyfloat float fmt_12_1f fmt_8_3e
              i now s m) = Ok tt
    /\ accounted m
         (snd (turn DEBUG cfg clock LS instrument pyfloat float fmt_12_1f
                    fmt_8_3e i now s m))
         [raw_of fmt_12_1f fmt_8_3e ((now, s), x)].
Proof.
  rewrite turn_eq, no_SHOWDATA.
  destruct (since_read_logged (prelude DEBUG i) m) as (Hf & d & Hl & Hio).
  destruct (read_ok (logged (prelude DEBUG i) m)) as (x & Hr).
  rewrite Hr in *. cbn [snd] in *. exists x.
  destruct (do_op_accounted cfg clock
              (OpWrite (raw_of fmt_12_1f fmt_8_3e ((now, s), x)))
              (after_queries DEBUG LS five_queries
                 (logged (prelude DEBUG i) m)) eq_refl) as [Hok Ha].
  cbn [do_op passed] in Hok, Ha. split; [exact Hok|].
  change [raw_of fmt_12_1f fmt_8_3e ((now, s), x)]
    with ([] ++ [raw_of fmt_12_1f fmt_8_3e ((now, s), x)]).
  eapply accounted_trans; [|exact Ha].
  apply (accounted_quiet _ _ (prelude DEBUG i ++ d) Hf Hl).
  rewrite file_io_app, file_io_prelude, Hio. reflexivity.
Qed.

Lemma loop_ok {sum : float_sum} (turns : list (datetime * pyfloat))
      (i : nat) (m : machine) :
  exists samples,
    List.length samples = List.length turns
    /\ fst (loop DEBUG cfg clock LS instrument pyfloat float fmt_12_1f
                 fmt_8_3e i turns m) = Ok tt
    /\ accounted m
         (snd (loop DEBUG cfg clock LS instrument pyfloat float fmt_12_1f
                    fmt_8_3e i turns m))
         (map (raw_of fmt_12_1f fmt_8_3e) (combine turns samples)).
Proof.
  revert i m; induction turns as [|[now s] turns IH]; intros i m.
  - exists []. split; [reflexivity|]. split; [reflexivity|].
    apply accounted_refl.
  - cbn [loop]. destruct (turn_ok i now s m) as (x & Hok & Ha).
    unfold bind.
    destruct (turn DEBUG cfg clock LS instrument pyfloat float fmt_12_1f
                   fmt_8_3e i now s m) as [[u|e] m1];
      cbn [fst snd] in *; [|discriminate].
    destruct (IH (S i) m1) as (samples & Hlen & Hok' & Ha').
    exists (x :: samples). split; [cbn; rewrite Hlen; reflexivity|].
    split; [exact Hok'|].
    cbn [combine map].
    change (raw_of fmt_12_1f fmt_8_3e (now, s, x)
              :: map (raw_of fmt_12_1f fmt_8_3e) (combine turns samples))
      with ([raw_of fmt_12_1f fmt_8_3e (now, s, x)]
              ++ map (raw_of fmt_12_1f fmt_8_3e) (combine turns samples)).
    exact (accounted_trans _ _ _ _ _ Ha Ha').
Qed.

End Turns.

(** X20.  A run of the sampling loop in which every answer of the
    instrument converts, without the flag SHOWDATA and under a clock that
    never goes back, returns with an empty buffer after having written
    exactly one line for each turn, in the order of the turns, each made
    of the time of its turn and of a sample; the file has grown by the
    pending header, when there was a turn, and by these lines. *)
Theorem one_line_per_turn DEBUG cfg clock LS instrument (pyfloat : Type)
        (float : string -> option pyfloat)
        (fmt_12_1f fmt_8_3e : pyfloat -> string)
        (turns : list (datetime * pyfloat)) (m : machine) (c : string) :
  debug DEBUG ["SHOWDATA"] = false ->
  (forall m' k w, w <> "HTRRNG?"%string ->
                  float (answer DEBUG instrument m' k w) <> None) ->
  (forall m' k, Py.int (answer DEBUG instrument m' k "HTRRNG?") <> None) ->
  (forall n, (clock n <= clock (S n))%Z) ->
  data (fh m) = [] ->
  fst (RunningThread DEBUG cfg clock LS instrument pyfloat float
                     fmt_12_1f fmt_8_3e turns m) = Ok tt
  /\ data (fh (snd (RunningThread DEBUG cfg clock LS instrument pyfloat float
                                  fmt_12_1f fmt_8_3e turns m))) = []
  /\ exists samples,
       List.length samples = List.length turns
       /\ lines_written
            (since m
               (snd (RunningThread DEBUG cfg clock LS instrument pyfloat
                                   float fmt_12_1f fmt_8_3e turns m)))
          = map (line_of fmt_12_1f fmt_8_3e) (combine turns samples)
       /\ file_content c
            (log (snd (RunningThread DEBUG cfg clock LS instrument pyfloat
                                     float fmt_12_1f fmt_8_3e turns m)))
          = (file_content c (log m)
             ++ (if Py.nonempty turns then pending_text (fh m)
                 else EmptyString)
             ++ joined (map (line_of fmt_12_1f fmt_8_3e)
                            (combine turns samples)))%string.
Proof.
  intros HS Hf Hi Hmono Hd.
  destruct (loop_ok DEBUG cfg clock LS instrument pyfloat float fmt_12_1f
              fmt_8_3e HS Hf Hi turns 0 m) as (samples & Hlen & Hok & Ha).
  unfold RunningThread, bind.
  destruct (loop DEBUG cfg clock LS instrument pyfloat float fmt_12_1f
                 fmt_8_3e 0 turns m) as [[u|e] m1];
    cbn [fst snd] in *; [|discriminate].
  destruct (do_op_accounted cfg clock OpFlush m1 eq_refl) as [Hok2 Ha2].
  cbn [do_op passed] in Hok2, Ha2.
  pose proof (flushdata_empties cfg clock m1 Hmono) as He.
  pose proof (accounted_trans _ _ _ _ _ Ha Ha2) as Hall.
  rewrite app_nil_r in Hall.
  split; [exact Hok2|]. split; [exact He|].
  exists samples. split; [exact Hlen|].
  destruct (accounted_all_written _ _ _ Hall He) as (Hlw & _ & _).
  rewrite Hd in Hlw. cbn [app] in Hlw. rewrite map_map in Hlw.
  split; [exact Hlw|].
  rewrite (accounted_file_content _ _ _ c Hall He), Hd. cbn [app].
  rewrite map_map.
  assert (Hne : Py.nonempty (map (raw_of fmt_12_1f fmt_8_3e)
                                 (combine turns samples))
                = Py.nonempty turns).
  { destruct turns, samples; try reflexivity; discriminate. }
  rewrite Hne. reflexivity.
Qed.

Lemma steady_floats (m' : machine) (k : nat) (w : string) :
  w <> "HTRRNG?"%string ->
  Float.float (answer quiet_DEBUG steady_instrument m' k w) <> None.
Proof.
  intros _. unfold answer, steady_instrument. cbn [quiet_DEBUG].
  change (debug [] ["NOGPIB"]) with false. cbv iota.
  destruct (String.eqb w "HTRRNG?"); vm_compute; discriminate.
Qed.

Lemma steady_ints (m' : machine) (k : nat) :
  Py.int (answer quiet_DEBUG steady_instrument m' k "HTRRNG?") <> None.
Proof. vm_compute. discriminate. Qed.

Lemma one_line_per_turn_witness :
  debug quiet_DEBUG ["SHOWDATA"] = false
  /\ (forall n, (brisk_clock n <= brisk_clock (S n))%Z)
  /\ data (fh (fresh_machine brisk_clock)) = []
  /\ fst (RunningThread quiet_DEBUG configuration brisk_clock sample_LS
                        steady_instrument Float.t Float.float
                        Float.fmt_12_1f Float.fmt_8_3e
                        [(sample_now, sample_time); (sample_now, sample_time)]
                        (fresh_machine brisk_clock)) = Ok tt
  /\ data (fh (snd (RunningThread quiet_DEBUG configuration brisk_clock
                                  sample_LS steady_instrument Float.t
                                  Float.float Float.fmt_12_1f Float.fmt_8_3e
                                  [(sample_now, sample_time);
                                   (sample_now, sample_time)]
                                  (fresh_machine brisk_clock)))) = [].
Proof.
  split; [reflexivity|]. split; [exact brisk_clock_mono|].
  split; [reflexivity|].
  pose proof (one_line_per_turn quiet_DEBUG configuration brisk_clock
                sample_LS steady_instrument Float.t Float.float
                Float.fmt_12_1f Float.fmt_8_3e
                [(sample_now, sample_time); (sample_now, sample_time)]
                (fresh_machine brisk_clock) EmptyString eq_refl
                steady_floats steady_ints brisk_clock_mono eq_refl)
    as (Hok & Hd & _).
  split; [exact Hok|exact Hd].
Defined.

Lemma turn_with_failed_read_witness :
  Float.float (answer quiet_DEBUG faulty_instrument
                      (fresh_machine brisk_clock) 2 "SETP?") = None
  /\ fst (turn quiet_DEBUG configuration brisk_clock sample_LS
               faulty_instrument Float.t Float.float Float.fmt_12_1f
               Float.fmt_8_3e 0 sample_now sample_time
               (fresh_machine brisk_clock)) = Raise ValueError
  /\ fh (snd (turn quiet_DEBUG configuration brisk_clock sample_LS
                   faulty_instrument Float.t Float.float Float.fmt_12_1f
                   Float.fmt_8_3e 0 sample_now sample_time
                   (fresh_machine brisk_clock)))
     = fh (fresh_machine brisk_clock).
Proof.
  assert (H : Float.float (answer quiet_DEBUG faulty_instrument
                                  (fresh_machine brisk_clock) 2 "SETP?")
              = None) by reflexivity.
  split; [exact H|].
  pose proof (turn_with_failed_read quiet_DEBUG configuration brisk_clock
                sample_LS faulty_instrument Float.t Float.float
                Float.fmt_12_1f Float.fmt_8_3e 0 sample_now sample_time
                (fresh_machine brisk_clock)
                (or_intror (or_intror (or_introl H))))
    as (Hr & Hf & _).
  split; [exact Hr|exact Hf].
Defined.

Lemma turn_under_SHOWDATA_witness :
  debug ["SHOWDATA"]%string ["SHOWDATA"] = true
  /\ fh (snd (turn ["SHOWDATA"]%string configuration brisk_clock sample_LS
                   steady_instrument Float.t Float.float Float.fmt_12_1f
                   Float.fmt_8_3e 0 sample_now sample_time
                   (fresh_machine brisk_clock)))
     = fh (fresh_machine brisk_clock)
  /\ file_io
       (since (fresh_machine brisk_clock)
          (snd (turn ["SHOWDATA"]%string configuration brisk_clock sample_LS
                     steady_instrument Float.t Float.float Float.fmt_12_1f
                     Float.fmt_8_3e 0 sample_now sample_time
                     (fresh_machine brisk_clock)))) = [].
Proof.
  split; [reflexivity|].
  exact (proj2 (turn_under_SHOWDATA ["SHOWDATA"]%string configuration
                  brisk_clock sample_LS steady_instrument Float.t
                  Float.float Float.fmt_12_1f Float.fmt_8_3e 0 sample_now
                  sample_time (fresh_machine brisk_clock) eq_refl)).
Defined.

(* ================================================================== *)
(** ** The end of the script *)

(** X21.  The script shuts down in this order: it waits for the line of
    input, clears [Running], joins the thread of the sampling loop, stops
    and closes the instrument, flushes the writer and exits; run from its
    first statement to its last it uses no name that is not bound, and
    ends with the thread joined and [Running] false, so that the final
    [flushdata] comes after the last act of the sampling loop. *)
Theorem shutdown_order :
  in_order script
    [LOOP_start; input_; Running_set false; LOOP_join; LS_Stop; LS_Close;
     fh_flushdata; exit_]
  /\ exec_all script no_globals
     = Some {| LS_bound := true; fh_bound := true; Running := Some false;
               LOOP := Joined |}.
Proof.
  split; [|reflexivity].
  cbn [in_order].
  repeat split;
    match goal with
    | |- precedes _ _ _ =>
        eapply precedes_at; [reflexivity|reflexivity|]; repeat constructor
    end.
Qed.

(* ================================================================== *)
(** ** A header given late *)

Lemma after_savedata_header {sum : float_sum} cfg clock (m : machine) :
  header_pending (fh m) = false ->
  headertext (fh (after_savedata cfg clock m)) = headertext (fh m).
Proof.
  intros Hp. destruct (data (fh m)) as [|x xs] eqn:Hd.
  - rewrite after_savedata_empty by exact Hd. reflexivity.
  - destruct (Z.lt_ge_cases (clock (monotonic_calls m)) (time (fh m)))
      as [Ht|Ht].
    + rewrite after_savedata_early by (congruence || exact Ht). reflexivity.
    + rewrite after_savedata_due by (congruence || exact Ht).
      cbn [fh flushed headertext]. rewrite Hp. reflexivity.
Qed.

Lemma do_op_header_kept {sum : float_sum} cfg clock (o : op) (m : machine) :
  header_pending (fh m) = false ->
  is_data_op o = true ->
  headertext (fh (snd (do_op cfg clock o m))) = headertext (fh m).
Proof.
  intros Hp Ho. destruct o as [b|x| |]; try discriminate; cbn [do_op].
  - rewrite writedata_eq. cbn [snd]. rewrite after_savedata_header; auto.
  - rewrite savedata_eq. cbn [snd]. rewrite after_savedata_header; auto.
  - rewrite flushdata_eq. cbn [snd]. rewrite after_savedata_header; auto.
Qed.

Lemma run_header_kept {sum : float_sum} cfg clock (ops : list op)
      (m : machine) :
  header_pending (fh m) = false ->
  forallb is_data_op ops = true ->
  headertext (fh (snd (run cfg clock ops m))) = headertext (fh m).
Proof.
  revert m; induction ops as [|o ops IH]; intros m Hp Hops; [reflexivity|].
  simpl in Hops. apply andb_true_iff in Hops. destruct Hops as [Ho Hops].
  rewrite run_cons.
  pose proof (do_op_header_kept cfg clock o m Hp Ho) as Hk.
  destruct (do_op_accounted cfg clock o m Ho) as [Hr _].
  destruct (do_op cfg clock o m) as [[u|e] m1]; cbn [fst snd] in *;
    [|discriminate].
  rewrite IH; [exact Hk| |exact Hops].
  unfold header_pending in *. rewrite Hk. exact Hp.
Qed.

(** X22.  A writer flushed before it was given any header keeps an empty
    header that is still pending, so that a header block given afterwards
    is accepted and lands in the middle of the file: after
    [writedata(a)], [flushdata], [writeheaderblock(b)], [writedata(c)] and
    [flushdata], under a clock that never goes back, the file has grown by
    the line [a], then the text of the block, then the line [c]. *)
Theorem late_header_lands_mid_file cfg clock (a b c0 : string) (m : machine)
        (c : string) :
  (forall n, (clock n <= clock (S n))%Z) ->
  headertext (fh m) = Some EmptyString ->
  data (fh m) = [] ->
  fst (run cfg clock
           ([OpWrite a; OpFlush] ++ [OpHeader b] ++ [OpWrite c0; OpFlush]) m)
  = Ok tt
  /\ file_content c
       (log (snd (run cfg clock
                      ([OpWrite a; OpFlush] ++ [OpHeader b]
                       ++ [OpWrite c0; OpFlush]) m)))
     = (file_content c (log m) ++ with_nl a ++ block_text b
        ++ with_nl c0)%string.
Proof.
  intros Hmono Hh Hd.
  (* the first line and its flush *)
  destruct (run_accounted cfg clock [OpWrite a; OpFlush] m eq_refl)
    as [Hr1 Ha1].
  pose proof (run_then_flush_empties cfg clock [OpWrite a] m Hmono eq_refl)
    as He1.
  cbn [app] in He1.
  pose proof (accounted_file_content _ _ _ c Ha1 He1) as Hc1.
  assert (Hp : header_pending (fh m) = false)
    by (unfold header_pending; rewrite Hh; reflexivity).
  pose proof (run_header_kept cfg clock [OpWrite a; OpFlush] m Hp eq_refl)
    as Hk1.
  rewrite run_app.
  destruct (run cfg clock [OpWrite a; OpFlush] m) as [[u|e] m1];
    cbn [fst snd] in *; [|discriminate].
  (* the header block *)
  rewrite Hh in Hk1. rewrite run_app, run_cons. cbn [do_op].
  rewrite (writeheaderblock_pending b EmptyString m1 Hk1).
  change (run cfg clock [] ?x) with (@pair (result unit) machine (Ok tt) x).
  cbv beta iota.
  (* the second line and its flush *)
  match goal with
  | |- context [run cfg clock [OpWrite c0; OpFlush] ?m2] =>
      destruct (run_accounted cfg clock [OpWrite c0; OpFlush] m2 eq_refl)
        as [Hr2 Ha2];
      pose proof (run_then_flush_empties cfg clock [OpWrite c0] m2 Hmono
                    eq_refl) as He2;
      cbn [app] in He2;
      pose proof (accounted_file_content _ _ _ c Ha2 He2) as Hc2;
      destruct (run cfg clock [OpWrite c0; OpFlush] m2) as [[u2|e2] m3]
  end; cbn [fst snd] in *; [|discriminate].
  split; [exact Hr2|].
  rewrite Hc2. cbn [fh log data set_headertext pending_text headertext].
  rewrite Hc1, He1, Hd. unfold pending_text. rewrite Hh.
  cbn [app Py.nonempty passed map joined String.append].
  rewrite ?append_assoc, ?append_empty_r. reflexivity.
Qed.

Lemma late_header_lands_mid_file_witness :
  (forall n, (brisk_clock n <= brisk_clock (S n))%Z)
  /\ headertext (fh (snd (init _DEBUG configuration brisk_clock
                               "20251128T120000" "./" "LS370_" machine0)))
     = Some EmptyString
  /\ file_content EmptyString
       (log (snd (run configuration brisk_clock
                      ([OpWrite "a"; OpFlush] ++ [OpHeader second_block]
                       ++ [OpWrite "c"; OpFlush])
                      (snd (init _DEBUG configuration brisk_clock
                                 "20251128T120000" "./" "LS370_" machine0)))))
     = (file_content EmptyString
          (log (snd (init _DEBUG configuration brisk_clock
                          "20251128T120000" "./" "LS370_" machine0)))
        ++ with_nl "a" ++ block_text second_block ++ with_nl "c")%string.
Proof.
  split; [exact brisk_clock_mono|]. split; [reflexivity|].
  exact (proj2 (late_header_lands_mid_file configuration brisk_clock
                  "a" second_block "c"
                  (snd (init _DEBUG configuration brisk_clock
                             "20251128T120000" "./" "LS370_" machine0))
                  EmptyString brisk_clock_mono eq_refl eq_refl)).
Defined.

(* ================================================================== *)
(** ** The lines of the sampling loop *)

Lemma answer_same_queries DEBUG instrument (m1 m2 : machine) (k : nat)
      (w : string) :
  queries m1 = queries m2 ->
  answer DEBUG instrument m1 k w = answer DEBUG instrument m2 k w.
Proof. intros H. unfold answer. now rewrite H. Qed.

Lemma answer_after_five_queries DEBUG self instrument (m : machine)
      (k : nat) (w : string) :
  answer DEBUG instrument (after_queries DEBUG self five_queries m) k w
  = answer DEBUG instrument m (5 + k) w.
Proof.
  unfold five_queries, after_queries. cbn [fold_left].
  rewrite !answer_after_query. reflexivity.
Qed.

Lemma queries_writedata {sum : float_sum} cfg clock (x : string)
      (m : machine) :
  queries (snd (writedata cfg clock x m)) = queries m.
Proof.
  rewrite writedata_eq. cbn [snd]. unfold after_savedata, after_append.
  cbn [fh data monotonic_calls queries time log set_data].
  destruct (data (fh m) ++ [x]); [reflexivity|].
  destruct (_ <? _)%Z; reflexivity.
Qed.

Lemma lines_written_prelude DEBUG (i : nat) :
  lines_written (prelude DEBUG i) = [].
Proof. unfold prelude. destruct (debug DEBUG ["SHOWDATA"]); reflexivity. Qed.

Section TurnLines.

Context {sum : float_sum}.
Variable DEBUG : list string.
Variable cfg : config.
Variable clock : nat -> Z.
Variable LS : LAKESHORE.t.
Variable instrument : nat -> string -> string.
Variable pyfloat : Type.
Variable float : string -> option pyfloat.
Variable fmt_12_1f : pyfloat -> string.
Variable fmt_8_3e : pyfloat -> string.
Variable turns : list (datetime * pyfloat).
Variable m0 : machine.

(** Up to the end of its reading of the instrument a turn writes no
    line. *)
Lemma keeps_lines_queries P (i : nat) (ws : list string) (m : machine) :
  keeps_lines P m (after_queries DEBUG LS ws (logged (prelude DEBUG i) m)).
Proof.
  apply (keeps_lines_trans P m (logged (prelude DEBUG i) m)).
  - apply (keeps_lines_quiet P _ _ (prelude DEBUG i)); try reflexivity.
    apply lines_written_prelude.
  - destruct (after_queries_quiet DEBUG LS ws (logged (prelude DEBUG i) m))
      as (Hf & d & Hl & Hw).
    exact (keeps_lines_quiet P _ _ d Hf Hl Hw).
Qed.

(** The turn number [i], started when [5 * i] queries have been made
    since [m0]: the line it passes to the writer is made of its time and
    of the answers to the next five queries, and when it returns five
    more queries have been made. *)
Lemma keeps_lines_turn (i : nat) (now : datetime) (s : pyfloat)
      (m : machine) :
  nth_error turns i = Some (now, s) ->
  (forall k w, answer DEBUG instrument m k w
               = answer DEBUG instrument m0 (5 * i + k) w) ->
  keeps_lines
    (from_reading DEBUG instrument float fmt_12_1f fmt_8_3e turns m0) m
    (snd (turn DEBUG cfg clock LS instrument pyfloat float
               fmt_12_1f fmt_8_3e i now s m))
  /\ (fst (turn DEBUG cfg clock LS instrument pyfloat float
                fmt_12_1f fmt_8_3e i now s m) = Ok tt ->
      forall k w,
        answer DEBUG instrument
          (snd (turn DEBUG cfg clock LS instrument pyfloat float
                     fmt_12_1f fmt_8_3e i now s m)) k w
        = answer DEBUG instrument m0 (5 * S i + k) w).
Proof.
  intros Hnth Hq. rewrite turn_eq, read_eq, !answer_logged.
  destruct (float (answer DEBUG instrument m 0 "RDGR? 1")) as [T1R|] eqn:E0;
    [|split; [apply keeps_lines_queries|discriminate]].
  destruct (float (answer DEBUG instrument m 1 "RDGK? 1")) as [T1T|] eqn:E1;
    [|split; [apply keeps_lines_queries|discriminate]].
  destruct (float (answer DEBUG instrument m 2 "SETP?")) as [TSP|] eqn:E2;
    [|split; [apply keeps_lines_queries|discriminate]].
  destruct (Py.int (answer DEBUG instrument m 3 "HTRRNG?")) as [HTR|] eqn:E3;
    [|split; [apply keeps_lines_queries|discriminate]].
  destruct (float (answer DEBUG instrument m 4 "HTR?")) as [HTV|] eqn:E4;
    [|split; [apply keeps_lines_queries|discriminate]].
  destruct (debug DEBUG ["SHOWDATA"]);
    [split; [apply keeps_lines_queries|discriminate]|].
  split.
  - eapply keeps_lines_trans; [apply keeps_lines_queries|].
    apply keeps_lines_writedata.
    exists i, now, s, T1R, T1T, TSP, HTR, HTV.
    rewrite Hq in E0, E1, E2, E3, E4. rewrite Nat.add_0_r in E0.
    repeat (split; [assumption|]). reflexivity.
  - intros _ k w.
    rewrite (answer_same_queries DEBUG instrument _ _ k w
               (queries_writedata cfg clock _ _)).
    rewrite answer_after_five_queries, answer_logged, Hq.
    f_equal. lia.
Qed.

Lemma keeps_lines_loop (rest : list (datetime * pyfloat)) (i : nat)
      (m : machine) :
  (forall k, nth_error rest k = nth_error turns (i + k)) ->
  (forall k w, answer DEBUG instrument m k w
               = answer DEBUG instrument m0 (5 * i + k) w) ->
  keeps_lines
    (from_reading DEBUG instrument float fmt_12_1f fmt_8_3e turns m0) m
    (snd (loop DEBUG cfg clock LS instrument pyfloat float
               fmt_12_1f fmt_8_3e i rest m)).
Proof.
  revert i m; induction rest as [|[now s] rest IH]; intros i m Hnth Hq.
  - apply keeps_lines_refl.
  - cbn [loop]. unfold bind.
    assert (Hi : nth_error turns i = Some (now, s)).
    { rewrite <- (Nat.add_0_r i), <- Hnth. reflexivity. }
    destruct (keeps_lines_turn i now s m Hi Hq) as [Hk Ha].
    destruct (turn DEBUG cfg clock LS instrument pyfloat float fmt_12_1f
                   fmt_8_3e i now s m) as [[[]|e] m1]; cbn [fst snd] in *;
      [|exact Hk].
    eapply keeps_lines_trans; [exact Hk|].
    apply IH; [|exact (Ha eq_refl)].
    intros k. replace (S i + k) with (i + S k) by lia.
    rewrite <- Hnth. reflexivity.
Qed.

Lemma keeps_lines_RunningThread :
  keeps_lines
    (from_reading DEBUG instrument float fmt_12_1f fmt_8_3e turns m0) m0
    (snd (RunningThread DEBUG cfg clock LS instrument pyfloat float
                        fmt_12_1f fmt_8_3e turns m0)).
Proof.
  unfold RunningThread, bind.
  assert (H : keeps_lines
                (from_reading DEBUG instrument float fmt_12_1f fmt_8_3e
                              turns m0) m0
                (snd (loop DEBUG cfg clock LS instrument pyfloat float
                           fmt_12_1f fmt_8_3e 0 turns m0))).
  { apply keeps_lines_loop; reflexivity. }
  destruct (loop DEBUG cfg clock LS instrument pyfloat float fmt_12_1f
                 fmt_8_3e 0 turns m0) as [[u|e] m1]; cbn [snd] in *;
    [|exact H].
  eapply keeps_lines_trans; [exact H|]. apply keeps_lines_flushdata.
Qed.

End TurnLines.

(** C7, as the code has it.  Every data line that the sampling loop
    writes, started on a writer with an empty buffer, is the line of one of
    its turns: seven fields, each followed by a tab, and a final newline.
    The fields are the time of day of the turn as HH:MM:SS.f, with one
    digit after the point, the seconds of the turn as [%12.1f], and the
    five values read in the turn: the answers to [RDGR? 1], [RDGK? 1] and
    [SETP?] converted with [float] and written as [%8.3e], the answer to
    [HTRRNG?] converted with [int] and written as a plain integer, and the
    answer to [HTR?] converted with [float] and written as [%8.3e].  The
    turn number [j] asks the queries number [5 * j] to [5 * j + 4] of the
    loop. *)
Theorem data_line_format {sum : float_sum} (DEBUG : list string)
        (cfg : config)
        (clock : nat -> Z) (LS : LAKESHORE.t)
        (instrument : nat -> string -> string) (pyfloat : Type)
        (float : string -> option pyfloat)
        (fmt_12_1f fmt_8_3e : pyfloat -> string)
        (turns : list (datetime * pyfloat)) (m : machine) :
  data (fh m) = [] ->
  Forall (fun x => valid_time (fst x)) turns ->
  Forall
    (fun text =>
       exists j now s T1R T1T TSP HTR HTV,
         nth_error turns j = Some (now, s)
         /\ float (answer DEBUG instrument m (5 * j) "RDGR? 1") = Some T1R
         /\ float (answer DEBUG instrument m (5 * j + 1) "RDGK? 1")
            = Some T1T
         /\ float (answer DEBUG instrument m (5 * j + 2) "SETP?") = Some TSP
         /\ Py.int (answer DEBUG instrument m (5 * j + 3) "HTRRNG?")
            = Some HTR
         /\ float (answer DEBUG instrument m (5 * j + 4) "HTR?") = Some HTV
         /\ is_stamp 1 (tenths now) = true
         /\ text = (tenths now ++ Py.tab
                    ++ fmt_12_1f s ++ Py.tab
                    ++ fmt_8_3e T1R ++ Py.tab
                    ++ fmt_8_3e T1T ++ Py.tab
                    ++ fmt_8_3e TSP ++ Py.tab
                    ++ Py.str_int HTR ++ Py.tab
                    ++ fmt_8_3e HTV ++ Py.tab
                    ++ Py.nl)%string)
    (lines_written
       (since m
          (snd (RunningThread DEBUG cfg clock LS instrument pyfloat float
                              fmt_12_1f fmt_8_3e turns m)))).
Proof.
  intros Hd Hv.
  destruct (keeps_lines_RunningThread DEBUG cfg clock LS instrument pyfloat
              float fmt_12_1f fmt_8_3e turns m) as (_ & d & Hl & Hw).
  { rewrite Hd. constructor. }
  rewrite (since_app _ _ _ Hl).
  eapply Forall_impl; [|exact Hw].
  intros text (w & (j & now & s & T1R & T1T & TSP & HTR & HTV & Hnth & E0
                    & E1 & E2 & E3 & E4 & ->) & ->).
  exists j, now, s, T1R, T1T, TSP, HTR, HTV.
  repeat (split; [assumption|]). split.
  - apply tenths_shape. rewrite Forall_forall in Hv.
    exact (Hv _ (nth_error_In _ _ Hnth)).
  - unfold with_nl, raw_line. rewrite !append_assoc. reflexivity.
Qed.

Lemma data_line_format_witness :
  data (fh (fresh_machine brisk_clock)) = []
  /\ Forall (fun x : datetime * Float.t => valid_time (fst x)) two_turns
  /\ lines_written
       (since (fresh_machine brisk_clock)
          (snd (RunningThread quiet_DEBUG configuration brisk_clock
                  sample_LS telling_instrument Float.t Float.float
                  Float.fmt_12_1f Float.fmt_8_3e two_turns
                  (fresh_machine brisk_clock))))
     = telling_lines
  /\ Forall
       (fun text =>
          exists j now s T1R T1T TSP HTR HTV,
            nth_error two_turns j = Some (now, s)
            /\ Float.float (answer quiet_DEBUG telling_instrument
                                   (fresh_machine brisk_clock) (5 * j)
                                   "RDGR? 1") = Some T1R
            /\ Float.float (answer quiet_DEBUG telling_instrument
                                   (fresh_machine brisk_clock) (5 * j + 1)
                                   "RDGK? 1") = Some T1T
            /\ Float.float (answer quiet_DEBUG telling_instrument
                                   (fresh_machine brisk_clock) (5 * j + 2)
                                   "SETP?") = Some TSP
            /\ Py.int (answer quiet_DEBUG telling_instrument
                              (fresh_machine brisk_clock) (5 * j + 3)
                              "HTRRNG?") = Some HTR
            /\ Float.float (answer quiet_DEBUG telling_instrument
                                   (fresh_machine brisk_clock) (5 * j + 4)
                                   "HTR?") = Some HTV
            /\ is_stamp 1 (tenths now) = true
            /\ text = (tenths now ++ Py.tab
                       ++ Float.fmt_12_1f s ++ Py.tab
                       ++ Float.fmt_8_3e T1R ++ Py.tab
                       ++ Float.fmt_8_3e T1T ++ Py.tab
                       ++ Float.fmt_8_3e TSP ++ Py.tab
                       ++ Py.str_int HTR ++ Py.tab
                       ++ Float.fmt_8_3e HTV ++ Py.tab
                       ++ Py.nl)%string)
       telling_lines.
Proof.
  assert (Hv : Forall (fun x : datetime * Float.t => valid_time (fst x))
                      two_turns).
  { repeat constructor; simpl; lia. }
  assert (E : lines_written
                (since (fresh_machine brisk_clock)
                   (snd (RunningThread quiet_DEBUG configuration brisk_clock
                           sample_LS telling_instrument Float.t Float.float
                           Float.fmt_12_1f Float.fmt_8_3e two_turns
                           (fresh_machine brisk_clock))))
              = telling_lines) by (vm_compute; reflexivity).
  split; [reflexivity|]. split; [exact Hv|]. split; [exact E|].
  rewrite <- E.
  exact (data_line_format quiet_DEBUG configuration brisk_clock sample_LS
           telling_instrument Float.t Float.float Float.fmt_12_1f
           Float.fmt_8_3e two_turns (fresh_machine brisk_clock) eq_refl Hv).
Defined.
